(** * Break-in detection over sshd logs

    A shallow embedding of [strauchm_homework2.cpp]: the string helpers the
    program calls on [std::string], the C library's [strptime]/[mktime] as far
    as [toSeconds] uses them, the per-user flag and login-time maps, the
    frequency check ([checkLog], [checkLogHelper]) and the line loop of
    [process], followed by the properties of the detection engine. *)

From Stdlib Require Import ZArith String Ascii List Lia DecimalString.
From stdpp Require Import gmap strings list fin_maps.

Local Open Scope Z_scope.

(** ** [std::string] operations used by the program *)

Module Str.

(** [hay.find(needle)]: scan for the first position at which [needle]
    is a prefix of what remains; [None] stands for [npos]. *)
Fixpoint find_from (needle hay : string) (pos : nat) : option nat :=
  if String.prefix needle hay then Some pos
  else match hay with
       | EmptyString => None
       | String _ rest => find_from needle rest (S pos)
       end.

Definition find (hay needle : string) : option nat := find_from needle hay 0.

(** [hay.find(needle) != std::string::npos] *)
Definition contains (hay needle : string) : bool :=
  match find hay needle with Some _ => true | None => false end.

(** [std::string::npos] as a 64-bit [size_t]. *)
Definition npos : Z := 2 ^ 64 - 1.

(** The [size_t] value that [find] returns. *)
Definition find_result (r : option nat) : Z :=
  match r with Some p => Z.of_nat p | None => npos end.

(** Narrowing of a [size_t] to a 32-bit [int] (two's complement). *)
Definition to_int (z : Z) : Z :=
  let m := z mod 2 ^ 32 in if m <? 2 ^ 31 then m else m - 2 ^ 32.

(** Conversion of an [int] to [size_t]. *)
Definition to_size_t (z : Z) : Z := z mod 2 ^ 64.

(** [s.substr(pos, n)]: [None] stands for the [std::out_of_range] that is
    thrown when [pos > s.size()]; otherwise at most [n] characters. *)
Definition substr (s : string) (pos : Z) (n : nat) : option string :=
  if Z.of_nat (String.length s) <? pos then None
  else Some (substring (Z.to_nat pos) n s).

(** [s.c_str()] as seen by a C function: the characters before the first
    NUL. *)
Fixpoint c_str (s : string) : string :=
  match s with
  | EmptyString => EmptyString
  | String c rest =>
      if Ascii.eqb c "000"%char then EmptyString else String c (c_str rest)
  end.

End Str.

(** ** The C library calls of [toSeconds]

    [strptime] is modelled for the conversions of the program's format
    ["%B %d %H:%M:%S"] in the C locale, [mktime] for the calls the
    program makes, in which [tm_isdst] is 0 and the time is read at the
    offset of the zone's standard time from UTC. *)

Module Libc.

Record tm := mk_tm {
  tm_sec : Z; tm_min : Z; tm_hour : Z;
  tm_mday : Z; tm_mon : Z; tm_year : Z; tm_isdst : Z }.

Definition isspace (c : ascii) : bool :=
  match c with
  | " " | "009" | "010" | "011" | "012" | "013" => true
  | _ => false
  end%char.

Definition isdigit (c : ascii) : bool :=
  (Ascii.leb "0" c && Ascii.leb c "9")%char.

Definition digit_val (c : ascii) : Z := Z.of_N (N_of_ascii c) - 48.

Definition tolower (c : ascii) : ascii :=
  if (Ascii.leb "A" c && Ascii.leb c "Z")%char
  then ascii_of_N (N_of_ascii c + 32) else c.

Fixpoint skip_spaces (rp : string) : string :=
  match rp with
  | String c rest => if isspace c then skip_spaces rest else rp
  | EmptyString => rp
  end.

(** [strncasecmp (name, rp, strlen (name)) == 0], giving what follows the
    match. *)
Fixpoint match_string (name rp : string) : option string :=
  match name with
  | EmptyString => Some rp
  | String a name' =>
      match rp with
      | String b rp' =>
          if Ascii.eqb (tolower a) (tolower b) then match_string name' rp'
          else None
      | EmptyString => None
      end
  end.

Definition month_names : list (string * string) :=
  [ ("January", "Jan"); ("February", "Feb"); ("March", "Mar");
    ("April", "Apr"); ("May", "May"); ("June", "Jun");
    ("July", "Jul"); ("August", "Aug"); ("September", "Sep");
    ("October", "Oct"); ("November", "Nov"); ("December", "Dec") ]%string.

(** A match that leaves [trp] beats the longest match so far when it
    ends further on, that is, leaves less.  The match so far is kept as
    the month number and what follows the match. *)
Definition beats (trp : string) (best : option (Z * string)) : bool :=
  match best with
  | None => true
  | Some (_, rp_longest) =>
      (String.length trp <? String.length rp_longest)%nat
  end.

Definition try_name (name rp : string) (cnt : Z)
    (best : option (Z * string)) : option (Z * string) :=
  match match_string name rp with
  | Some trp => if beats trp best then Some (cnt, trp) else None
  | None => None
  end.

(** The month conversion: every month is tried, full name before
    abbreviation, and the longest match wins. *)
Fixpoint match_month (names : list (string * string)) (cnt : Z)
    (rp : string) (best : option (Z * string)) : option (Z * string) :=
  match names with
  | [] => best
  | (full, ab) :: names' =>
      let best' :=
        match try_name full rp cnt best with
        | Some b => Some b
        | None =>
            match try_name ab rp cnt best with
            | Some b => Some b
            | None => best
            end
        end in
      match_month names' (cnt + 1) rp best'
  end.

(** The loop of [get_number] after its first digit: up to [n] further
    digits, as long as the value can still stay within [to]. *)
Fixpoint more_digits (n : nat) (to val : Z) (rp : string) : Z * string :=
  match n with
  | O => (val, rp)
  | S n' =>
      match rp with
      | String c rest =>
          if (val * 10 <=? to) && isdigit c
          then more_digits n' to (val * 10 + digit_val c) rest
          else (val, rp)
      | EmptyString => (val, rp)
      end
  end.

(** [get_number (from, to, n)]: skip white space, read at most [n]
    digits, fail without a digit or outside [from .. to]. *)
Definition get_number (from to : Z) (n : nat) (rp : string)
    : option (Z * string) :=
  match skip_spaces rp with
  | String c rest =>
      if isdigit c then
        let '(val, rp') := more_digits (Nat.pred n) to (digit_val c) rest in
        if (val <? from) || (to <? val) then None else Some (val, rp')
      else None
  | EmptyString => None
  end.

Definition set_mon (t : tm) (v : Z) : tm :=
  mk_tm (tm_sec t) (tm_min t) (tm_hour t) (tm_mday t) v (tm_year t)
        (tm_isdst t).
Definition set_mday (t : tm) (v : Z) : tm :=
  mk_tm (tm_sec t) (tm_min t) (tm_hour t) v (tm_mon t) (tm_year t)
        (tm_isdst t).
Definition set_hour (t : tm) (v : Z) : tm :=
  mk_tm (tm_sec t) (tm_min t) v (tm_mday t) (tm_mon t) (tm_year t)
        (tm_isdst t).
Definition set_min (t : tm) (v : Z) : tm :=
  mk_tm (tm_sec t) v (tm_hour t) (tm_mday t) (tm_mon t) (tm_year t)
        (tm_isdst t).
Definition set_sec (t : tm) (v : Z) : tm :=
  mk_tm v (tm_min t) (tm_hour t) (tm_mday t) (tm_mon t) (tm_year t)
        (tm_isdst t).

Definition number_into (set : tm -> Z -> tm) (from to : Z) (rp : string)
    (t : tm) : option (string * tm) :=
  match get_number from to 2 rp with
  | Some (v, rp') => Some (rp', set t v)
  | None => None
  end.

(** One conversion specification.  A field is stored only when its
    conversion succeeds; conversions the program does not use fail. *)
Definition conversion (conv : ascii) (rp : string) (t : tm)
    : option (string * tm) :=
  match conv with
  | "B" | "b" | "h" =>
      match match_month month_names 0 rp None with
      | Some (cnt, trp) => Some (trp, set_mon t cnt)
      | None => None
      end
  | "d" | "e" => number_into set_mday 1 31 rp t
  | "H" => number_into set_hour 0 23 rp t
  | "M" => number_into set_min 0 59 rp t
  | "S" => number_into set_sec 0 61 rp t
  | _ => None
  end%char.

(** [strptime (rp, fmt, &t)]: white space in the format skips any white
    space of the input, [%] starts a conversion, any other character must
    match itself.  The result is the structure as the call leaves it and
    whether the call succeeded (a non-null return). *)
Fixpoint strptime (rp fmt : string) (t : tm) {struct fmt} : tm * bool :=
  match fmt with
  | EmptyString => (t, true)
  | String c fmt' =>
      if isspace c then strptime (skip_spaces rp) fmt' t
      else if Ascii.eqb c "%" then
        match fmt' with
        | String conv fmt'' =>
            match conversion conv rp t with
            | Some (rp', t') => strptime rp' fmt'' t'
            | None => (t, false)
            end
        | EmptyString => (t, false)
        end
      else
        match rp with
        | String r rp' =>
            if Ascii.eqb r c then strptime rp' fmt' t else (t, false)
        | EmptyString => (t, false)
        end
  end.

Definition leapyear (year : Z) : bool :=
  ((year mod 4 =? 0) && negb (year mod 100 =? 0)) || (year mod 400 =? 0).

(** Days of the year before each month. *)
Definition mon_yday (leap : bool) : list Z :=
  if leap then [0; 31; 60; 91; 121; 152; 182; 213; 244; 274; 305; 335]
  else [0; 31; 59; 90; 120; 151; 181; 212; 243; 273; 304; 334].

(** Leap days in the years before [year]. *)
Definition leaps_before (year : Z) : Z :=
  (year - 1) / 4 - (year - 1) / 100 + (year - 1) / 400.

(** [mktime] as [toSeconds] calls it, with [tm_isdst = 0]: the fields are
    read as a local time without daylight saving, months outside
    [0 .. 11] carry into the year, and days, hours, minutes and seconds
    count linearly from there.  [gmtoff] is the offset of the zone's
    standard time from UTC in seconds (east positive); with the field at
    0 the library applies it also on the dates on which daylight saving
    is in force. *)
Definition mktime (gmtoff : Z) (t : tm) : Z :=
  let mon_years := tm_mon t / 12 in
  let mon_remainder := tm_mon t mod 12 in
  let lyear := tm_year t + 1900 + mon_years in
  let yday :=
    nth (Z.to_nat mon_remainder) (mon_yday (leapyear lyear)) 0
    + tm_mday t - 1 in
  let days :=
    365 * (lyear - 1970) + (leaps_before lyear - leaps_before 1970)
    + yday in
  ((days * 24 + tm_hour t) * 60 + tm_min t) * 60 + tm_sec t - gmtoff.

End Libc.

(** ** The detection engine *)

(** [LookupMap]: [std::unordered_map<std::string, bool>];
    [LoginTimes]: [std::unordered_map<std::string, std::vector<long>>]. *)
Abbreviation LookupMap := (gmap string bool).
Abbreviation LoginTimes := (gmap string (list Z)).

(** The five ways the branch chain of [process] can treat a line. *)
Inductive Outcome :=
| Authorized | BannedIP | AlreadyFlagged | FrequencyBreach | Benign.

#[global] Instance Outcome_eq_dec : EqDecision Outcome.
Proof. solve_decision. Defined.

(** The engine's mutable maps: [flagged] and [log] of [process]. *)
Record engine := mk_engine { flagged : LookupMap; log : LoginTimes }.

Definition engine_init : engine := mk_engine ∅ ∅.

(** The locals of [process] that outlive a line: the engine, the two
    counters, the last user and what has been written to [os], one entry
    per line of output. *)
Record pstate := mk_pstate {
  p_engine : engine; lineCount : Z; hackAtt : Z;
  p_user : string; p_os : list string }.

(** What one pass through the body of [checkLogHelper]'s loop does. *)
Inductive step :=
| Continue (check : Z) (temp : list Z) (log : LoginTimes)
| Return (b : bool) (log : LoginTimes).

Section Engine.

(** The environment of the run: the offset of the local time zone that
    [mktime] reads, and the two lookup maps loaded by [loadLookup]. *)
Variable gmtoff : Z.
Variables authUser banIP : LookupMap.

Definition toSeconds (timestamp : string) (year : Z) : Z :=
  let tstamp := Libc.mk_tm 0 0 0 0 0 (year - 1900) 0 in
  Libc.mktime gmtoff
    (fst (Libc.strptime (Str.c_str timestamp) "%B %d %H:%M:%S" tstamp)).

Definition isFlag (user : string) (flagged : LookupMap)
    : bool * LookupMap :=
  match flagged !! user with
  | None => (false, <[user := false]> flagged)
  | Some v => (if Bool.eqb v true then true else false, flagged)
  end.

Definition isAuth (line : string) (authUser : LookupMap) : bool :=
  existsb (fun e => Str.contains line (fst e)) (map_to_list authUser).

Definition isBand (line : string) (banIP : LookupMap) : bool :=
  existsb (fun e => Str.contains line (fst e)) (map_to_list banIP).

(** The test on the pair [temp[i]], [temp[i + 1]]. *)
Definition close_failed (temp : list Z) (i : nat) (line : string) : bool :=
  (Z.abs (nth (i + 1) temp 0 - nth i temp 0) <? 20)
  && Str.contains line "Failed".

(** One iteration of the [for] loop of [checkLogHelper].  [i] and [check]
    stay below [temp.size()], so their 32-bit types do not wrap. *)
Definition helper_body (line user : string) (i : nat) (check : Z)
    (temp : list Z) (log : LoginTimes) : step :=
  let '(check1, temp1, log1) :=
    if bool_decide (i + 1 < length temp)%nat then
      if close_failed temp i line then (check + 1, temp, log)
      else
        let tempLong := List.last temp 0 in
        (0, [tempLong], <[user := [tempLong]]> log)
    else (check, temp, log) in
  if 2 <? check1 then Return true (<[user := tail temp1]> log1)
  else Continue check1 temp1 log1.

(** The [for] loop: [fuel] bounds the iterations still to run;
    [helper_loop_fuel] shows that [length temp - i] is always enough, so
    the first branch is the loop's own exit. *)
Fixpoint helper_loop (fuel : nat) (line user : string) (i : nat)
    (check : Z) (temp : list Z) (log : LoginTimes) : bool * LoginTimes :=
  match fuel with
  | O => (false, log)
  | S fuel' =>
      if bool_decide (i < length temp)%nat then
        match helper_body line user i check temp log with
        | Return b log' => (b, log')
        | Continue check' temp' log' =>
            helper_loop fuel' line user (S i) check' temp' log'
        end
      else (false, log)
  end.

Definition checkLogHelper (temp : list Z) (line : string)
    (log : LoginTimes) (user : string) : bool * LoginTimes :=
  helper_loop (length temp) line user 0 0 temp log.

(** The timestamp [checkLog] computes for a line. *)
Definition line_time (line : string) : Z :=
  toSeconds (substring 0 14 line) 2021.

Definition checkLog (line : string) (log : LoginTimes) (user : string)
    : bool * LoginTimes :=
  let time := line_time line in
  match log !! user with
  | None => (false, <[user := [time]]> log)
  | Some old =>
      let temp := old ++ [time] in
      let log1 := <[user := temp]> log in
      if bool_decide (length temp < 3)%nat then (false, log1)
      else checkLogHelper temp line log1 user
  end.

(** The index at which [process] starts the user identifier:
    [int temp = line.find("sshd")], then [temp + 5] as a [size_t]. *)
Definition user_start (line : string) : Z :=
  let temp := Str.to_int (Str.find_result (Str.find line "sshd")) in
  Str.to_size_t (temp + 5).

(** [line.substr(temp + 5, 5)]; [None] when it throws. *)
Definition extract_user (line : string) : option string :=
  Str.substr line (user_start line) 5.

(** The body of the data loop of [process] without its counters and
    output: the user is extracted first, then the first branch that
    applies decides.  [None] is the exception escaping from [substr]. *)
Definition classify (line : string) (st : engine)
    : option (Outcome * engine) :=
  match extract_user line with
  | None => None
  | Some user =>
      if isAuth line authUser then Some (Authorized, st)
      else if isBand line banIP then Some (BannedIP, st)
      else
        let '(f, flagged') := isFlag user (flagged st) in
        if f then Some (AlreadyFlagged, mk_engine flagged' (log st))
        else
          let '(b, log') := checkLog line (log st) user in
          Some (if b then FrequencyBreach else Benign,
                mk_engine flagged' log')
  end.

(** [classify] over consecutive lines: the outcomes in order and the
    engine afterwards; [None] as soon as one line throws. *)
Fixpoint run (lines : list string) (st : engine)
    : option (list Outcome * engine) :=
  match lines with
  | [] => Some ([], st)
  | line :: rest =>
      match classify line st with
      | None => None
      | Some (o, st') =>
          match run rest st' with
          | None => None
          | Some (os, st'') => Some (o :: os, st'')
          end
      end
  end.

(** [os << n] for an [int]. *)
Definition show_int (n : Z) : string := NilZero.string_of_int (Z.to_int n).

(** [processHelper]: the lines it writes to [os] and its return value. *)
Definition processHelper (reason : Z) (line : string)
    (hackAtt lineCount : Z) : list string * Z :=
  (if reason =? 1 then ["Hacking due to banned IP. Line: " +:+ line]
   else if reason =? 2 then ["Hacking due to frequency. Line: " +:+ line]
   else if reason =? 3 then
     ["Processed " +:+ show_int lineCount +:+ " lines. Found "
      +:+ show_int hackAtt +:+ " possible hacking attempts."]
   else [], 1).

(** One pass through the data loop of [process].  The counters are
    [int]s: [lineCount++] and [hackAtt += ...] are written with the
    wrap-around of a 32-bit [int] (C++ leaves the overflow of a signed
    [int] undefined; the wrap is what the usual compilers give).
    [None]: the exception of [substr] leaves [process]. *)
Definition process_line (line : string) (p : pstate) : option pstate :=
  let lineCount' := Str.to_int (lineCount p + 1) in
  match extract_user line, classify line (p_engine p) with
  | Some user, Some (o, st') =>
      let '(written, n) :=
        match o with
        | Authorized | Benign => ([], 0)
        | BannedIP | AlreadyFlagged => processHelper 1 line 0 0
        | FrequencyBreach => processHelper 2 line 0 0
        end in
      Some (mk_pstate st' lineCount' (Str.to_int (hackAtt p + n)) user
              (p_os p ++ written))
  | _, _ => None
  end.

(** The header loop: lines are read up to and including the first one
    that is empty or a lone carriage return. *)
Fixpoint skip_header (input : list string) : list string :=
  match input with
  | [] => []
  | hdr :: rest =>
      if String.eqb hdr EmptyString || String.eqb hdr (String "013" EmptyString)
      then rest else skip_header rest
  end.

(** The data loop: it ends when [getline] fails or reads an empty
    line. *)
Fixpoint data_loop (input : list string) (p : pstate) : option pstate :=
  match input with
  | [] => Some p
  | line :: rest =>
      if String.eqb line EmptyString then Some p
      else match process_line line p with
           | None => None
           | Some p' => data_loop rest p'
           end
  end.

(** [process] on the lines that successive [getline] calls deliver;
    the result is everything written to [os]. *)
Definition process (input : list string) : option (list string) :=
  match
    data_loop (skip_header input) (mk_pstate engine_init 0 0 EmptyString [])
  with
  | None => None
  | Some p =>
      Some (p_os p
            ++ fst (processHelper 3 (p_user p) (hackAtt p) (lineCount p)))
  end.

End Engine.

(** ** The URL and the lookup files *)

(** What remains of [s] from index [pos] on. *)
Fixpoint drop_chars (pos : nat) (s : string) : string :=
  match pos, s with
  | O, _ => s
  | S p, String _ rest => drop_chars p rest
  | S _, EmptyString => EmptyString
  end.

(** [hay.find(needle, pos)] as a [size_t]: [npos] when [pos] is beyond
    the end or [needle] does not occur from [pos] on. *)
Definition find_at (hay needle : string) (pos : Z) : Z :=
  if Z.of_nat (String.length hay) <? pos then Str.npos
  else Str.find_result
         (Str.find_from needle (drop_chars (Z.to_nat pos) hay)
            (Z.to_nat pos)).

(** [s.substr(pos, count)] with [size_t] arguments: [None] for the
    [std::out_of_range] thrown when [pos > s.size()], otherwise the
    characters from [pos], at most [count] and at most to the end. *)
Definition substr_count (s : string) (pos count : Z) : option string :=
  let size := Z.of_nat (String.length s) in
  if size <? pos then None
  else Some (substring (Z.to_nat pos)
               (Z.to_nat (Z.min count (size - pos))) s).

(** [breakDownURL]: host name, port and path, in this order.  The
    arithmetic on [n] and [m] is that of [size_t]. *)
Definition breakDownURL (url : string) : option (string * string * string) :=
  let n := Str.to_size_t (find_at url "/" 0 + 2) in
  if negb (find_at url ":" n =? Str.npos) then
    let m := find_at url ":" n in
    match
      substr_count url (Str.to_size_t (m + 1))
        (Str.to_size_t
           (find_at url "/" m - Str.to_size_t (m + 1))),
      substr_count url (find_at url "/" m) Str.npos,
      substr_count url n (Str.to_size_t (m - n))
    with
    | Some port, Some path, Some hostName => Some (hostName, port, path)
    | _, _, _ => None
    end
  else
    let m := find_at url "/" n in
    match
      substr_count url m Str.npos,
      substr_count url n (Str.to_size_t (m - n))
    with
    | Some path, Some hostName => Some (hostName, "80"%string, path)
    | _, _ => None
    end.

(** [is >> entry], repeated to the end of the text: the words between
    white space.  [entry] holds the characters of the word being read. *)
Fixpoint words (text entry : string) : list string :=
  match text with
  | EmptyString =>
      match entry with EmptyString => [] | _ => [entry] end
  | String c rest =>
      if Libc.isspace c then
        match entry with
        | EmptyString => words rest EmptyString
        | _ => entry :: words rest EmptyString
        end
      else words rest (entry +:+ String c EmptyString)
  end.

(** [loadLookup] on the content of the file; [None] as the file stands
    for one that cannot be opened, [None] as the result for the
    [std::runtime_error]. *)
Definition loadLookup (file : option string) : option LookupMap :=
  match file with
  | None => None
  | Some text =>
      Some (foldl (fun lookup entry => <[entry := true]> lookup) ∅
              (words text EmptyString))
  end.

(** ** Reference definitions the properties are stated with *)

(** The data lines of a stream: what follows the header, up to the first
    empty line. *)
Fixpoint until_empty (input : list string) : list string :=
  match input with
  | [] => []
  | line :: rest =>
      if String.eqb line EmptyString then [] else line :: until_empty rest
  end.

Definition data_lines (input : list string) : list string :=
  until_empty (skip_header input).

Definition is_hacking (o : Outcome) : bool :=
  match o with
  | BannedIP | AlreadyFlagged | FrequencyBreach => true
  | Authorized | Benign => false
  end.

(** The line written for a classified data line, if any. *)
Definition report (line : string) (o : Outcome) : list string :=
  match o with
  | BannedIP | AlreadyFlagged => ["Hacking due to banned IP. Line: " +:+ line]
  | FrequencyBreach => ["Hacking due to frequency. Line: " +:+ line]
  | Authorized | Benign => []
  end.

Fixpoint reports (lines : list string) (os : list Outcome) : list string :=
  match lines, os with
  | line :: lines', o :: os' => report line o ++ reports lines' os'
  | _, _ => []
  end.

(** The summary line for [n] processed lines and [m] hacking attempts. *)
Definition summary (n m : Z) : string :=
  "Processed " +:+ show_int n +:+ " lines. Found " +:+ show_int m
  +:+ " possible hacking attempts.".

(** What the scan of [checkLogHelper] amounts to: the first three pairs
    decide. *)
Definition scan_result (temp : list Z) (line : string) (log : LoginTimes)
    (user : string) : bool * LoginTimes :=
  let n := length temp in
  if forallb (fun i => close_failed temp i line) (seq 0 (Nat.min 3 (n - 1)))
  then if bool_decide (4 <= n)%nat
       then (true, <[user := tail temp]> log)
       else (false, log)
  else (false, <[user := [List.last temp 0]]> log).

(** No entry of the flagged map is [true]. *)
Definition flags_clear (st : engine) : Prop :=
  forall u b, flagged st !! u = Some b -> b = false.

(** No user's stored history has more than three timestamps. *)
Definition history_bounded (st : engine) : Prop :=
  forall u h, log st !! u = Some h -> (length h <= 3)%nat.

(** [e] occurs in [line]. *)
Definition is_substring (e line : string) : Prop :=
  exists pre post, line = pre +:+ e +:+ post.

(** [line] contains a key of the lookup map. *)
Definition mentions (line : string) (m : LookupMap) : Prop :=
  exists e, is_Some (m !! e) /\ is_substring e line.

(** A failed login of [user] that the lookup maps do not mention. *)
Definition failed_attempt (authUser banIP : LookupMap) (user line : string)
    : Prop :=
  extract_user line = Some user
  /\ isAuth line authUser = false
  /\ isBand line banIP = false
  /\ Str.contains line "Failed" = true.

(** The engine [st] once the frequency check has stored history [h] for
    [user]: the user's flag is present and false. *)
Definition with_history (st : engine) (user : string) (h : list Z) : engine :=
  mk_engine (<[user := false]> (flagged st)) (<[user := h]> (log st)).

(** A line can be classified: its user identifier starts within it. *)
Definition long_enough (line : string) : Prop :=
  user_start line <= Z.of_nat (String.length line).

(** Calendar reference for [toSeconds]: days are counted year by year and
    month by month from 1 January 1970. *)
Definition days_in_year (y : Z) : Z := if Libc.leapyear y then 366 else 365.

Definition days_in_month (y : Z) (m : nat) : Z :=
  match m with
  | 1%nat => if Libc.leapyear y then 29 else 28
  | 3%nat | 5%nat | 8%nat | 10%nat => 30
  | _ => 31
  end.

Definition days_before_year (y : Z) : Z :=
  foldr (fun k acc => days_in_year (1970 + Z.of_nat k) + acc) 0
        (seq 0 (Z.to_nat (y - 1970))).

Definition days_before_month (y : Z) (m : nat) : Z :=
  foldr (fun k acc => days_in_month y k + acc) 0 (seq 0 m).

(** Seconds from 1970-01-01 00:00:00 UTC to the given calendar time, read
    in a zone [gmtoff] seconds east of UTC; [m] counts months from 0. *)
Definition epoch_seconds (gmtoff y : Z) (m : nat) (d h mi s : Z) : Z :=
  (days_before_year y + days_before_month y m + (d - 1)) * 86400
  + h * 3600 + mi * 60 + s - gmtoff.

Definition digit_char (a : Z) : ascii := ascii_of_N (Z.to_N (48 + a)).

Definition two_digits (v : Z) : string :=
  String (digit_char (v / 10)) (String (digit_char (v mod 10)) EmptyString).

Definition month_abbrev (m : nat) : string :=
  snd (nth m Libc.month_names (EmptyString, EmptyString)).

(** The fixed-width prefix ["Mon DD HH:MM:SS"]. *)
Definition stamp (m : nat) (d h mi s : Z) : string :=
  month_abbrev m +:+ " " +:+ two_digits d +:+ " " +:+ two_digits h
  +:+ ":" +:+ two_digits mi +:+ ":" +:+ two_digits s.

(** ** Definitions of the further properties *)

(** [c] does not occur in [s]. *)
Definition lacks (c : ascii) (s : string) : Prop :=
  ~ In c (list_ascii_of_string s).

(** No character of [s] is white space. *)
Definition spacefree (s : string) : Prop :=
  forall c, In c (list_ascii_of_string s) -> Libc.isspace c = false.

(** A word as [is >> entry] delivers it. *)
Definition wordlike (w : string) : Prop := w <> EmptyString /\ spacefree w.

(** A file with one entry per line. *)
Fixpoint entry_lines (ws : list string) : string :=
  match ws with
  | [] => EmptyString
  | w :: ws' => w +:+ String "010" (entry_lines ws')
  end.

(** A line of [user] that the lookup maps do not mention, failed login
    or not. *)
Definition plain_line (authUser banIP : LookupMap) (user line : string)
    : Prop :=
  extract_user line = Some user
  /\ isAuth line authUser = false
  /\ isBand line banIP = false.

(** [c] is, in either case, the first letter of a month's name. *)
Definition month_initial (c : ascii) : bool :=
  match Libc.tolower c with
  | "j" | "f" | "m" | "a" | "s" | "o" | "n" | "d" => true
  | _ => false
  end%char.

(** A line on which the month conversion of [strptime] fails at once: it
    is empty or starts with a character no month starts with. *)
Definition unreadable (line : string) : Prop :=
  match line with
  | EmptyString => True
  | String c _ => month_initial c = false
  end.

(** A day of the month [m] (counted from 0) of 2021. *)
Definition day_of_month (m : nat) (d : Z) : Prop :=
  (m < 12)%nat /\ 1 <= d <= days_in_month 2021 m.

(** The lines among [lines] from which [process] extracts [user]. *)
Fixpoint lines_of (user : string) (lines : list string) : list string :=
  match lines with
  | [] => []
  | line :: rest =>
      if decide (extract_user line = Some user)
      then line :: lines_of user rest else lines_of user rest
  end.

(** The outcomes, among those of [lines], of the lines of [user]. *)
Fixpoint outcomes_of (user : string) (lines : list string)
    (outs : list Outcome) : list Outcome :=
  match lines, outs with
  | line :: rest, o :: outs' =>
      if decide (extract_user line = Some user)
      then o :: outcomes_of user rest outs' else outcomes_of user rest outs'
  | _, _ => []
  end.

(** Two engines hold the same for [user]. *)
Definition same_for (user : string) (st1 st2 : engine) : Prop :=
  log st1 !! user = log st2 !! user
  /\ flagged st1 !! user = flagged st2 !! user.

(** The engine [st] with every stored timestamp moved back by [g]
    seconds. *)
Definition shifted (g : Z) (st : engine) : engine :=
  mk_engine (flagged st) (map (fun t => t - g) <$> log st).

(** Each of [times] is less than 20 seconds from the one before it, the
    first one from [t]. *)
Fixpoint close_chain (t : Z) (times : list Z) : Prop :=
  match times with
  | [] => True
  | t' :: rest => Z.abs (t' - t) < 20 /\ close_chain t' rest
  end.

(** ** Sample streams

    Lines in the shape of sshd's log, used to run the engine on concrete
    input.  The five characters that [process] takes for the user are the
    digits between the brackets. *)

Definition attempt (ts : string) : string :=
  ts +:+ " host sshd[12345]: Failed password for root from 10.0.0.7 port 22 ssh2".

Definition accepted (ts : string) : string :=
  ts +:+ " host sshd[12345]: Accepted password for root from 10.0.0.7 port 22 ssh2".

(** Failed logins at 00:00:00, 00:00:05 and 00:00:10.  With the day
    written as one digit the timestamp has 14 characters. *)
Definition at_0 : string := attempt "Jan 1 00:00:00".
Definition at_5 : string := attempt "Jan 1 00:00:05".
Definition at_10 : string := attempt "Jan 1 00:00:10".

(** The same with the day written as two digits. *)
Definition padded_0 : string := attempt "Jan 01 00:00:00".
Definition padded_5 : string := attempt "Jan 01 00:00:05".
Definition padded_10 : string := attempt "Jan 01 00:00:10".

(** A response as [process] reads it: header, separator, data lines, an
    empty line, and a line that is never read. *)
Definition sample_stream : list string :=
  [ "HTTP/1.1 200 OK"; String "013" EmptyString;
    at_0; at_5; at_10; at_10; accepted "Jan 1 00:00:12";
    EmptyString; "trailing" ].

(** More sample lines: successful logins at 00:00:00 and 00:00:05, and a
    failed login on a line dated year first. *)
Definition ok_0 : string := accepted "Jan 1 00:00:00".
Definition ok_5 : string := accepted "Jan 1 00:00:05".
Definition ok_12 : string := accepted "Jan 1 00:00:12".
Definition iso_line : string := attempt "2021-01-01T00:00:05".

(** Failed logins of a second user, and a stream in which the lines of
    the two users alternate. *)
Definition visitor (ts : string) : string :=
  ts +:+ " host sshd[99999]: Failed password for guest from 10.0.0.9 port 22 ssh2".

Definition mixed_lines : list string :=
  [at_0; visitor "Jan 1 00:00:02"; at_5; visitor "Jan 1 00:00:07";
   at_10; at_10].

(** The line of the example in the source's comment on [LoginTimes],
    and what follows the timestamp in it. *)
Definition comment_line (sec : string) : string :=
  attempt ("Aug 29 11:01:" +:+ sec).

Definition comment_rest : string :=
  " host sshd[12345]: Failed password for root from 10.0.0.7 port 22 ssh2".

(** ** The scan of [checkLogHelper] *)

Arguments close_failed : simpl never.

Section Scan.

Variables line user : string.

Lemma helper_body_close i check temp (log : LoginTimes) :
  (i + 1 < length temp)%nat ->
  close_failed temp i line = true ->
  helper_body line user i check temp log =
    if 2 <? check + 1 then Return true (<[user := tail temp]> log)
    else Continue (check + 1) temp log.
Proof.
  intros Hi Hc. unfold helper_body.
  rewrite bool_decide_eq_true_2 by exact Hi. rewrite Hc. reflexivity.
Qed.

Lemma helper_body_reset i check temp (log : LoginTimes) :
  (i + 1 < length temp)%nat ->
  close_failed temp i line = false ->
  helper_body line user i check temp log =
    Continue 0 [List.last temp 0] (<[user := [List.last temp 0]]> log).
Proof.
  intros Hi Hc. unfold helper_body.
  rewrite bool_decide_eq_true_2 by exact Hi. rewrite Hc. reflexivity.
Qed.

Lemma helper_body_no_pair i check temp (log : LoginTimes) :
  ~ (i + 1 < length temp)%nat ->
  helper_body line user i check temp log =
    if 2 <? check then Return true (<[user := tail temp]> log)
    else Continue check temp log.
Proof.
  intros Hi. unfold helper_body.
  rewrite bool_decide_eq_false_2 by exact Hi. reflexivity.
Qed.

Lemma helper_loop_unfold fuel i check temp (log : LoginTimes) :
  helper_loop (S fuel) line user i check temp log =
    if bool_decide (i < length temp)%nat then
      match helper_body line user i check temp log with
      | Return b log' => (b, log')
      | Continue check' temp' log' =>
          helper_loop fuel line user (S i) check' temp' log'
      end
    else (false, log).
Proof. reflexivity. Qed.

(** A pass never lengthens the vector beyond what it was. *)
Lemma helper_body_length i check temp (log : LoginTimes) check' temp' log' :
  (i < length temp)%nat ->
  helper_body line user i check temp log = Continue check' temp' log' ->
  (length temp' <= length temp)%nat.
Proof.
  intros Hi. unfold helper_body.
  destruct (bool_decide (i + 1 < length temp)%nat);
    [destruct (close_failed temp i line)|];
    match goal with |- context [2 <? ?c] => destruct (2 <? c) end;
    intros [= <- <- <-]; simpl; lia.
Qed.

(** The loop has run out of iterations by the time its fuel is spent:
    any fuel from [length temp - i] on gives the same result. *)
Lemma helper_loop_fuel fuel k i check temp (log : LoginTimes) :
  (length temp - i <= fuel)%nat ->
  helper_loop (fuel + k) line user i check temp log =
  helper_loop fuel line user i check temp log.
Proof.
  revert i check temp log.
  induction fuel as [|fuel IH]; intros i check temp log Hf.
  - destruct k as [|k]; [reflexivity|]. cbn [Nat.add].
    rewrite helper_loop_unfold, bool_decide_eq_false_2 by lia. reflexivity.
  - cbn [Nat.add]. rewrite !helper_loop_unfold.
    destruct (bool_decide (i < length temp)%nat) eqn:Hi; [|reflexivity].
    apply bool_decide_eq_true_1 in Hi.
    destruct (helper_body line user i check temp log)
      as [check' temp' log'|b log'] eqn:Hb; [|reflexivity].
    apply IH. apply helper_body_length in Hb; [lia|exact Hi].
Qed.

(** A pair that fails its test ends the scan: the vector and the stored
    history are the last timestamp alone, and the result is [false]. *)
Lemma helper_loop_reset fuel i check temp (log : LoginTimes) :
  (i + 1 < length temp)%nat ->
  close_failed temp i line = false ->
  helper_loop (S fuel) line user i check temp log =
    (false, <[user := [List.last temp 0]]> log).
Proof.
  intros Hi Hc. rewrite helper_loop_unfold, bool_decide_eq_true_2 by lia.
  rewrite helper_body_reset by assumption.
  destruct fuel as [|fuel]; [reflexivity|].
  rewrite helper_loop_unfold, bool_decide_eq_false_2 by (cbn [length]; lia).
  reflexivity.
Qed.

(** One more pass of the loop is certain to run. *)
Ltac scan_pass :=
  rewrite helper_loop_unfold;
  rewrite bool_decide_eq_true_2 by lia.

(** The comparison of the counter with 2, on a counter that is known. *)
Ltac counter c b := change (2 <? c) with b; cbv iota.

(** After a reset the vector has one entry and the loop is over. *)
Ltac scan_end :=
  cbv iota;
  match goal with
  | |- helper_loop ?f _ _ _ _ _ _ = _ =>
      destruct f; [reflexivity|];
      rewrite helper_loop_unfold;
      rewrite bool_decide_eq_false_2 by (cbn [length]; lia); reflexivity
  end.

(** The loop in closed form. *)
Lemma checkLogHelper_scan temp (log : LoginTimes) :
  checkLogHelper temp line log user = scan_result temp line log user.
Proof.
  unfold checkLogHelper, scan_result.
  destruct temp as [|a [|b [|c [|d rest]]]].
  - reflexivity.
  - reflexivity.
  - set (temp := [a; b]).
    assert (Hlen : length temp = 2%nat) by reflexivity.
    clearbody temp. rewrite Hlen.
    rewrite (bool_decide_eq_false_2 (4 <= 2)%nat) by lia.
    cbn [Nat.sub Nat.min seq forallb]. rewrite andb_true_r.
    scan_pass.
    destruct (close_failed temp 0 line) eqn:H0.
    + rewrite helper_body_close by (lia || assumption).
      counter (0 + 1) false. scan_pass.
      rewrite helper_body_no_pair by lia.
      counter 1 false. reflexivity.
    + rewrite helper_body_reset by (lia || assumption).
      scan_end.
  - set (temp := [a; b; c]).
    assert (Hlen : length temp = 3%nat) by reflexivity.
    clearbody temp. rewrite Hlen.
    rewrite (bool_decide_eq_false_2 (4 <= 3)%nat) by lia.
    cbn [Nat.sub Nat.min seq forallb]. rewrite andb_true_r.
    scan_pass.
    destruct (close_failed temp 0 line) eqn:H0.
    + rewrite helper_body_close by (lia || assumption).
      counter (0 + 1) false. scan_pass.
      destruct (close_failed temp 1 line) eqn:H1.
      * rewrite helper_body_close by (lia || assumption).
        counter (0 + 1 + 1) false. scan_pass.
        rewrite helper_body_no_pair by lia.
        counter 2 false. reflexivity.
      * rewrite helper_body_reset by (lia || assumption).
        scan_end.
    + rewrite helper_body_reset by (lia || assumption).
      scan_end.
  - set (temp := a :: b :: c :: d :: rest).
    assert (Hlen : length temp = S (S (S (S (length rest)))))
      by reflexivity.
    clearbody temp. rewrite Hlen.
    replace (Nat.min 3 (S (S (S (S (length rest)))) - 1)) with 3%nat by lia.
    rewrite (bool_decide_eq_true_2 (4 <= _)%nat) by lia.
    cbn [seq forallb]. rewrite andb_true_r.
    scan_pass.
    destruct (close_failed temp 0 line) eqn:H0.
    + rewrite helper_body_close by (lia || assumption).
      counter (0 + 1) false. scan_pass.
      destruct (close_failed temp 1 line) eqn:H1.
      * rewrite helper_body_close by (lia || assumption).
        counter (0 + 1 + 1) false. scan_pass.
        destruct (close_failed temp 2 line) eqn:H2.
        -- rewrite helper_body_close by (lia || assumption).
           counter (0 + 1 + 1 + 1) true. reflexivity.
        -- rewrite helper_body_reset by (lia || assumption). scan_end.
      * rewrite helper_body_reset by (lia || assumption). scan_end.
    + rewrite helper_body_reset by (lia || assumption). scan_end.
Qed.

End Scan.

(** ** [checkLog] and the stored histories *)

Section CheckLog.

Variable gmtoff : Z.
Variables line user : string.

Lemma checkLog_new (log : LoginTimes) :
  log !! user = None ->
  checkLog gmtoff line log user =
    (false, <[user := [line_time gmtoff line]]> log).
Proof. intros H. unfold checkLog. rewrite H. reflexivity. Qed.

Lemma checkLog_short (log : LoginTimes) old :
  log !! user = Some old -> (length old < 2)%nat ->
  checkLog gmtoff line log user =
    (false, <[user := old ++ [line_time gmtoff line]]> log).
Proof.
  intros H Hl. unfold checkLog. rewrite H. cbv zeta.
  rewrite bool_decide_eq_true_2; [reflexivity|].
  rewrite length_app. simpl. lia.
Qed.

Lemma checkLog_scan (log : LoginTimes) old :
  log !! user = Some old -> (2 <= length old)%nat ->
  checkLog gmtoff line log user =
    let temp := old ++ [line_time gmtoff line] in
    scan_result temp line (<[user := temp]> log) user.
Proof.
  intros H Hl. unfold checkLog. rewrite H. cbv zeta.
  rewrite bool_decide_eq_false_2.
  - apply checkLogHelper_scan.
  - rewrite length_app. simpl. lia.
Qed.

(** Whatever [checkLog] decides, it leaves the log with one new history
    for the user, which is not empty, ends in the line's timestamp, and
    has at most three entries if the old one had. *)
Lemma checkLog_history (log : LoginTimes) :
  exists h,
    snd (checkLog gmtoff line log user) = <[user := h]> log
    /\ List.last h 0 = line_time gmtoff line
    /\ ((forall old, log !! user = Some old -> (length old <= 3)%nat) ->
        (length h <= 3)%nat).
Proof.
  destruct (log !! user) as [old|] eqn:Hu.
  - destruct (le_lt_dec 2 (length old)) as [Hl|Hl].
    + rewrite (checkLog_scan _ _ Hu Hl). cbv zeta.
      set (t := line_time gmtoff line). set (temp := old ++ [t]).
      assert (Hn : length temp = S (length old))
        by (unfold temp; rewrite length_app; simpl; lia).
      assert (Hlast : List.last temp 0 = t)
        by (unfold temp; apply last_last).
      unfold scan_result.
      destruct (forallb _ _).
      * destruct (bool_decide (4 <= length temp)%nat) eqn:H4.
        -- apply bool_decide_eq_true_1 in H4.
           exists (tail temp). simpl. rewrite insert_insert_eq.
           split; [reflexivity|]. split.
           ++ rewrite <- Hlast. unfold temp.
              destruct old as [|a [|b old']]; simpl in Hl; try lia.
              reflexivity.
           ++ intros Hb. specialize (Hb _ eq_refl).
              rewrite length_tl. lia.
        -- apply bool_decide_eq_false_1 in H4.
           exists temp. simpl. split; [reflexivity|].
           split; [exact Hlast|]. intros _. lia.
      * exists [List.last temp 0]. simpl. rewrite insert_insert_eq.
        split; [reflexivity|]. split; [exact Hlast|]. intros _. lia.
    + rewrite (checkLog_short _ _ Hu Hl).
      exists (old ++ [line_time gmtoff line]). simpl.
      split; [reflexivity|]. split; [apply last_last|].
      intros _. rewrite length_app. simpl. lia.
  - rewrite (checkLog_new _ Hu). exists [line_time gmtoff line]. simpl.
    split; [reflexivity|]. split; [reflexivity|]. intros _. lia.
Qed.

End CheckLog.

(** ** The branch chain of [classify] *)

Section Classify.

Variable gmtoff : Z.
Variables authUser banIP : LookupMap.

Lemma isFlag_clear user (fl : LookupMap) :
  (forall b, fl !! user = Some b -> b = false) ->
  isFlag user fl = (false, <[user := false]> fl).
Proof.
  intros H. unfold isFlag. destruct (fl !! user) as [b|] eqn:Hu.
  - rewrite (H b eq_refl) in *. simpl. f_equal.
    symmetry. apply insert_id. exact Hu.
  - reflexivity.
Qed.

(** The user of a line that is neither authorized nor banned, with no
    [true] flag: the frequency check decides. *)
Lemma classify_frequency line user st :
  extract_user line = Some user ->
  isAuth line authUser = false ->
  isBand line banIP = false ->
  (forall b, flagged st !! user = Some b -> b = false) ->
  classify gmtoff authUser banIP line st =
    Some (if fst (checkLog gmtoff line (log st) user)
          then FrequencyBreach else Benign,
          mk_engine (<[user := false]> (flagged st))
                    (snd (checkLog gmtoff line (log st) user))).
Proof.
  intros Hu Ha Hb Hf. unfold classify. rewrite Hu, Ha, Hb.
  rewrite (isFlag_clear _ _ Hf).
  destruct (checkLog gmtoff line (log st) user) as [b log']. reflexivity.
Qed.

(** The four ways a line can be classified, as far as the engine state
    goes. *)
Lemma classify_cases line st o st' :
  classify gmtoff authUser banIP line st = Some (o, st') ->
  exists user, extract_user line = Some user /\
    ((o = Authorized \/ o = BannedIP) /\ st' = st
     \/ (o = AlreadyFlagged /\ flagged st !! user = Some true
         /\ st' = st)
     \/ ((o = FrequencyBreach \/ o = Benign)
         /\ (forall b, flagged st !! user = Some b -> b = false)
         /\ flagged st' = <[user := false]> (flagged st)
         /\ log st' = snd (checkLog gmtoff line (log st) user)
         /\ (o = FrequencyBreach <->
             fst (checkLog gmtoff line (log st) user) = true))).
Proof.
  unfold classify. destruct (extract_user line) as [user|]; [|discriminate].
  intros H. exists user. split; [reflexivity|].
  destruct (isAuth line authUser).
  { injection H as <- <-. left. auto. }
  destruct (isBand line banIP).
  { injection H as <- <-. left. auto. }
  unfold isFlag in H. destruct (flagged st !! user) as [[|]|] eqn:Hf.
  - simpl in H. injection H as <- <-. right. left.
    destruct st. auto.
  - simpl in H. destruct (checkLog gmtoff line (log st) user) as [b l'].
    injection H as <- <-. right. right. simpl.
    repeat split.
    + destruct b; auto.
    + congruence.
    + symmetry. apply insert_id. exact Hf.
    + destruct b; [reflexivity|discriminate].
    + intros ->. reflexivity.
  - destruct (checkLog gmtoff line (log st) user) as [b l'].
    injection H as <- <-. right. right. simpl.
    repeat split.
    + destruct b; auto.
    + discriminate.
    + destruct b; [reflexivity|discriminate].
    + intros ->. reflexivity.
Qed.

Lemma classify_flags_clear line st o st' :
  classify gmtoff authUser banIP line st = Some (o, st') ->
  flags_clear st -> flags_clear st' /\ o <> AlreadyFlagged.
Proof.
  intros H Hc. apply classify_cases in H as (user & _ & H).
  destruct H as [[Ho ->]|[(-> & Hf & ->)|(Ho & _ & Hfl & _)]].
  - split; [exact Hc|]. destruct Ho; congruence.
  - apply Hc in Hf. discriminate.
  - split; [|destruct Ho; congruence].
    intros u b. rewrite Hfl. rewrite lookup_insert.
    case_decide; [congruence|apply Hc].
Qed.

Lemma classify_history_bounded line st o st' :
  classify gmtoff authUser banIP line st = Some (o, st') ->
  history_bounded st -> history_bounded st'.
Proof.
  intros H Hb. apply classify_cases in H as (user & _ & H).
  destruct H as [[_ ->]|[(_ & _ & ->)|(_ & _ & _ & Hl & _)]];
    try exact Hb.
  destruct (checkLog_history gmtoff line user (log st))
    as (h & Hh & _ & Hlen).
  intros u h'. rewrite Hl, Hh, lookup_insert.
  case_decide.
  - intros [= <-]. apply Hlen. intros old. apply Hb.
  - apply Hb.
Qed.

Lemma run_invariants lines st outs st' :
  run gmtoff authUser banIP lines st = Some (outs, st') ->
  (flags_clear st -> flags_clear st' /\ AlreadyFlagged ∉ outs)
  /\ (history_bounded st -> history_bounded st').
Proof.
  revert st outs st'. induction lines as [|line rest IH];
    intros st outs st' H; simpl in H.
  - injection H as <- <-. split; [|auto].
    intros Hc. split; [exact Hc|]. apply not_elem_of_nil.
  - destruct (classify gmtoff authUser banIP line st) as [[o st1]|] eqn:Hc;
      [|discriminate].
    destruct (run gmtoff authUser banIP rest st1) as [[os st2]|] eqn:Hr;
      [|discriminate].
    injection H as <- <-. apply IH in Hr as [IHf IHb]. split.
    + intros Hf. destruct (classify_flags_clear _ _ _ _ Hc Hf) as [Hf1 Ho].
      destruct (IHf Hf1) as [Hf2 Hos]. split; [exact Hf2|].
      rewrite elem_of_cons. intros [E|E]; [congruence|contradiction].
    + intros Hb. apply IHb. eapply classify_history_bounded; eauto.
Qed.

Lemma engine_init_clear : flags_clear engine_init.
Proof.
  intros u b. unfold engine_init. simpl. rewrite lookup_empty.
  discriminate.
Qed.

Lemma engine_init_bounded : history_bounded engine_init.
Proof.
  intros u b. unfold engine_init. simpl. rewrite lookup_empty.
  discriminate.
Qed.

End Classify.

(** ** Substring search *)

Section Search.

Lemma prefix_append e s :
  String.prefix e s = true <-> exists post, s = e +:+ post.
Proof.
  revert s. induction e as [|a e IH]; intros s.
  - split; [intros _; exists s; reflexivity|].
    intros _. destruct s; reflexivity.
  - destruct s as [|b s]; simpl.
    + split; [discriminate|intros [post H]; discriminate].
    + destruct (ascii_dec a b) as [->|Hne].
      * rewrite IH. split; intros [post H]; exists post.
        -- rewrite H. reflexivity.
        -- injection H. auto.
      * split; [discriminate|].
        intros [post H]. injection H. intros _ E. congruence.
Qed.

Lemma find_from_unfold e s pos :
  Str.find_from e s pos =
    if String.prefix e s then Some pos
    else match s with
         | EmptyString => None
         | String _ rest => Str.find_from e rest (S pos)
         end.
Proof. destruct s; reflexivity. Qed.

Lemma find_from_found e s pos p :
  Str.find_from e s pos = Some p ->
  exists pre post,
    s = pre +:+ e +:+ post /\ p = (pos + String.length pre)%nat.
Proof.
  revert pos. induction s as [|c s IH]; intros pos;
    rewrite find_from_unfold;
    destruct (String.prefix e _) eqn:Hp; try discriminate.
  - intros [= <-]. apply prefix_append in Hp as [post Hp].
    exists EmptyString, post. split; [exact Hp|simpl; lia].
  - intros [= <-]. apply prefix_append in Hp as [post Hp].
    exists EmptyString, post. split; [exact Hp|simpl; lia].
  - intros H. apply IH in H as (pre & post & -> & ->).
    exists (String c pre), post. split; [reflexivity|simpl; lia].
Qed.

Lemma find_from_absent e s pos :
  Str.find_from e s pos = None -> ~ is_substring e s.
Proof.
  revert pos. induction s as [|c s IH]; intros pos;
    rewrite find_from_unfold;
    destruct (String.prefix e _) eqn:Hp; try discriminate.
  - intros _ (pre & post & H). destruct pre; [|discriminate].
    assert (String.prefix e EmptyString = true); [|congruence].
    apply prefix_append. exists post. exact H.
  - intros H (pre & post & E). destruct pre as [|c' pre].
    + assert (String.prefix e (String c s) = true); [|congruence].
      apply prefix_append. exists post. exact E.
    + apply IH in H. apply H. exists pre, post.
      simpl in E. injection E. auto.
Qed.

(** [line.find(e) != npos] holds exactly when [e] occurs in [line]. *)
Lemma contains_substring line e :
  Str.contains line e = true <-> is_substring e line.
Proof.
  unfold Str.contains, Str.find.
  destruct (Str.find_from e line 0) as [p|] eqn:H.
  - split; [intros _|reflexivity].
    apply find_from_found in H as (pre & post & -> & _).
    exists pre, post. reflexivity.
  - split; [discriminate|]. intros Hs.
    apply find_from_absent in H. contradiction.
Qed.

(** The loop of [isAuth] and [isBand]: some key occurs in the line. *)
Lemma lookup_scan_mentions line (m : LookupMap) :
  existsb (fun e => Str.contains line (fst e)) (map_to_list m) = true
  <-> mentions line m.
Proof.
  rewrite existsb_exists. split.
  - intros ([e v] & Hin & Hc). simpl in Hc.
    apply list_elem_of_In, elem_of_map_to_list in Hin.
    exists e. split; [eauto|]. apply contains_substring. exact Hc.
  - intros (e & [v Hv] & Hs). exists (e, v). split.
    + apply list_elem_of_In, elem_of_map_to_list. exact Hv.
    + simpl. apply contains_substring. exact Hs.
Qed.

Lemma isAuth_mentions line (m : LookupMap) :
  isAuth line m = true <-> mentions line m.
Proof. apply lookup_scan_mentions. Qed.

Lemma isBand_mentions line (m : LookupMap) :
  isBand line m = true <-> mentions line m.
Proof. apply lookup_scan_mentions. Qed.

End Search.

(** ** Extracting the user *)

Section User.

Lemma user_start_absent line :
  Str.find line "sshd" = None -> user_start line = 4.
Proof. intros H. unfold user_start. rewrite H. reflexivity. Qed.

Lemma user_start_found line p :
  Str.find line "sshd" = Some p -> Z.of_nat p < 2 ^ 31 - 5 ->
  user_start line = Z.of_nat p + 5.
Proof.
  intros H Hp. unfold user_start. rewrite H.
  unfold Str.find_result, Str.to_int, Str.to_size_t.
  rewrite (Z.mod_small (Z.of_nat p)) by lia.
  destruct (Z.ltb_spec (Z.of_nat p) (2 ^ 31)); [|lia].
  apply Z.mod_small. lia.
Qed.

Lemma user_start_nonneg line : 0 <= user_start line.
Proof. unfold user_start, Str.to_size_t. apply Z.mod_pos_bound. lia. Qed.

Lemma extract_user_some line :
  long_enough line ->
  extract_user line = Some (substring (Z.to_nat (user_start line)) 5 line).
Proof.
  unfold long_enough, extract_user, Str.substr. intros H.
  destruct (Z.ltb_spec (Z.of_nat (String.length line)) (user_start line));
    [lia|reflexivity].
Qed.

Lemma extract_user_none line :
  ~ long_enough line -> extract_user line = None.
Proof.
  unfold long_enough, extract_user, Str.substr. intros H.
  destruct (Z.ltb_spec (Z.of_nat (String.length line)) (user_start line));
    [reflexivity|lia].
Qed.

Lemma long_enough_dec line : {long_enough line} + {~ long_enough line}.
Proof. unfold long_enough. apply Z_le_dec. Qed.

Lemma extract_user_throws line :
  extract_user line = None <-> ~ long_enough line.
Proof.
  destruct (long_enough_dec line) as [H|H].
  - rewrite (extract_user_some _ H). split; [discriminate|contradiction].
  - rewrite (extract_user_none _ H). split; auto.
Qed.

End User.

(** ** The line loop of [process] *)

Section Process.

Variable gmtoff : Z.
Variables authUser banIP : LookupMap.

Lemma classify_throws line st :
  classify gmtoff authUser banIP line st = None <-> ~ long_enough line.
Proof.
  rewrite <- extract_user_throws. unfold classify.
  destruct (extract_user line) as [user|]; [|split; reflexivity].
  split; [|discriminate].
  destruct (isAuth line authUser); [discriminate|].
  destruct (isBand line banIP); [discriminate|].
  destruct (isFlag user (flagged st)) as [[|] fl]; [discriminate|].
  destruct (checkLog gmtoff line (log st) user). discriminate.
Qed.

Lemma run_completes lines st :
  is_Some (run gmtoff authUser banIP lines st) <-> Forall long_enough lines.
Proof.
  revert st. induction lines as [|line rest IH]; intros st; simpl.
  - split; [constructor|eauto].
  - rewrite Forall_cons.
    destruct (classify gmtoff authUser banIP line st) as [[o st1]|] eqn:Hc.
    + assert (Hl : long_enough line).
      { destruct (long_enough_dec line) as [H|H]; [exact H|].
        apply (classify_throws line st) in H. congruence. }
      rewrite <- (IH st1).
      destruct (run gmtoff authUser banIP rest st1) as [[os st2]|].
      * split; [split; eauto|eauto].
      * split; [intros [x Hx]; discriminate|intros [_ [x Hx]]; discriminate].
    + apply classify_throws in Hc.
      split; [intros [x Hx]; discriminate|intros [Hl _]; contradiction].
Qed.

Lemma process_line_classify line p :
  process_line gmtoff authUser banIP line p =
    match classify gmtoff authUser banIP line (p_engine p) with
    | None => None
    | Some (o, st') =>
        Some (mk_pstate st' (Str.to_int (lineCount p + 1))
                (Str.to_int (hackAtt p + (if is_hacking o then 1 else 0)))
                (default EmptyString (extract_user line))
                (p_os p ++ report line o))
    end.
Proof.
  unfold process_line.
  destruct (classify gmtoff authUser banIP line (p_engine p))
    as [[o st']|] eqn:Hc.
  - destruct (extract_user line) as [user|] eqn:Hu.
    + destruct o; simpl; rewrite ?Z.add_0_r, ?app_nil_r; reflexivity.
    + unfold classify in Hc. rewrite Hu in Hc. discriminate.
  - destruct (extract_user line); reflexivity.
Qed.

(** An [int] holds the values from [- 2^31] up to [2^31 - 1]. *)
Lemma to_int_small z : - 2 ^ 31 <= z < 2 ^ 31 -> Str.to_int z = z.
Proof.
  intros Hz. unfold Str.to_int.
  change (2 ^ 31) with 2147483648 in *. change (2 ^ 32) with 4294967296.
  destruct (Z.ltb_spec (z mod 4294967296) 2147483648) as [H|H].
  - destruct (Z.lt_ge_cases z 0) as [Hn|Hn].
    + rewrite <- (Z.mod_add z 1 4294967296) in H by lia.
      rewrite Z.mod_small in H by lia. lia.
    + apply Z.mod_small. lia.
  - destruct (Z.lt_ge_cases z 0) as [Hn|Hn].
    + rewrite <- (Z.mod_add z 1 4294967296) by lia.
      rewrite Z.mod_small by lia. lia.
    + rewrite Z.mod_small in H by lia. lia.
Qed.

(** The data loop classifies the lines before the first empty one in
    order and appends the reports of the hacking outcomes; as long as
    the line counter stays below [2^31] it counts each of the lines, and
    the hacking counter the hacking outcomes. *)
Lemma data_loop_run input p p' :
  0 <= hackAtt p <= lineCount p ->
  lineCount p + Z.of_nat (length (until_empty input)) < 2 ^ 31 ->
  data_loop gmtoff authUser banIP input p = Some p' ->
  exists outs,
    run gmtoff authUser banIP (until_empty input) (p_engine p)
      = Some (outs, p_engine p')
    /\ lineCount p' = lineCount p + Z.of_nat (length (until_empty input))
    /\ hackAtt p' = hackAtt p + Z.of_nat (length (filter is_hacking outs))
    /\ p_os p' = p_os p ++ reports (until_empty input) outs.
Proof.
  change (2 ^ 31) with 2147483648.
  revert p. induction input as [|line rest IH]; intros p Hh Hb; simpl.
  - intros [= <-]. exists []. simpl. rewrite app_nil_r.
    repeat split; lia.
  - simpl in Hb. destruct (String.eqb line EmptyString).
    + intros [= <-]. exists []. simpl. rewrite app_nil_r.
      repeat split; lia.
    + rewrite process_line_classify.
      destruct (classify gmtoff authUser banIP line (p_engine p))
        as [[o st1]|] eqn:Hc; [|discriminate].
      cbn [length] in Hb. rewrite Nat2Z.inj_succ in Hb.
      assert (Hi : 0 <= (if is_hacking o then 1 else 0) <= 1)
        by (destruct (is_hacking o); lia).
      rewrite (to_int_small (lineCount p + 1)),
        (to_int_small (hackAtt p + _))
        by (change (2 ^ 31) with 2147483648; lia).
      intros H.
      apply IH in H as (outs & Hr & Hn & Hm & Ho);
        cbn [p_engine lineCount hackAtt p_os]; [|lia|lia].
      cbn [p_engine lineCount hackAtt p_os] in Hr, Hn, Hm, Ho.
      exists (o :: outs). simpl.
      rewrite Hc, Hr. split; [reflexivity|].
      split; [lia|]. split.
      * rewrite Hm, filter_cons. destruct o; simpl; lia.
      * rewrite Ho, <- app_assoc. reflexivity.
Qed.

Lemma data_loop_completes input p :
  is_Some (data_loop gmtoff authUser banIP input p)
  <-> Forall long_enough (until_empty input).
Proof.
  revert p. induction input as [|line rest IH]; intros p; simpl.
  - split; [constructor|eauto].
  - destruct (String.eqb line EmptyString).
    + split; [constructor|eauto].
    + rewrite Forall_cons, process_line_classify.
      destruct (classify gmtoff authUser banIP line (p_engine p))
        as [[o st1]|] eqn:Hc.
      * rewrite IH. split; [|tauto]. intros H. split; [|exact H].
        destruct (long_enough_dec line) as [Hl|Hl]; [exact Hl|].
        apply (classify_throws line (p_engine p)) in Hl. congruence.
      * apply classify_throws in Hc.
        split; [intros [x Hx]; discriminate|tauto].
Qed.

End Process.

(** ** Parsing a well-formed timestamp *)

Section Timestamp.

Import Libc.

Lemma append_cons c (s r : string) : String c s +:+ r = String c (s +:+ r).
Proof. reflexivity. Qed.

Lemma append_nil (r : string) : EmptyString +:+ r = r.
Proof. reflexivity. Qed.

Lemma append_nil_r (s : string) : s +:+ EmptyString = s.
Proof.
  induction s as [|c s IH]; [reflexivity|].
  rewrite append_cons, IH. reflexivity.
Qed.

Lemma digit_cases a :
  0 <= a <= 9 ->
  a = 0 \/ a = 1 \/ a = 2 \/ a = 3 \/ a = 4 \/ a = 5 \/ a = 6 \/ a = 7
  \/ a = 8 \/ a = 9.
Proof. lia. Qed.

Ltac each_digit a H :=
  apply digit_cases in H;
  repeat (destruct H as [H|H]; [subst a; reflexivity|]);
  subst a; reflexivity.

Lemma isdigit_digit_char a : 0 <= a <= 9 -> isdigit (digit_char a) = true.
Proof. intros H. each_digit a H. Qed.

Lemma isspace_digit_char a : 0 <= a <= 9 -> isspace (digit_char a) = false.
Proof. intros H. each_digit a H. Qed.

Lemma digit_val_digit_char a : 0 <= a <= 9 -> digit_val (digit_char a) = a.
Proof. intros H. each_digit a H. Qed.

Lemma nul_digit_char a :
  0 <= a <= 9 -> Ascii.eqb (digit_char a) "000" = false.
Proof. intros H. each_digit a H. Qed.

(** [get_number] on two digits that stay within the field's range. *)
Lemma get_number_two_digits from to a b rest :
  0 <= a <= 9 -> 0 <= b <= 9 ->
  a * 10 <= to -> from <= a * 10 + b <= to ->
  get_number from to 2 (String (digit_char a) (String (digit_char b) rest))
  = Some (a * 10 + b, rest).
Proof.
  intros Ha Hb Hto Hr. unfold get_number.
  cbn [skip_spaces]. rewrite (isspace_digit_char a Ha).
  rewrite (isdigit_digit_char a Ha). cbn [Nat.pred more_digits].
  rewrite (digit_val_digit_char a Ha), (isdigit_digit_char b Hb),
    (digit_val_digit_char b Hb).
  destruct (Z.leb_spec (a * 10) to) as [_|]; [|lia]. cbn [andb].
  destruct (Z.ltb_spec (a * 10 + b) from); [lia|].
  destruct (Z.ltb_spec to (a * 10 + b)); [lia|]. reflexivity.
Qed.

Lemma two_digits_value v :
  0 <= v <= 99 ->
  0 <= v / 10 <= 9 /\ 0 <= v mod 10 <= 9 /\ v / 10 * 10 + v mod 10 = v.
Proof.
  intros H. pose proof (Z.div_mod v 10). pose proof (Z.mod_pos_bound v 10).
  lia.
Qed.

(** A two-digit field within its range, whatever follows it. *)
Lemma number_into_two_digits set from to v rest t :
  0 <= from -> to <= 99 -> from <= v <= to -> v / 10 * 10 <= to ->
  number_into set from to (two_digits v +:+ rest) t = Some (rest, set t v).
Proof.
  intros Hf Ht Hv Hd. unfold number_into, two_digits.
  rewrite !append_cons, append_nil.
  destruct (two_digits_value v) as (Ha & Hb & Hab); [lia|].
  rewrite get_number_two_digits by lia. rewrite Hab. reflexivity.
Qed.

Lemma skip_spaces_two_digits v rest :
  0 <= v <= 99 ->
  skip_spaces (String " " (two_digits v +:+ rest)) = two_digits v +:+ rest.
Proof.
  intros Hv. destruct (two_digits_value v Hv) as (Ha & _ & _).
  unfold two_digits. rewrite !append_cons, append_nil. cbn [skip_spaces].
  change (isspace " ") with true.
  cbv iota. rewrite (isspace_digit_char _ Ha). reflexivity.
Qed.

(** The month conversion on an abbreviation followed by a space. *)
Lemma conversion_month_abbrev m rest t :
  (m < 12)%nat ->
  conversion "B" (month_abbrev m +:+ String " " rest) t
  = Some (String " " rest, set_mon t (Z.of_nat m)).
Proof.
  intros Hm.
  do 12 (destruct m as [|m]; [reflexivity|]). lia.
Qed.

Lemma strptime_conversion conv rp fmt t :
  strptime rp (String "%" (String conv fmt)) t =
    match conversion conv rp t with
    | Some (rp', t') => strptime rp' fmt t'
    | None => (t, false)
    end.
Proof. reflexivity. Qed.

Lemma strptime_space rp fmt t :
  strptime rp (String " " fmt) t = strptime (skip_spaces rp) fmt t.
Proof. reflexivity. Qed.

Lemma strptime_colon rp fmt t :
  strptime (String ":" rp) (String ":" fmt) t = strptime rp fmt t.
Proof. reflexivity. Qed.

Lemma c_str_two_digits v rest :
  0 <= v <= 99 ->
  Str.c_str (two_digits v +:+ rest) = two_digits v +:+ Str.c_str rest.
Proof.
  intros Hv. destruct (two_digits_value v Hv) as (Ha & Hb & _).
  unfold two_digits. rewrite !append_cons, !append_nil. cbn [Str.c_str].
  rewrite (nul_digit_char _ Ha), (nul_digit_char _ Hb). reflexivity.
Qed.

Lemma c_str_month_abbrev m rest :
  (m < 12)%nat ->
  Str.c_str (month_abbrev m +:+ rest) = month_abbrev m +:+ Str.c_str rest.
Proof.
  intros Hm. do 12 (destruct m as [|m]; [reflexivity|]). lia.
Qed.

(** The fields [strptime] stores for a month abbreviation and two-digit
    day, hour and minute, followed by a seconds field [sec] that reads
    as [sv]. *)
Lemma strptime_fields m d h mi sec sv rest t :
  (m < 12)%nat -> 1 <= d <= 31 -> 0 <= h <= 23 -> 0 <= mi <= 59 ->
  Str.c_str sec = sec ->
  (forall t', number_into set_sec 0 61 sec t' = Some (rest, set_sec t' sv)) ->
  strptime
    (Str.c_str
       (month_abbrev m +:+ String " " (two_digits d +:+ String " "
          (two_digits h +:+ String ":" (two_digits mi +:+ String ":" sec)))))
    "%B %d %H:%M:%S" t =
    (mk_tm sv mi h d (Z.of_nat m) (tm_year t) (tm_isdst t), true).
Proof.
  intros Hm Hd Hh Hmi Hnul Hsec.
  rewrite c_str_month_abbrev by exact Hm. cbn [Str.c_str].
  change (Ascii.eqb " " "000") with false. cbv iota.
  rewrite !c_str_two_digits by lia. cbn [Str.c_str].
  change (Ascii.eqb " " "000") with false. cbv iota.
  rewrite !c_str_two_digits by lia. cbn [Str.c_str].
  change (Ascii.eqb ":" "000") with false. cbv iota.
  rewrite !c_str_two_digits by lia. cbn [Str.c_str].
  change (Ascii.eqb ":" "000") with false. cbv iota.
  rewrite Hnul.
  assert (Hdiv : forall v top, 0 <= v <= top -> v / 10 * 10 <= top).
  { intros v top Hv. pose proof (Z.div_mod v 10).
    pose proof (Z.mod_pos_bound v 10). lia. }
  rewrite strptime_conversion, conversion_month_abbrev by exact Hm.
  rewrite strptime_space, skip_spaces_two_digits by lia.
  rewrite strptime_conversion.
  change (conversion "d") with (number_into set_mday 1 31).
  rewrite number_into_two_digits by (try apply Hdiv; lia).
  rewrite strptime_space, skip_spaces_two_digits by lia.
  rewrite strptime_conversion.
  change (conversion "H") with (number_into set_hour 0 23).
  rewrite number_into_two_digits by (try apply Hdiv; lia).
  rewrite strptime_colon, strptime_conversion.
  change (conversion "M") with (number_into set_min 0 59).
  rewrite number_into_two_digits by (try apply Hdiv; lia).
  rewrite strptime_colon, strptime_conversion.
  change (conversion "S") with (number_into set_sec 0 61).
  rewrite Hsec. reflexivity.
Qed.

Lemma stamp_shape m d h mi s :
  stamp m d h mi s =
    month_abbrev m +:+ String " " (two_digits d +:+ String " "
      (two_digits h +:+ String ":" (two_digits mi +:+ String ":"
        (two_digits s)))).
Proof. reflexivity. Qed.

(** The fields [strptime] stores for a well-formed prefix. *)
Lemma strptime_stamp m d h mi s t :
  (m < 12)%nat -> 1 <= d <= 31 -> 0 <= h <= 23 -> 0 <= mi <= 59 ->
  0 <= s <= 59 ->
  strptime (Str.c_str (stamp m d h mi s)) "%B %d %H:%M:%S" t =
    (mk_tm s mi h d (Z.of_nat m) (tm_year t) (tm_isdst t), true).
Proof.
  intros Hm Hd Hh Hmi Hs. rewrite stamp_shape.
  apply (strptime_fields m d h mi (two_digits s) s EmptyString);
    try assumption.
  - rewrite <- (append_nil_r (two_digits s)) at 1.
    rewrite c_str_two_digits by lia. apply append_nil_r.
  - intros t'. rewrite <- (append_nil_r (two_digits s)).
    apply number_into_two_digits; try lia.
    pose proof (Z.div_mod s 10). pose proof (Z.mod_pos_bound s 10). lia.
Qed.

(** The first 14 characters of a line that starts with a well-formed
    15-character prefix end after the first digit of the seconds. *)
Lemma substring_14_stamp m d h mi s rest :
  (m < 12)%nat ->
  substring 0 14 (stamp m d h mi s +:+ rest) =
    month_abbrev m +:+ String " " (two_digits d +:+ String " "
      (two_digits h +:+ String ":" (two_digits mi +:+ String ":"
        (String (digit_char (s / 10)) EmptyString)))).
Proof.
  intros Hm. do 12 (destruct m as [|m]; [reflexivity|]). lia.
Qed.

Lemma number_into_one_digit set from to a t :
  0 <= a <= 9 -> from <= a <= to ->
  number_into set from to (String (digit_char a) EmptyString) t
  = Some (EmptyString, set t a).
Proof.
  intros Ha Hr. unfold number_into, get_number. cbn [skip_spaces].
  rewrite (isspace_digit_char a Ha), (isdigit_digit_char a Ha).
  cbn [Nat.pred more_digits]. rewrite (digit_val_digit_char a Ha).
  destruct (Z.ltb_spec a from); [lia|].
  destruct (Z.ltb_spec to a); [lia|]. reflexivity.
Qed.

Lemma mon_yday_2021 m :
  (m < 12)%nat ->
  nth m (mon_yday (leapyear 2021)) 0 = days_before_month 2021 m.
Proof.
  intros Hm. do 12 (destruct m as [|m]; [reflexivity|]). lia.
Qed.

(** [mktime] agrees with the calendar count for the fields of 2021. *)
Lemma mktime_2021 gmtoff m d h mi s isdst :
  (m < 12)%nat ->
  mktime gmtoff (mk_tm s mi h d (Z.of_nat m) (2021 - 1900) isdst)
  = epoch_seconds gmtoff 2021 m d h mi s.
Proof.
  intros Hm. unfold mktime, epoch_seconds. cbn [tm_mon tm_year tm_mday
    tm_hour tm_min tm_sec].
  rewrite (Z.div_small (Z.of_nat m) 12) by lia.
  rewrite (Z.mod_small (Z.of_nat m) 12) by lia.
  rewrite Nat2Z.id.
  change (2021 - 1900 + 1900 + 0) with 2021.
  rewrite (mon_yday_2021 m Hm).
  change (days_before_year 2021) with 18628.
  change (365 * (2021 - 1970) + (leaps_before 2021 - leaps_before 1970))
    with 18628.
  lia.
Qed.

(** [toSeconds] on a well-formed prefix with the default year. *)
Lemma toSeconds_stamp gmtoff m d h mi s :
  (m < 12)%nat -> 1 <= d <= 31 -> 0 <= h <= 23 -> 0 <= mi <= 59 ->
  0 <= s <= 59 ->
  toSeconds gmtoff (stamp m d h mi s) 2021
  = epoch_seconds gmtoff 2021 m d h mi s.
Proof.
  intros Hm Hd Hh Hmi Hs. unfold toSeconds.
  rewrite strptime_stamp by assumption. cbn [fst tm_year tm_isdst].
  apply mktime_2021. exact Hm.
Qed.

(** What the frequency check reads from a line that starts with a
    well-formed 15-character prefix: the calendar time with only the
    first digit of the seconds. *)
Lemma line_time_stamp gmtoff m d h mi s rest :
  (m < 12)%nat -> 1 <= d <= 31 -> 0 <= h <= 23 -> 0 <= mi <= 59 ->
  0 <= s <= 59 ->
  line_time gmtoff (stamp m d h mi s +:+ rest)
  = epoch_seconds gmtoff 2021 m d h mi (s / 10).
Proof.
  intros Hm Hd Hh Hmi Hs. unfold line_time, toSeconds.
  rewrite substring_14_stamp by exact Hm.
  assert (Ha : 0 <= s / 10 <= 9).
  { pose proof (Z.div_mod s 10). pose proof (Z.mod_pos_bound s 10). lia. }
  rewrite (strptime_fields m d h mi _ (s / 10) EmptyString);
    try assumption.
  - cbn [fst tm_year tm_isdst]. apply mktime_2021. exact Hm.
  - cbn [Str.c_str]. rewrite (nul_digit_char _ Ha). reflexivity.
  - intros t'. apply number_into_one_digit; lia.
Qed.

End Timestamp.

(** ** The daylight-saving field

    [mktime] is modelled for [tm_isdst = 0]; that is how [toSeconds]
    calls it. *)

Section Daylight.

Import Libc.

Lemma number_into_isdst set from to rp t rp' t' :
  (forall t v, tm_isdst (set t v) = tm_isdst t) ->
  number_into set from to rp t = Some (rp', t') ->
  tm_isdst t' = tm_isdst t.
Proof.
  intros Hset. unfold number_into.
  destruct (get_number from to 2 rp) as [[v rp'']|]; [|discriminate].
  intros [= _ <-]. apply Hset.
Qed.

Lemma conversion_isdst conv rp t rp' t' :
  conversion conv rp t = Some (rp', t') -> tm_isdst t' = tm_isdst t.
Proof.
  unfold conversion. intros H.
  assert (Hmon :
    match match_month month_names 0 rp None with
    | Some (cnt, trp) => Some (trp, set_mon t cnt)
    | None => None
    end = Some (rp', t') -> tm_isdst t' = tm_isdst t).
  { destruct (match_month month_names 0 rp None) as [[cnt trp]|];
      [|discriminate]. intros [= _ <-]. reflexivity. }
  destruct conv as [[|] [|] [|] [|] [|] [|] [|] [|]]; cbv beta iota in H;
    first [discriminate H | exact (Hmon H)
          | (eapply number_into_isdst; [|exact H]; intros; reflexivity)].
Qed.

(** No conversion of [strptime] touches [tm_isdst]. *)
Lemma strptime_isdst fmt rp t :
  tm_isdst (fst (strptime rp fmt t)) = tm_isdst t.
Proof.
  enough (H : (forall rp t, tm_isdst (fst (strptime rp fmt t)) = tm_isdst t)
              /\ (forall c rp t,
                    tm_isdst (fst (strptime rp (String c fmt) t))
                    = tm_isdst t)) by apply H.
  clear rp t. induction fmt as [|c' fmt [IH1 IH2]].
  - split; [reflexivity|]. intros c rp t. cbn [strptime].
    destruct (isspace c); [reflexivity|].
    destruct (Ascii.eqb c "%"); [reflexivity|].
    destruct rp as [|r rp]; [reflexivity|].
    destruct (Ascii.eqb r c); reflexivity.
  - split; [exact (IH2 c')|]. intros c rp t.
    change (strptime rp (String c (String c' fmt)) t) with
      (if isspace c then strptime (skip_spaces rp) (String c' fmt) t
       else if Ascii.eqb c "%" then
         match conversion c' rp t with
         | Some (rp', t') => strptime rp' fmt t'
         | None => (t, false)
         end
       else
         match rp with
         | String r rp' =>
             if Ascii.eqb r c then strptime rp' (String c' fmt) t
             else (t, false)
         | EmptyString => (t, false)
         end).
    destruct (isspace c); [apply IH2|].
    destruct (Ascii.eqb c "%").
    + destruct (conversion c' rp t) as [[rp' t']|] eqn:Hc; [|reflexivity].
      rewrite IH1. exact (conversion_isdst _ _ _ _ _ Hc).
    + destruct rp as [|r rp]; [reflexivity|].
      destruct (Ascii.eqb r c); [apply IH2|reflexivity].
Qed.

End Daylight.

(** [toSeconds] calls [mktime] with [tm_isdst = 0], whatever the
    timestamp says. *)
Lemma toSeconds_isdst timestamp year :
  Libc.tm_isdst
    (fst (Libc.strptime (Str.c_str timestamp) "%B %d %H:%M:%S"
            (Libc.mk_tm 0 0 0 0 0 (year - 1900) 0))) = 0.
Proof. rewrite strptime_isdst. reflexivity. Qed.

(** ** Properties of the detection engine *)

Section Threshold.

Variable gmtoff : Z.
Variables authUser banIP : LookupMap.

Lemma close_failed_true temp i line :
  Z.abs (nth (i + 1) temp 0 - nth i temp 0) < 20 ->
  Str.contains line "Failed" = true ->
  close_failed temp i line = true.
Proof.
  intros Hd Hf. unfold close_failed. rewrite Hf, andb_true_r.
  apply Z.ltb_lt. exact Hd.
Qed.

Lemma close_failed_false temp i line :
  20 <= Z.abs (nth (i + 1) temp 0 - nth i temp 0)
  \/ Str.contains line "Failed" = false ->
  close_failed temp i line = false.
Proof.
  intros [Hd|Hf]; unfold close_failed.
  - apply andb_false_intro1, Z.ltb_ge. exact Hd.
  - rewrite Hf. apply andb_false_r.
Qed.

(** Three timestamps close together on a failed line: the scan counts
    two pairs and stops short of the threshold. *)
Lemma scan_three a b c line (log : LoginTimes) user :
  Z.abs (b - a) < 20 -> Z.abs (c - b) < 20 ->
  Str.contains line "Failed" = true ->
  scan_result [a; b; c] line log user = (false, log).
Proof.
  intros Hab Hbc Hf. unfold scan_result.
  cbn [length Nat.sub Nat.min seq forallb].
  rewrite !close_failed_true by (cbn [nth Nat.add]; assumption).
  reflexivity.
Qed.

(** Four of them: the third pair takes the counter past 2. *)
Lemma scan_four a b c d line (log : LoginTimes) user :
  Z.abs (b - a) < 20 -> Z.abs (c - b) < 20 -> Z.abs (d - c) < 20 ->
  Str.contains line "Failed" = true ->
  scan_result [a; b; c; d] line log user = (true, <[user := [b; c; d]]> log).
Proof.
  intros Hab Hbc Hcd Hf. unfold scan_result.
  cbn [length Nat.sub Nat.min seq forallb].
  rewrite !close_failed_true by (cbn [nth Nat.add]; assumption).
  reflexivity.
Qed.

End Threshold.

Section Window.

Variable gmtoff : Z.
Variables authUser banIP : LookupMap.
Variable user : string.

Lemma with_history_flag st h :
  flagged (with_history st user h) !! user = Some false.
Proof. apply lookup_insert_eq. Qed.

Lemma with_history_log st h : log (with_history st user h) !! user = Some h.
Proof. apply lookup_insert_eq. Qed.

Lemma with_history_twice st h h' :
  with_history (with_history st user h) user h' = with_history st user h'.
Proof.
  unfold with_history. cbn [flagged log].
  rewrite !insert_insert_eq. reflexivity.
Qed.

Lemma classify_checkLog line st b lg :
  failed_attempt authUser banIP user line ->
  flagged st !! user <> Some true ->
  checkLog gmtoff line (log st) user = (b, lg) ->
  classify gmtoff authUser banIP line st =
    Some (if b then FrequencyBreach else Benign,
          mk_engine (<[user := false]> (flagged st)) lg).
Proof.
  intros (Hu & Ha & Hb & _) Hf Hc.
  rewrite (classify_frequency gmtoff authUser banIP line user st Hu Ha Hb)
    by (intros [|]; congruence).
  rewrite Hc. reflexivity.
Qed.

(** The first line of a user. *)
Lemma classify_first line st :
  failed_attempt authUser banIP user line ->
  flagged st !! user <> Some true ->
  log st !! user = None ->
  classify gmtoff authUser banIP line st
  = Some (Benign, with_history st user [line_time gmtoff line]).
Proof.
  intros Hl Hf Hlog. apply (classify_checkLog line st false); try assumption.
  apply checkLog_new. exact Hlog.
Qed.

(** The second line. *)
Lemma classify_second line st a :
  failed_attempt authUser banIP user line ->
  flagged st !! user <> Some true ->
  log st !! user = Some [a] ->
  classify gmtoff authUser banIP line st
  = Some (Benign, with_history st user [a; line_time gmtoff line]).
Proof.
  intros Hl Hf Hlog. apply (classify_checkLog line st false); try assumption.
  rewrite (checkLog_short gmtoff line user (log st) [a] Hlog);
    [reflexivity|simpl; lia].
Qed.

(** The third line, close to the two before it: two pairs, no breach. *)
Lemma classify_third line st a b :
  failed_attempt authUser banIP user line ->
  flagged st !! user <> Some true ->
  log st !! user = Some [a; b] ->
  Z.abs (b - a) < 20 -> Z.abs (line_time gmtoff line - b) < 20 ->
  classify gmtoff authUser banIP line st
  = Some (Benign, with_history st user [a; b; line_time gmtoff line]).
Proof.
  intros Hl Hf Hlog Hab Hbt.
  apply (classify_checkLog line st false); try assumption.
  rewrite (checkLog_scan gmtoff line user (log st) [a; b] Hlog)
    by (simpl; lia).
  cbn [app]. cbv zeta. apply scan_three; try assumption. apply Hl.
Qed.

(** The fourth line, close to the three before it: the third pair takes
    the counter past 2, and the oldest timestamp goes. *)
Lemma classify_fourth line st a b c :
  failed_attempt authUser banIP user line ->
  flagged st !! user <> Some true ->
  log st !! user = Some [a; b; c] ->
  Z.abs (b - a) < 20 -> Z.abs (c - b) < 20 ->
  Z.abs (line_time gmtoff line - c) < 20 ->
  classify gmtoff authUser banIP line st
  = Some (FrequencyBreach,
          with_history st user [b; c; line_time gmtoff line]).
Proof.
  intros Hl Hf Hlog Hab Hbc Hct.
  apply (classify_checkLog line st true); try assumption.
  rewrite (checkLog_scan gmtoff line user (log st) [a; b; c] Hlog)
    by (simpl; lia).
  cbn [app]. cbv zeta. rewrite scan_four by (try assumption; apply Hl).
  rewrite insert_insert_eq. reflexivity.
Qed.

Lemma with_history_unflagged st h :
  flagged (with_history st user h) !! user <> Some true.
Proof. rewrite with_history_flag. discriminate. Qed.

(** Four failed logins of a new user, each within 20 seconds of the one
    before: benign three times, then a breach. *)
Lemma run_four_attempts l1 l2 l3 l4 st :
  failed_attempt authUser banIP user l1 ->
  failed_attempt authUser banIP user l2 ->
  failed_attempt authUser banIP user l3 ->
  failed_attempt authUser banIP user l4 ->
  Z.abs (line_time gmtoff l2 - line_time gmtoff l1) < 20 ->
  Z.abs (line_time gmtoff l3 - line_time gmtoff l2) < 20 ->
  Z.abs (line_time gmtoff l4 - line_time gmtoff l3) < 20 ->
  log st !! user = None ->
  flagged st !! user <> Some true ->
  run gmtoff authUser banIP [l1; l2; l3] st
    = Some ([Benign; Benign; Benign],
            with_history st user
              [line_time gmtoff l1; line_time gmtoff l2;
               line_time gmtoff l3])
  /\ run gmtoff authUser banIP [l1; l2; l3; l4] st
     = Some ([Benign; Benign; Benign; FrequencyBreach],
             with_history st user
               [line_time gmtoff l2; line_time gmtoff l3;
                line_time gmtoff l4]).
Proof.
  intros H1 H2 H3 H4 T12 T23 T34 Hlog Hflag.
  set (t1 := line_time gmtoff l1) in *. set (t2 := line_time gmtoff l2) in *.
  set (t3 := line_time gmtoff l3) in *. set (t4 := line_time gmtoff l4) in *.
  assert (C1 := classify_first l1 st H1 Hflag Hlog). fold t1 in C1.
  assert (C2 := classify_second l2 (with_history st user [t1]) t1 H2
                  (with_history_unflagged st _) (with_history_log st _)).
  rewrite with_history_twice in C2. fold t2 in C2.
  assert (C3 := classify_third l3 (with_history st user [t1; t2]) t1 t2 H3
                  (with_history_unflagged st _) (with_history_log st _)
                  T12 T23).
  rewrite with_history_twice in C3. fold t3 in C3.
  assert (C4 := classify_fourth l4 (with_history st user [t1; t2; t3])
                  t1 t2 t3 H4
                  (with_history_unflagged st _) (with_history_log st _)
                  T12 T23 T34).
  rewrite with_history_twice in C4. fold t4 in C4.
  split; cbn [run]; rewrite C1, C2, C3, ?C4; reflexivity.
Qed.

(** C1, as the code has it.  Three failed-login lines of one user, not
    authorized and not banned, each within 20 seconds of the one before
    (as at 0, 5 and 10 seconds), on an engine that has no history for
    the user: all three are benign, since three timestamps make only two
    pairs and the counter must pass 2.  The third line once more makes
    the third pair and is a frequency breach; it is not reported as
    already flagged, and the user's flag is false afterwards. *)
Theorem window_threshold l1 l2 l3 st :
  failed_attempt authUser banIP user l1 ->
  failed_attempt authUser banIP user l2 ->
  failed_attempt authUser banIP user l3 ->
  Z.abs (line_time gmtoff l2 - line_time gmtoff l1) < 20 ->
  Z.abs (line_time gmtoff l3 - line_time gmtoff l2) < 20 ->
  log st !! user = None ->
  flagged st !! user <> Some true ->
  exists st',
    run gmtoff authUser banIP [l1; l2; l3; l3] st
      = Some ([Benign; Benign; Benign; FrequencyBreach], st')
    /\ log st' !! user
       = Some [line_time gmtoff l2; line_time gmtoff l3;
               line_time gmtoff l3]
    /\ flagged st' !! user = Some false.
Proof.
  intros H1 H2 H3 T12 T23 Hlog Hflag.
  assert (T33 : Z.abs (line_time gmtoff l3 - line_time gmtoff l3) < 20)
    by (rewrite Z.sub_diag; simpl; lia).
  destruct (run_four_attempts l1 l2 l3 l3 st H1 H2 H3 H3 T12 T23 T33
              Hlog Hflag) as [_ H].
  eexists. split; [exact H|]. split.
  - apply with_history_log.
  - apply with_history_flag.
Qed.

End Window.

Section Flags.

Variable gmtoff : Z.
Variables authUser banIP : LookupMap.

(** An entry of the flagged map stays as it is from line to line. *)
Lemma classify_flag_kept line st o st' u :
  classify gmtoff authUser banIP line st = Some (o, st') ->
  flagged st !! u = Some false -> flagged st' !! u = Some false.
Proof.
  intros H Hu. apply classify_cases in H as (user & _ & H).
  destruct H as [[_ ->]|[(_ & _ & ->)|(_ & _ & Hfl & _)]]; try exact Hu.
  rewrite Hfl, lookup_insert. case_decide; [reflexivity|exact Hu].
Qed.

Lemma run_flag_kept lines st outs st' u :
  run gmtoff authUser banIP lines st = Some (outs, st') ->
  flagged st !! u = Some false -> flagged st' !! u = Some false.
Proof.
  revert st outs st'. induction lines as [|line rest IH];
    intros st outs st' H Hu; simpl in H.
  - injection H as <- <-. exact Hu.
  - destruct (classify gmtoff authUser banIP line st) as [[o st1]|] eqn:Hc;
      [|discriminate].
    destruct (run gmtoff authUser banIP rest st1) as [[os st2]|] eqn:Hr;
      [|discriminate].
    injection H as <- <-. eapply IH; [exact Hr|].
    eapply classify_flag_kept; eauto.
Qed.

(** C2, as the code has it.  After a line of a user has been classified
    as a frequency breach, the user's entry in the flagged map is false
    and stays false over any further lines, and each later line of that
    user that is neither authorized nor banned is decided by the
    frequency check again: a breach if [checkLog] signals one, benign
    otherwise, never already flagged. *)
Theorem flag_after_breach pre outs0 st0 line st1 more outs st2 line' user :
  run gmtoff authUser banIP pre engine_init = Some (outs0, st0) ->
  extract_user line = Some user ->
  classify gmtoff authUser banIP line st0 = Some (FrequencyBreach, st1) ->
  run gmtoff authUser banIP more st1 = Some (outs, st2) ->
  extract_user line' = Some user ->
  isAuth line' authUser = false ->
  isBand line' banIP = false ->
  flagged st1 !! user = Some false
  /\ flagged st2 !! user = Some false
  /\ classify gmtoff authUser banIP line' st2 =
       Some (if fst (checkLog gmtoff line' (log st2) user)
             then FrequencyBreach else Benign,
             mk_engine (flagged st2)
                       (snd (checkLog gmtoff line' (log st2) user))).
Proof.
  intros Hpre Hu Hc Hmore Hu' Ha Hb.
  assert (H1 : flagged st1 !! user = Some false).
  { apply classify_cases in Hc as (user1 & Hu1 & H).
    rewrite Hu in Hu1. injection Hu1 as <-.
    destruct H as [[[?|?] _]|[(? & _)|(_ & _ & Hfl & _)]];
      try discriminate.
    rewrite Hfl. apply lookup_insert_eq. }
  assert (H2 : flagged st2 !! user = Some false)
    by (eapply run_flag_kept; eauto).
  split; [exact H1|]. split; [exact H2|].
  rewrite (classify_frequency gmtoff authUser banIP line' user st2 Hu' Ha Hb)
    by (intros b; rewrite H2; congruence).
  rewrite (insert_id _ _ _ H2). reflexivity.
Qed.

(** C9.  However many lines the engine has classified from its initial
    state, no entry of the flagged map is true, [isFlag] answers false
    for every user, and no line was classified as already flagged. *)
Theorem flagged_never_true lines outs st :
  run gmtoff authUser banIP lines engine_init = Some (outs, st) ->
  (forall u b, flagged st !! u = Some b -> b = false)
  /\ (forall u, fst (isFlag u (flagged st)) = false)
  /\ AlreadyFlagged ∉ outs.
Proof.
  intros H. apply run_invariants in H as [Hf _].
  destruct (Hf engine_init_clear) as [Hc Ho].
  split; [exact Hc|]. split; [|exact Ho].
  intros u. rewrite isFlag_clear; [reflexivity|]. apply Hc.
Qed.

(** C6.  However many lines the engine has classified from its initial
    state, every user's stored history has at most three timestamps. *)
Theorem bounded_history lines outs st :
  run gmtoff authUser banIP lines engine_init = Some (outs, st) ->
  forall u h, log st !! u = Some h -> (length h <= 3)%nat.
Proof.
  intros H. apply run_invariants in H as [_ Hb].
  apply Hb, engine_init_bounded.
Qed.

(** C3, as the code has it.  A line that contains a key of the
    authorized map and is long enough for the user to be extracted is
    classified as authorized, whatever the banned map, the flags and the
    histories are, and the engine is left as it was. *)
Theorem authorization_precedence line st :
  mentions line authUser ->
  long_enough line ->
  classify gmtoff authUser banIP line st = Some (Authorized, st).
Proof.
  intros Hm Hl. unfold classify.
  rewrite (extract_user_some line Hl).
  apply isAuth_mentions in Hm. rewrite Hm. reflexivity.
Qed.

End Flags.

Section Frequency.

Variable gmtoff : Z.
Variables line user : string.

(** C4.  In a pass of the scan whose pair is more than 20 seconds apart
    or whose line does not contain "Failed", the counter becomes 0, the
    vector and the user's stored history become the last timestamp alone,
    and the loop goes on; it then ends at once with the result false.
    In [checkLog] that last timestamp is the one of the current line. *)
Theorem history_collapse :
  (forall i check temp (log : LoginTimes),
      (i + 1 < length temp)%nat ->
      20 <= Z.abs (nth (i + 1) temp 0 - nth i temp 0)
      \/ ~ is_substring "Failed" line ->
      helper_body line user i check temp log
        = Continue 0 [List.last temp 0] (<[user := [List.last temp 0]]> log)
      /\ forall fuel,
           helper_loop (S fuel) line user i check temp log
           = (false, <[user := [List.last temp 0]]> log))
  /\ (forall (log : LoginTimes) old i,
        log !! user = Some old ->
        (2 <= length old)%nat ->
        (i < Nat.min 3 (length old))%nat ->
        let temp := old ++ [line_time gmtoff line] in
        20 <= Z.abs (nth (i + 1) temp 0 - nth i temp 0)
        \/ ~ is_substring "Failed" line ->
        checkLog gmtoff line log user
          = (false, <[user := [line_time gmtoff line]]> log)).
Proof.
  assert (Hcf : forall temp i,
             20 <= Z.abs (nth (i + 1) temp 0 - nth i temp 0)
             \/ ~ is_substring "Failed" line ->
             close_failed temp i line = false).
  { intros temp i [H|H]; apply close_failed_false; [left; exact H|].
    right. destruct (Str.contains line "Failed") eqn:E; [|reflexivity].
    apply contains_substring in E. contradiction. }
  split.
  - intros i check temp log Hi H. apply Hcf in H. split.
    + apply helper_body_reset; assumption.
    + intros fuel. apply helper_loop_reset; assumption.
  - intros log old i Hu Hl Hi temp H. apply Hcf in H.
    rewrite (checkLog_scan gmtoff line user log old Hu Hl).
    fold temp. cbv zeta. unfold scan_result.
    assert (Hn : length temp = S (length old))
      by (unfold temp; rewrite length_app; simpl; lia).
    destruct (forallb _ _) eqn:Hall.
    + rewrite forallb_forall in Hall. rewrite Hall in H; [discriminate|].
      apply in_seq. lia.
    + unfold temp at 1. rewrite last_last, insert_insert_eq. reflexivity.
Qed.

(** C5.  A pass that ends the scan is a breach: it returns true and
    stores the vector without its first entry.  A pass whose pair takes
    the counter past 2 is such a pass, and so is a pass without a pair
    that finds the counter past 2.  When [checkLog] returns true, the
    user's stored history is the old one with the new timestamp, less
    its oldest entry. *)
Theorem breach_sliding :
  (forall i check temp (log : LoginTimes) b log',
      helper_body line user i check temp log = Return b log' ->
      b = true /\ log' = <[user := tail temp]> log)
  /\ (forall fuel i check temp (log : LoginTimes),
        (i + 1 < length temp)%nat ->
        close_failed temp i line = true ->
        2 < check + 1 ->
        helper_loop (S fuel) line user i check temp log
          = (true, <[user := tail temp]> log))
  /\ (forall fuel i check temp (log : LoginTimes),
        (i < length temp)%nat ->
        ~ (i + 1 < length temp)%nat ->
        2 < check ->
        helper_loop (S fuel) line user i check temp log
          = (true, <[user := tail temp]> log))
  /\ (forall (log log' : LoginTimes),
        checkLog gmtoff line log user = (true, log') ->
        exists old,
          log !! user = Some old
          /\ log' = <[user := tail (old ++ [line_time gmtoff line])]> log).
Proof.
  split; [|split; [|split]].
  - intros i check temp log b log'. unfold helper_body.
    destruct (bool_decide (i + 1 < length temp)%nat);
      [destruct (close_failed temp i line)|];
      match goal with |- context [2 <? ?c] => destruct (2 <? c) eqn:E end;
      try discriminate; intros [= <- <-]; auto.
  - intros fuel i check temp log Hi Hc Hk.
    rewrite helper_loop_unfold, bool_decide_eq_true_2 by lia.
    rewrite helper_body_close by assumption.
    destruct (Z.ltb_spec 2 (check + 1)); [reflexivity|lia].
  - intros fuel i check temp log Hi Hn Hk.
    rewrite helper_loop_unfold, bool_decide_eq_true_2 by lia.
    rewrite helper_body_no_pair by assumption.
    destruct (Z.ltb_spec 2 check); [reflexivity|lia].
  - intros log log' H. destruct (log !! user) as [old|] eqn:Hu.
    + exists old. split; [reflexivity|].
      destruct (le_lt_dec 2 (length old)) as [Hl|Hl].
      * rewrite (checkLog_scan gmtoff line user log old Hu Hl) in H.
        cbv zeta in H. unfold scan_result in H.
        destruct (forallb _ _); [|discriminate].
        destruct (bool_decide _); [|discriminate].
        injection H as <-. apply insert_insert_eq.
      * rewrite (checkLog_short gmtoff line user log old Hu Hl) in H.
        discriminate.
    + rewrite (checkLog_new gmtoff line user log Hu) in H. discriminate.
Qed.

End Frequency.

Section Reporting.

Variable gmtoff : Z.
Variables authUser banIP : LookupMap.

Lemma report_not_summary line o r n m :
  r ∈ report line o -> r <> summary n m.
Proof.
  destruct o; simpl; rewrite ?list_elem_of_singleton;
    try (intros H; apply elem_of_nil in H; contradiction);
    intros ->; discriminate.
Qed.

Lemma reports_not_summary lines outs r n m :
  r ∈ reports lines outs -> r <> summary n m.
Proof.
  revert outs. induction lines as [|line rest IH]; intros [|o outs]; simpl;
    try (intros H; apply elem_of_nil in H; contradiction).
  rewrite elem_of_app. intros [H|H].
  - eapply report_not_summary; eauto.
  - eapply IH; eauto.
Qed.

(** C7.  When [process] reaches the end of a stream of fewer than [2^31]
    data lines, as many as its [int] counters can count, the data loop
    has classified the data lines in order; its line counter is their
    number, its hacking counter the number of those classified as banned
    IP, already flagged or frequency breach; the output is the reports
    of those lines followed by the summary with the two counters, and no
    other line of the output is a summary. *)
Theorem counters_and_summary input out :
  Z.of_nat (length (data_lines input)) < 2 ^ 31 ->
  process gmtoff authUser banIP input = Some out ->
  exists outs p,
    data_loop gmtoff authUser banIP (skip_header input)
      (mk_pstate engine_init 0 0 EmptyString []) = Some p
    /\ run gmtoff authUser banIP (data_lines input) engine_init
       = Some (outs, p_engine p)
    /\ lineCount p = Z.of_nat (length (data_lines input))
    /\ hackAtt p = Z.of_nat (length (filter is_hacking outs))
    /\ out = reports (data_lines input) outs
             ++ [summary (lineCount p) (hackAtt p)]
    /\ forall r n m,
         r ∈ reports (data_lines input) outs -> r <> summary n m.
Proof.
  intros Hb. unfold process.
  destruct (data_loop gmtoff authUser banIP (skip_header input) _)
    as [p|] eqn:Hd; [|discriminate].
  intros [= <-].
  apply data_loop_run in Hd as (outs & Hr & Hn & Hm & Ho);
    cbn [p_engine lineCount hackAtt p_os]; [|lia|exact Hb].
  cbn [p_engine lineCount hackAtt p_os] in Hr, Hn, Hm, Ho.
  unfold data_lines. exists outs, p. split; [reflexivity|]. split; [exact Hr|].
  split; [lia|]. split; [lia|]. split.
  - rewrite Ho. reflexivity.
  - intros r n m. apply reports_not_summary.
Qed.

(** [process] reaches the end of the stream exactly when every data
    line is long enough for its user to be extracted. *)
Lemma process_completes input :
  is_Some (process gmtoff authUser banIP input)
  <-> Forall long_enough (data_lines input).
Proof.
  unfold data_lines. rewrite <- (data_loop_completes gmtoff authUser banIP
    (skip_header input) (mk_pstate engine_init 0 0 EmptyString [])).
  unfold process.
  destruct (data_loop gmtoff authUser banIP (skip_header input) _);
    split; intros [x Hx]; try discriminate; eauto.
Qed.

End Reporting.

Lemma line_time_unfold gmtoff line :
  line_time gmtoff line = toSeconds gmtoff (substring 0 14 line) 2021.
Proof. unfold line_time. reflexivity. Qed.

(** C8.  What [checkLog] stores for a line is the time parsed from the
    first 14 characters of the line, and a well-formed prefix
    "Mon DD HH:MM:SS" has 15: on a line that starts with one, the stored
    time is read from the prefix without the last digit of its seconds,
    which leaves it [s - s / 10] seconds behind what [toSeconds] gives
    for the prefix itself. *)
Theorem timestamp_parsing gmtoff m d h mi s rest user (log : LoginTimes) :
  (m < 12)%nat -> 1 <= d <= 31 -> 0 <= h <= 23 -> 0 <= mi <= 59 ->
  0 <= s <= 59 ->
  exists hist,
    snd (checkLog gmtoff (stamp m d h mi s +:+ rest) log user) !! user
    = Some hist
    /\ List.last hist 0
       = toSeconds gmtoff (substring 0 14 (stamp m d h mi s +:+ rest)) 2021
    /\ List.last hist 0
       = toSeconds gmtoff (stamp m d h mi s) 2021 - (s - s / 10).
Proof.
  intros Hm Hd Hh Hmi Hs.
  destruct (checkLog_history gmtoff (stamp m d h mi s +:+ rest) user log)
    as (hist & Hh' & Hl & _).
  exists hist. rewrite Hh', lookup_insert_eq. split; [reflexivity|].
  split.
  - rewrite <- line_time_unfold. exact Hl.
  - rewrite Hl, (line_time_stamp gmtoff m d h mi s rest Hm Hd Hh Hmi Hs),
      (toSeconds_stamp gmtoff m d h mi s Hm Hd Hh Hmi Hs).
    unfold epoch_seconds. lia.
Qed.

(** C10.  The user starts at the index that [find] gives for "sshd",
    narrowed to an [int], plus 5: at 4 when "sshd" does not occur, at
    [p + 5] when it occurs at [p].  Up to 5 characters from there are the
    user.  The extraction throws exactly when that index is beyond the
    length of the line, a line is classified without an exception exactly
    when it does not, and [process] reaches the end of the stream exactly
    when every data line is long enough. *)
Theorem user_extraction_precondition :
  (forall line,
      Str.find line "sshd" = None ->
      user_start line = 4
      /\ ((4 <= String.length line)%nat ->
          extract_user line = Some (substring 4 5 line)))
  /\ (forall line p,
        Str.find line "sshd" = Some p -> Z.of_nat p < 2 ^ 31 - 5 ->
        user_start line = Z.of_nat p + 5
        /\ ((p + 5 <= String.length line)%nat ->
            extract_user line = Some (substring (p + 5) 5 line)))
  /\ (forall line,
        extract_user line = None
        <-> Z.of_nat (String.length line) < user_start line)
  /\ (forall gmtoff authUser banIP line st,
        classify gmtoff authUser banIP line st = None
        <-> Z.of_nat (String.length line) < user_start line)
  /\ (forall gmtoff authUser banIP input,
        is_Some (process gmtoff authUser banIP input)
        <-> Forall (fun line =>
                      user_start line <= Z.of_nat (String.length line))
                   (data_lines input)).
Proof.
  split; [|split; [|split; [|split]]].
  - intros line H. pose proof (user_start_absent line H) as Hs.
    split; [exact Hs|]. intros Hl.
    rewrite extract_user_some by (unfold long_enough; lia).
    rewrite Hs. reflexivity.
  - intros line p H Hp. pose proof (user_start_found line p H Hp) as Hs.
    split; [exact Hs|]. intros Hl.
    rewrite extract_user_some by (unfold long_enough; lia).
    rewrite Hs. f_equal. f_equal. lia.
  - intros line. rewrite extract_user_throws. unfold long_enough. lia.
  - intros gmtoff authUser banIP line st. rewrite classify_throws.
    unfold long_enough. lia.
  - intros gmtoff authUser banIP input. apply process_completes.
Qed.


(** ** The sample lines *)

Section Samples.

Lemma isAuth_empty line : isAuth line ∅ = false.
Proof. unfold isAuth. rewrite map_to_list_empty. reflexivity. Qed.

Lemma isBand_empty line : isBand line ∅ = false.
Proof. unfold isBand. rewrite map_to_list_empty. reflexivity. Qed.

Lemma failed_attempt_unlisted user line :
  extract_user line = Some user ->
  Str.contains line "Failed" = true ->
  failed_attempt ∅ ∅ user line.
Proof.
  intros Hu Hf.
  split; [exact Hu|]. split; [apply isAuth_empty|].
  split; [apply isBand_empty|exact Hf].
Qed.

Lemma failed_at_0 : failed_attempt ∅ ∅ "12345" at_0.
Proof. apply failed_attempt_unlisted; vm_compute; reflexivity. Qed.

Lemma failed_at_5 : failed_attempt ∅ ∅ "12345" at_5.
Proof. apply failed_attempt_unlisted; vm_compute; reflexivity. Qed.

Lemma failed_at_10 : failed_attempt ∅ ∅ "12345" at_10.
Proof. apply failed_attempt_unlisted; vm_compute; reflexivity. Qed.

Lemma failed_padded_0 : failed_attempt ∅ ∅ "12345" padded_0.
Proof. apply failed_attempt_unlisted; vm_compute; reflexivity. Qed.

Lemma failed_padded_5 : failed_attempt ∅ ∅ "12345" padded_5.
Proof. apply failed_attempt_unlisted; vm_compute; reflexivity. Qed.

Lemma failed_padded_10 : failed_attempt ∅ ∅ "12345" padded_10.
Proof. apply failed_attempt_unlisted; vm_compute; reflexivity. Qed.

Lemma time_at_0 : line_time 0 at_0 = 1609459200.
Proof. vm_compute. reflexivity. Qed.

Lemma time_at_5 : line_time 0 at_5 = 1609459205.
Proof. vm_compute. reflexivity. Qed.

Lemma time_at_10 : line_time 0 at_10 = 1609459210.
Proof. vm_compute. reflexivity. Qed.

(** With a two-digit day the fourteenth character is the first digit of
    the seconds: 00, 05 and 10 seconds read as 0, 0 and 1. *)
Lemma time_padded_0 : line_time 0 padded_0 = 1609459200.
Proof. vm_compute. reflexivity. Qed.

Lemma time_padded_5 : line_time 0 padded_5 = 1609459200.
Proof. vm_compute. reflexivity. Qed.

Lemma time_padded_10 : line_time 0 padded_10 = 1609459201.
Proof. vm_compute. reflexivity. Qed.

Lemma engine_init_log user : log engine_init !! user = None.
Proof. apply lookup_empty. Qed.

Lemma engine_init_unflagged user : flagged engine_init !! user <> Some true.
Proof.
  unfold engine_init. cbn [flagged]. rewrite lookup_empty. discriminate.
Qed.

Lemma run_snoc gmtoff authUser banIP lines line st outs st1 o st2 :
  run gmtoff authUser banIP lines st = Some (outs, st1) ->
  classify gmtoff authUser banIP line st1 = Some (o, st2) ->
  run gmtoff authUser banIP (lines ++ [line]) st = Some (outs ++ [o], st2).
Proof.
  revert st outs. induction lines as [|l rest IH]; intros st outs Hr Hc.
  - injection Hr as <- <-. cbn [app run]. rewrite Hc. reflexivity.
  - cbn [app run] in *.
    destruct (classify gmtoff authUser banIP l st) as [[o' st']|];
      [|discriminate].
    destruct (run gmtoff authUser banIP rest st') as [[os st'']|] eqn:Hrest;
      [|discriminate].
    injection Hr as <- <-.
    rewrite (IH st' os Hrest Hc). reflexivity.
Qed.

Lemma close_5_0 : Z.abs (line_time 0 at_5 - line_time 0 at_0) < 20.
Proof. rewrite time_at_5, time_at_0. reflexivity. Qed.

Lemma close_10_5 : Z.abs (line_time 0 at_10 - line_time 0 at_5) < 20.
Proof. rewrite time_at_10, time_at_5. reflexivity. Qed.

Lemma close_10_10 : Z.abs (line_time 0 at_10 - line_time 0 at_10) < 20.
Proof. rewrite time_at_10. reflexivity. Qed.

(** The four sample attempts from the initial state. *)
Lemma run_samples :
  run 0 ∅ ∅ [at_0; at_5; at_10] engine_init
    = Some ([Benign; Benign; Benign],
            with_history engine_init "12345"
              [1609459200; 1609459205; 1609459210])
  /\ run 0 ∅ ∅ [at_0; at_5; at_10; at_10] engine_init
     = Some ([Benign; Benign; Benign; FrequencyBreach],
             with_history engine_init "12345"
               [1609459205; 1609459210; 1609459210]).
Proof.
  pose proof (run_four_attempts 0 ∅ ∅ "12345" at_0 at_5 at_10 at_10
                engine_init failed_at_0 failed_at_5 failed_at_10
                failed_at_10 close_5_0 close_10_5 close_10_10
                (engine_init_log _) (engine_init_unflagged _)) as H.
  rewrite time_at_0, time_at_5, time_at_10 in H. exact H.
Qed.

Lemma close_padded_5_0 :
  Z.abs (line_time 0 padded_5 - line_time 0 padded_0) < 20.
Proof. rewrite time_padded_5, time_padded_0. reflexivity. Qed.

Lemma close_padded_10_5 :
  Z.abs (line_time 0 padded_10 - line_time 0 padded_5) < 20.
Proof. rewrite time_padded_10, time_padded_5. reflexivity. Qed.

Lemma close_padded_10_10 :
  Z.abs (line_time 0 padded_10 - line_time 0 padded_10) < 20.
Proof. rewrite time_padded_10. reflexivity. Qed.

Lemma run_padded_samples :
  run 0 ∅ ∅ [padded_0; padded_5; padded_10; padded_10] engine_init
  = Some ([Benign; Benign; Benign; FrequencyBreach],
          with_history engine_init "12345"
            [1609459200; 1609459201; 1609459201]).
Proof.
  pose proof (run_four_attempts 0 ∅ ∅ "12345" padded_0 padded_5 padded_10
                padded_10 engine_init failed_padded_0 failed_padded_5
                failed_padded_10 failed_padded_10 close_padded_5_0
                close_padded_10_5 close_padded_10_10
                (engine_init_log _) (engine_init_unflagged _)) as [_ H].
  rewrite time_padded_5, time_padded_10 in H. exact H.
Qed.

(** A fifth attempt after the breach is a breach again. *)
Lemma classify_fifth_sample :
  classify 0 ∅ ∅ at_10
    (with_history engine_init "12345" [1609459205; 1609459210; 1609459210])
  = Some (FrequencyBreach,
          with_history engine_init "12345"
            [1609459210; 1609459210; 1609459210]).
Proof.
  assert (T1 : Z.abs (1609459210 - 1609459205) < 20) by reflexivity.
  assert (T2 : Z.abs (1609459210 - 1609459210) < 20) by reflexivity.
  assert (T3 : Z.abs (line_time 0 at_10 - 1609459210) < 20)
    by (rewrite time_at_10; reflexivity).
  pose proof (classify_fourth 0 ∅ ∅ "12345" at_10
                (with_history engine_init "12345"
                   [1609459205; 1609459210; 1609459210])
                1609459205 1609459210 1609459210 failed_at_10
                (with_history_unflagged _ _ _) (with_history_log _ _ _)
                T1 T2 T3) as H.
  rewrite with_history_twice, time_at_10 in H. exact H.
Qed.

End Samples.

(** ** The properties at concrete input *)

(** C1: with timestamps 0, 5 and 10 seconds the third line is benign and
    the fourth is a frequency breach, whether the day is written with one
    digit or two. *)
Lemma window_threshold_counterexample :
  line_time 0 at_5 = line_time 0 at_0 + 5
  /\ line_time 0 at_10 = line_time 0 at_0 + 10
  /\ fst <$> run 0 ∅ ∅ [at_0; at_5; at_10; at_10] engine_init
     = Some [Benign; Benign; Benign; FrequencyBreach]
  /\ fst <$> run 0 ∅ ∅ [padded_0; padded_5; padded_10; padded_10] engine_init
     = Some [Benign; Benign; Benign; FrequencyBreach]
  /\ ~ (exists o1 o2 st,
           run 0 ∅ ∅ [at_0; at_5; at_10; at_10] engine_init
           = Some ([o1; o2; FrequencyBreach; AlreadyFlagged], st)).
Proof.
  destruct run_samples as [_ H4].
  split; [rewrite time_at_5, time_at_0; reflexivity|].
  split; [rewrite time_at_10, time_at_0; reflexivity|].
  split; [rewrite H4; reflexivity|].
  split; [rewrite run_padded_samples; reflexivity|].
  intros (o1 & o2 & st & H). rewrite H4 in H. discriminate.
Qed.

Lemma window_threshold_witness :
  exists st',
    run 0 ∅ ∅ [at_0; at_5; at_10; at_10] engine_init
      = Some ([Benign; Benign; Benign; FrequencyBreach], st')
    /\ log st' !! "12345"
       = Some [line_time 0 at_5; line_time 0 at_10; line_time 0 at_10]
    /\ flagged st' !! "12345" = Some false.
Proof.
  exact (window_threshold 0 ∅ ∅ "12345" at_0 at_5 at_10 engine_init
           failed_at_0 failed_at_5 failed_at_10 close_5_0 close_10_5
           (engine_init_log _) (engine_init_unflagged _)).
Defined.

(** C2: after the breach on the fourth line the user's flag is false, and
    the fifth line is a frequency breach again, not already flagged. *)
Lemma flag_after_breach_counterexample :
  exists st4,
    run 0 ∅ ∅ [at_0; at_5; at_10; at_10] engine_init
      = Some ([Benign; Benign; Benign; FrequencyBreach], st4)
    /\ flagged st4 !! "12345" = Some false
    /\ flagged st4 !! "12345" <> Some true
    /\ fst <$> classify 0 ∅ ∅ at_10 st4 = Some FrequencyBreach
    /\ fst <$> classify 0 ∅ ∅ at_10 st4 <> Some AlreadyFlagged.
Proof.
  destruct run_samples as [_ H4]. eexists. split; [exact H4|].
  rewrite with_history_flag, classify_fifth_sample.
  split; [reflexivity|]. split; [discriminate|].
  split; [reflexivity|discriminate].
Qed.

Lemma flag_after_breach_witness :
  exists st1 st2,
    flagged st1 !! "12345" = Some false
    /\ flagged st2 !! "12345" = Some false
    /\ classify 0 ∅ ∅ at_10 st2 =
         Some (if fst (checkLog 0 at_10 (log st2) "12345")
               then FrequencyBreach else Benign,
               mk_engine (flagged st2)
                         (snd (checkLog 0 at_10 (log st2) "12345"))).
Proof.
  destruct run_samples as [H3 H4].
  assert (Hc : classify 0 ∅ ∅ at_10
                 (with_history engine_init "12345"
                    [1609459200; 1609459205; 1609459210])
               = Some (FrequencyBreach,
                       with_history engine_init "12345"
                         [1609459205; 1609459210; 1609459210])).
  { cbn [run] in H3, H4.
    destruct (classify 0 ∅ ∅ at_0 engine_init) as [[o1 s1]|]; [|discriminate].
    destruct (classify 0 ∅ ∅ at_5 s1) as [[o2 s2]|]; [|discriminate].
    destruct (classify 0 ∅ ∅ at_10 s2) as [[o3 s3]|]; [|discriminate].
    injection H3 as _ _ _ ->.
    destruct (classify 0 ∅ ∅ at_10 _) as [[o4 s4]|]; [|discriminate].
    injection H4 as _ _ _ -> ->. reflexivity. }
  assert (Hu : extract_user at_10 = Some "12345"%string)
    by apply failed_at_10.
  exists (with_history engine_init "12345"
            [1609459205; 1609459210; 1609459210]),
         (with_history engine_init "12345"
            [1609459205; 1609459210; 1609459210]).
  exact (flag_after_breach 0 ∅ ∅ [at_0; at_5; at_10] _ _ at_10 _ [] [] _
           at_10 "12345" H3 Hu Hc eq_refl Hu (isAuth_empty _)
           (isBand_empty _)).
Defined.

(** C3: a line of two characters that is itself an authorized key: the
    user cannot be extracted, and the line is not classified. *)
Lemma authorization_precedence_counterexample :
  mentions "ab" {["ab"%string := true]}
  /\ classify 0 {["ab"%string := true]} ∅ "ab" engine_init = None
  /\ classify 0 {["ab"%string := true]} ∅ "ab" engine_init
     <> Some (Authorized, engine_init).
Proof.
  assert (H : classify 0 {["ab"%string := true]} ∅ "ab" engine_init = None).
  { apply classify_throws. unfold long_enough.
    assert (E : user_start "ab" = 4) by (vm_compute; reflexivity).
    rewrite E. simpl. lia. }
  split; [|split; [exact H|rewrite H; discriminate]].
  exists "ab"%string. split.
  - exists true. apply lookup_singleton_eq.
  - exists EmptyString, EmptyString. reflexivity.
Qed.

Lemma authorization_precedence_witness :
  let authUser : LookupMap := {["root"%string := true]} in
  let banIP : LookupMap := {["10.0.0.7"%string := true]} in
  let st := with_history engine_init "12345"
              [1609459200; 1609459205; 1609459210] in
  mentions at_10 banIP
  /\ classify 0 authUser banIP at_10 st = Some (Authorized, st).
Proof.
  intros authUser banIP st. split.
  - exists "10.0.0.7"%string. split.
    + exists true. apply lookup_singleton_eq.
    + exists "Jan 1 00:00:10 host sshd[12345]: Failed password for root from "%string,
        " port 22 ssh2"%string. reflexivity.
  - apply (authorization_precedence 0 authUser banIP at_10 st).
    + exists "root"%string. split.
      * exists true. apply lookup_singleton_eq.
      * exists "Jan 1 00:00:10 host sshd[12345]: Failed password for "%string,
          " from 10.0.0.7 port 22 ssh2"%string. reflexivity.
    + unfold long_enough.
      assert (E : user_start at_10 = 25) by (vm_compute; reflexivity).
      assert (E' : String.length at_10 = 84%nat) by (vm_compute; reflexivity).
      rewrite E, E'. lia.
Defined.

Lemma history_collapse_witness :
  let old := [1609459200; 1609459205] in
  let lg : LoginTimes := {["12345"%string := old]} in
  let line := accepted "Jan 1 00:00:12" in
  checkLog 0 line lg "12345"
  = (false, <["12345"%string := [line_time 0 line]]> lg).
Proof.
  intros old lg line.
  destruct (history_collapse 0 line "12345") as [_ H].
  apply (H lg old 0%nat).
  - apply lookup_singleton_eq.
  - simpl. lia.
  - simpl. lia.
  - right. intros Hs. apply contains_substring in Hs.
    vm_compute in Hs. discriminate.
Defined.

Lemma breach_sliding_witness :
  let old := [1609459200; 1609459205; 1609459210] in
  let lg : LoginTimes := {["12345"%string := old]} in
  exists log' old',
    checkLog 0 at_10 lg "12345" = (true, log')
    /\ lg !! "12345" = Some old'
    /\ log' = <["12345"%string := tail (old' ++ [line_time 0 at_10])]> lg.
Proof.
  intros old lg.
  assert (Hc : exists log', checkLog 0 at_10 lg "12345" = (true, log')).
  { rewrite (checkLog_scan 0 at_10 "12345" lg old
               (lookup_singleton_eq _ _))
      by (simpl; lia).
    rewrite time_at_10. cbv zeta. unfold old. cbn [app].
    rewrite scan_four; [eexists; reflexivity|reflexivity..|apply failed_at_10]. }
  destruct Hc as [log' Hc]. exists log'.
  destruct (breach_sliding 0 at_10 "12345") as (_ & _ & _ & H).
  destruct (H lg log' Hc) as (old' & Hold & E).
  exists old'. split; [exact Hc|]. split; [exact Hold|exact E].
Defined.

Lemma bounded_history_witness :
  exists st h,
    run 0 ∅ ∅ [at_0; at_5; at_10; at_10] engine_init
      = Some ([Benign; Benign; Benign; FrequencyBreach], st)
    /\ log st !! "12345" = Some h
    /\ (length h <= 3)%nat.
Proof.
  destruct run_samples as [_ H4].
  eexists _, _. split; [exact H4|]. split; [apply with_history_log|].
  exact (bounded_history 0 ∅ ∅ _ _ _ H4 "12345" _ (with_history_log _ _ _)).
Defined.

Lemma flagged_never_true_witness :
  exists st,
    run 0 ∅ ∅ [at_0; at_5; at_10; at_10] engine_init
      = Some ([Benign; Benign; Benign; FrequencyBreach], st)
    /\ (forall u b, flagged st !! u = Some b -> b = false)
    /\ (forall u, fst (isFlag u (flagged st)) = false)
    /\ AlreadyFlagged ∉ [Benign; Benign; Benign; FrequencyBreach].
Proof.
  destruct run_samples as [_ H4].
  eexists. split; [exact H4|].
  exact (flagged_never_true 0 ∅ ∅ _ _ _ H4).
Defined.

Lemma data_lines_sample :
  data_lines sample_stream
  = [at_0; at_5; at_10; at_10; accepted "Jan 1 00:00:12"].
Proof. vm_compute. reflexivity. Qed.

Lemma long_enough_samples :
  Forall long_enough [at_0; at_5; at_10; at_10; accepted "Jan 1 00:00:12"].
Proof.
  repeat constructor; unfold long_enough; vm_compute; discriminate.
Qed.

Lemma counters_and_summary_witness :
  exists out outs p,
    Z.of_nat (length (data_lines sample_stream)) < 2 ^ 31
    /\ process 0 ∅ ∅ sample_stream = Some out
    /\ data_loop 0 ∅ ∅ (skip_header sample_stream)
         (mk_pstate engine_init 0 0 EmptyString []) = Some p
    /\ run 0 ∅ ∅ (data_lines sample_stream) engine_init
       = Some (outs, p_engine p)
    /\ lineCount p = Z.of_nat (length (data_lines sample_stream))
    /\ hackAtt p = Z.of_nat (length (filter is_hacking outs))
    /\ out = reports (data_lines sample_stream) outs
             ++ [summary (lineCount p) (hackAtt p)]
    /\ forall r n m,
         r ∈ reports (data_lines sample_stream) outs -> r <> summary n m.
Proof.
  assert (Hs : is_Some (process 0 ∅ ∅ sample_stream)).
  { apply process_completes. rewrite data_lines_sample.
    exact long_enough_samples. }
  destruct Hs as [out Hout].
  assert (Hb : Z.of_nat (length (data_lines sample_stream)) < 2 ^ 31).
  { rewrite data_lines_sample. reflexivity. }
  destruct (counters_and_summary 0 ∅ ∅ sample_stream out Hb Hout)
    as (outs & p & H).
  exists out, outs, p. split; [exact Hb|]. split; [exact Hout|exact H].
Defined.

(** The example of the source's comment on [LoginTimes], in a zone four
    hours west of UTC: [toSeconds] gives the comment's values for the
    three timestamps, and the frequency check reads one and the same
    time from the three lines. *)
Lemma comment_example :
  toSeconds (-14400) "Aug 29 11:01:01" 2021 = 1630249261
  /\ toSeconds (-14400) "Aug 29 11:01:02" 2021 = 1630249262
  /\ toSeconds (-14400) "Aug 29 11:01:03" 2021 = 1630249263
  /\ line_time (-14400) (comment_line "01") = 1630249260
  /\ line_time (-14400) (comment_line "02") = 1630249260
  /\ line_time (-14400) (comment_line "03") = 1630249260.
Proof. repeat split; vm_compute; reflexivity. Qed.

Lemma comment_line_stamp :
  comment_line "01" = stamp 7 29 11 1 1 +:+ comment_rest.
Proof. vm_compute. reflexivity. Qed.

Lemma timestamp_parsing_witness :
  exists hist,
    snd (checkLog (-14400) (stamp 7 29 11 1 1 +:+ comment_rest) ∅ "12345")
      !! "12345"
    = Some hist
    /\ List.last hist 0
       = toSeconds (-14400)
           (substring 0 14 (stamp 7 29 11 1 1 +:+ comment_rest)) 2021
    /\ List.last hist 0
       = toSeconds (-14400) (stamp 7 29 11 1 1) 2021 - (1 - 1 / 10).
Proof.
  apply (timestamp_parsing (-14400) 7 29 11 1 1 comment_rest "12345" ∅);
    lia.
Defined.

Lemma user_extraction_precondition_witness :
  user_start "no daemon here" = 4
  /\ extract_user "no daemon here" = Some (substring 4 5 "no daemon here")
  /\ extract_user "abc" = None
  /\ extract_user at_0 = Some (substring (20 + 5) 5 at_0).
Proof.
  destruct user_extraction_precondition as (Habsent & Hfound & Hthrow & _).
  destruct (Habsent "no daemon here"%string) as [Hs Hu];
    [vm_compute; reflexivity|].
  split; [exact Hs|]. split; [apply Hu; simpl; lia|]. split.
  - apply Hthrow. vm_compute. reflexivity.
  - destruct (Hfound at_0 20%nat) as [_ Hu'].
    + vm_compute. reflexivity.
    + vm_compute. reflexivity.
    + apply Hu'. vm_compute. lia.
Defined.

(** ** Further properties of the code *)

(** ** Strings put together *)

Section Appended.

Lemma append_assoc (a b c : string) : (a +:+ b) +:+ c = a +:+ (b +:+ c).
Proof.
  induction a as [|x a IH]; [reflexivity|].
  change (String x ((a +:+ b) +:+ c) = String x (a +:+ (b +:+ c))).
  rewrite IH. reflexivity.
Qed.

Lemma length_append (a b : string) :
  String.length (a +:+ b) = (String.length a + String.length b)%nat.
Proof.
  induction a as [|x a IH]; [reflexivity|].
  change (S (String.length (a +:+ b))
          = S (String.length a + String.length b)).
  rewrite IH. reflexivity.
Qed.

Lemma drop_chars_append (a b : string) :
  drop_chars (String.length a) (a +:+ b) = b.
Proof. induction a as [|x a IH]; [destruct b; reflexivity|exact IH]. Qed.

Lemma substring_whole (s : string) : substring 0 (String.length s) s = s.
Proof.
  induction s as [|x s IH]; [reflexivity|].
  change (String x (substring 0 (String.length s) s) = String x s).
  rewrite IH. reflexivity.
Qed.

Lemma substring_front (a b : string) :
  substring 0 (String.length a) (a +:+ b) = a.
Proof.
  induction a as [|x a IH]; [destruct b; reflexivity|].
  change (String x (substring 0 (String.length a) (a +:+ b)) = String x a).
  rewrite IH. reflexivity.
Qed.

Lemma substring_behind (a b : string) n :
  substring (String.length a) n (a +:+ b) = substring 0 n b.
Proof. induction a as [|x a IH]; [reflexivity|exact IH]. Qed.

Lemma lacks_cons c x s : lacks c (String x s) <-> x <> c /\ lacks c s.
Proof. unfold lacks. simpl. tauto. Qed.

Lemma lacks_append c a b : lacks c (a +:+ b) <-> lacks c a /\ lacks c b.
Proof.
  induction a as [|x a IH].
  - unfold lacks at 2. simpl. tauto.
  - change (String x a +:+ b) with (String x (a +:+ b)).
    rewrite !lacks_cons, IH. tauto.
Qed.

Lemma prefix_char_miss c x s :
  x <> c -> String.prefix (String c EmptyString) (String x s) = false.
Proof.
  intros H. simpl. destruct (ascii_dec c x); [congruence|reflexivity].
Qed.

Lemma prefix_char_hit c s :
  String.prefix (String c EmptyString) (String c s) = true.
Proof.
  simpl. destruct (ascii_dec c c); [destruct s; reflexivity|congruence].
Qed.

(** The search for a character passes over text that lacks it. *)
Lemma find_char_skip c a b pos :
  lacks c a ->
  Str.find_from (String c EmptyString) (a +:+ b) pos
  = Str.find_from (String c EmptyString) b (pos + String.length a).
Proof.
  revert pos. induction a as [|x a IH]; intros pos Ha.
  - rewrite append_nil. f_equal. simpl. lia.
  - apply lacks_cons in Ha as [Hx Ha].
    rewrite append_cons, find_from_unfold, (prefix_char_miss c x _ Hx).
    rewrite (IH (S pos) Ha). f_equal. simpl. lia.
Qed.

Lemma find_char_hit c s pos :
  Str.find_from (String c EmptyString) (String c s) pos = Some pos.
Proof. rewrite find_from_unfold, prefix_char_hit. reflexivity. Qed.

Lemma find_char_none c a pos :
  lacks c a -> Str.find_from (String c EmptyString) a pos = None.
Proof.
  revert pos. induction a as [|x a IH]; intros pos Ha.
  - reflexivity.
  - apply lacks_cons in Ha as [Hx Ha].
    rewrite find_from_unfold, (prefix_char_miss c x _ Hx). apply IH, Ha.
Qed.

(** [find] from the end of a front part looks at what follows it. *)
Lemma find_at_behind a b needle :
  find_at (a +:+ b) needle (Z.of_nat (String.length a))
  = Str.find_result (Str.find_from needle b (String.length a)).
Proof.
  unfold find_at. rewrite length_append.
  destruct (Z.ltb_spec (Z.of_nat (String.length a + String.length b))
              (Z.of_nat (String.length a))); [lia|].
  rewrite Nat2Z.id, drop_chars_append. reflexivity.
Qed.

Lemma find_at_start s needle :
  find_at s needle 0 = Str.find_result (Str.find_from needle s 0).
Proof.
  unfold find_at.
  destruct (Z.ltb_spec (Z.of_nat (String.length s)) 0); [lia|].
  reflexivity.
Qed.

(** [substr] of a middle part. *)
Lemma substr_count_middle a b c count :
  Z.of_nat (String.length b) <= count ->
  (c = EmptyString \/ count = Z.of_nat (String.length b)) ->
  substr_count (a +:+ b +:+ c) (Z.of_nat (String.length a)) count = Some b.
Proof.
  intros Hc Hend. unfold substr_count. rewrite !length_append.
  destruct (Z.ltb_spec
              (Z.of_nat (String.length a
                         + (String.length b + String.length c)))
              (Z.of_nat (String.length a))); [lia|].
  rewrite Nat2Z.id, substring_behind. f_equal.
  destruct Hend as [->| ->].
  - rewrite append_nil_r. simpl String.length.
    replace (Z.to_nat _) with (String.length b) by lia.
    apply substring_whole.
  - replace (Z.to_nat _) with (String.length b) by lia.
    apply substring_front.
Qed.

End Appended.


(** ** [breakDownURL] *)

Section Url.

Ltac same_string := rewrite ?append_assoc; reflexivity.

Lemma find_char_from url p a c b :
  url = p +:+ a +:+ String c b ->
  lacks c a ->
  find_at url (String c EmptyString) (Z.of_nat (String.length p))
  = Z.of_nat (String.length p + String.length a).
Proof.
  intros -> Ha. rewrite find_at_behind, find_char_skip by exact Ha.
  rewrite find_char_hit. reflexivity.
Qed.

Lemma find_char_first url a c b :
  url = a +:+ String c b ->
  lacks c a ->
  find_at url (String c EmptyString) 0 = Z.of_nat (String.length a).
Proof.
  intros -> Ha. rewrite find_at_start, find_char_skip by exact Ha.
  rewrite find_char_hit. reflexivity.
Qed.

Lemma find_char_from_none url p a c :
  url = p +:+ a ->
  lacks c a ->
  find_at url (String c EmptyString) (Z.of_nat (String.length p))
  = Str.npos.
Proof.
  intros -> Ha. rewrite find_at_behind, find_char_none by exact Ha.
  reflexivity.
Qed.

Lemma substr_count_part url a b c pos count :
  url = a +:+ b +:+ c ->
  pos = Z.of_nat (String.length a) ->
  Z.of_nat (String.length b) <= count ->
  (c = EmptyString \/ count = Z.of_nat (String.length b)) ->
  substr_count url pos count = Some b.
Proof. intros -> ->. apply substr_count_middle. Qed.

Lemma lacks_colon_slash : lacks "/" ":".
Proof. unfold lacks. simpl. intros [H|[]]. discriminate. Qed.

Lemma lacks_scheme_mark : lacks ":" "//".
Proof. unfold lacks. simpl. intros [H|[H|[]]]; discriminate. Qed.

Lemma to_size_t_small z :
  0 <= z < 18446744073709551616 -> Str.to_size_t z = z.
Proof. intros H. unfold Str.to_size_t. apply Z.mod_small. exact H. Qed.

(** X1.  A URL with a port comes apart as it was put together: for a
    scheme and a host without a slash, a host without a colon and a port
    without a slash, [breakDownURL] of scheme "://" host ":" port path
    gives the host, the port and the path. *)
Theorem url_with_port scheme host port path :
  lacks "/" scheme -> lacks "/" host -> lacks ":" host -> lacks "/" port ->
  let url := scheme +:+ "://" +:+ host +:+ ":" +:+ port +:+ String "/" path in
  Z.of_nat (String.length url) < Str.npos ->
  breakDownURL url = Some (host, port, String "/" path).
Proof.
  intros Hs Hh Hhc Hp url Hlen.
  set (A := scheme +:+ "://").
  assert (HA : String.length A = (String.length scheme + 3)%nat)
    by (unfold A; rewrite length_append; reflexivity).
  assert (Hurl : String.length url
                 = (String.length A + String.length host + 1
                    + String.length port + 1 + String.length path)%nat).
  { unfold url, A. rewrite !length_append. simpl String.length. lia. }
  assert (Hn : find_at url "/" 0 = Z.of_nat (String.length scheme + 1)).
  { rewrite (find_char_first url (scheme +:+ ":") "/"
               (String "/" (host +:+ ":" +:+ port +:+ String "/" path))).
    - rewrite length_append. reflexivity.
    - unfold url. same_string.
    - apply lacks_append. split; [exact Hs|exact lacks_colon_slash]. }
  assert (Hm : find_at url ":" (Z.of_nat (String.length A))
               = Z.of_nat (String.length A + String.length host)).
  { apply (find_char_from url A host ":" (port +:+ String "/" path));
      [unfold url, A; same_string|exact Hhc]. }
  assert (Hq : find_at url "/"
                 (Z.of_nat (String.length A + String.length host))
               = Z.of_nat (String.length A + String.length host + 1
                           + String.length port)).
  { rewrite <- length_append.
    rewrite (find_char_from url (A +:+ host) (":" +:+ port) "/" path).
    - rewrite !length_append. simpl String.length. f_equal. lia.
    - unfold url, A. same_string.
    - apply lacks_append. split; [exact lacks_colon_slash|exact Hp]. }
  assert (Sport : forall count,
             count = Z.of_nat (String.length port) ->
             substr_count url
               (Z.of_nat (String.length A + String.length host) + 1) count
             = Some port).
  { intros count ->.
    apply (substr_count_part url (A +:+ host +:+ ":") port
             (String "/" path));
      [unfold url, A; same_string
      |rewrite !length_append; simpl String.length; lia
      |lia
      |right; reflexivity]. }
  assert (Spath : forall count,
             Z.of_nat (String.length url) <= count ->
             substr_count url
               (Z.of_nat (String.length A + String.length host + 1
                          + String.length port)) count
             = Some (String "/" path)).
  { intros count Hc.
    apply (substr_count_part url (A +:+ host +:+ ":" +:+ port)
             (String "/" path) EmptyString);
      [unfold url, A; rewrite append_nil_r; same_string
      |rewrite !length_append; simpl String.length; f_equal; lia
      |simpl String.length; lia
      |left; reflexivity]. }
  assert (Shost : forall count,
             count = Z.of_nat (String.length host) ->
             substr_count url (Z.of_nat (String.length A)) count
             = Some host).
  { intros count ->.
    apply (substr_count_part url A host
             (":" +:+ port +:+ String "/" path));
      [unfold url, A; same_string|reflexivity|lia|right; reflexivity]. }
  unfold breakDownURL. clearbody url A.
  change Str.npos with 18446744073709551615 in *.
  rewrite Hn.
  replace (Str.to_size_t (Z.of_nat (String.length scheme + 1) + 2))
    with (Z.of_nat (String.length A))
    by (rewrite to_size_t_small; lia).
  rewrite Hm.
  destruct (Z.eqb_spec (Z.of_nat (String.length A + String.length host))
              18446744073709551615) as [E|_];
    [lia|].
  cbn [negb]. rewrite Hq.
  rewrite (to_size_t_small
             (Z.of_nat (String.length A + String.length host) + 1))
    by (lia).
  rewrite Sport by (rewrite to_size_t_small; lia).
  rewrite Spath by (lia).
  rewrite Shost by (rewrite to_size_t_small; lia).
  reflexivity.
Qed.

(** X2.  A URL without a port gives the port 80, the host and the path,
    provided that the path contains no colon: the first colon after the
    scheme is taken to start the port, wherever it is. *)
Theorem url_default_port scheme host path :
  lacks "/" scheme -> lacks "/" host -> lacks ":" host -> lacks ":" path ->
  let url := scheme +:+ "://" +:+ host +:+ String "/" path in
  Z.of_nat (String.length url) < Str.npos ->
  breakDownURL url = Some (host, "80"%string, String "/" path).
Proof.
  intros Hs Hh Hhc Hp url Hlen.
  set (A := scheme +:+ "://").
  assert (HA : String.length A = (String.length scheme + 3)%nat)
    by (unfold A; rewrite length_append; reflexivity).
  assert (Hurl : String.length url
                 = (String.length A + String.length host + 1
                    + String.length path)%nat).
  { unfold url, A. rewrite !length_append. simpl String.length. lia. }
  assert (Hn : find_at url "/" 0 = Z.of_nat (String.length scheme + 1)).
  { rewrite (find_char_first url (scheme +:+ ":") "/"
               (String "/" (host +:+ String "/" path))).
    - rewrite length_append. reflexivity.
    - unfold url. same_string.
    - apply lacks_append. split; [exact Hs|exact lacks_colon_slash]. }
  assert (Hc : find_at url ":" (Z.of_nat (String.length A)) = Str.npos).
  { apply (find_char_from_none url A (host +:+ String "/" path) ":");
      [unfold url, A; same_string|].
    apply lacks_append. split; [exact Hhc|].
    apply lacks_cons. split; [discriminate|exact Hp]. }
  assert (Hm : find_at url "/" (Z.of_nat (String.length A))
               = Z.of_nat (String.length A + String.length host)).
  { apply (find_char_from url A host "/" path);
      [unfold url, A; same_string|exact Hh]. }
  assert (Spath : forall count,
             Z.of_nat (String.length url) <= count ->
             substr_count url
               (Z.of_nat (String.length A + String.length host)) count
             = Some (String "/" path)).
  { intros count Hcount.
    apply (substr_count_part url (A +:+ host) (String "/" path)
             EmptyString);
      [unfold url, A; rewrite append_nil_r; same_string
      |rewrite !length_append; reflexivity
      |simpl String.length; lia
      |left; reflexivity]. }
  assert (Shost : forall count,
             count = Z.of_nat (String.length host) ->
             substr_count url (Z.of_nat (String.length A)) count
             = Some host).
  { intros count ->.
    apply (substr_count_part url A host (String "/" path));
      [unfold url, A; same_string|reflexivity|lia|right; reflexivity]. }
  unfold breakDownURL. clearbody url A.
  rewrite Hn.
  replace (Str.to_size_t (Z.of_nat (String.length scheme + 1) + 2))
    with (Z.of_nat (String.length A))
    by (change Str.npos with 18446744073709551615 in *;
        rewrite to_size_t_small; lia).
  rewrite Hc, Z.eqb_refl. cbn [negb]. rewrite Hm.
  change Str.npos with 18446744073709551615 in *.
  rewrite Spath by lia.
  rewrite Shost by (rewrite to_size_t_small; lia).
  reflexivity.
Qed.

Lemma lacks_drop_chars c k s : lacks c s -> lacks c (drop_chars k s).
Proof.
  revert s. induction k as [|k IH]; intros s Hs; [exact Hs|].
  destruct s as [|x s]; [exact Hs|].
  apply lacks_cons in Hs as [_ Hs]. apply IH, Hs.
Qed.

Lemma drop_chars_behind (p a : string) k :
  drop_chars (String.length p + k) (p +:+ a) = drop_chars k a.
Proof. induction p as [|x p IH]; [reflexivity|exact IH]. Qed.

(** No occurrence from the end of [p] on, none from anywhere later. *)
Lemma find_at_none_behind p a c pos :
  lacks c a ->
  Z.of_nat (String.length p) <= pos ->
  find_at (p +:+ a) (String c EmptyString) pos = Str.npos.
Proof.
  intros Ha Hpos. unfold find_at.
  destruct (Z.of_nat (String.length (p +:+ a)) <? pos); [reflexivity|].
  replace (Z.to_nat pos)
    with (String.length p + (Z.to_nat pos - String.length p))%nat by lia.
  rewrite drop_chars_behind, find_char_none; [reflexivity|].
  apply lacks_drop_chars, Ha.
Qed.

(** A match of [find] is at or after where the search started. *)
Lemma find_at_from s needle pos :
  0 <= pos ->
  find_at s needle pos = Str.npos \/ pos <= find_at s needle pos.
Proof.
  intros Hpos. unfold find_at.
  destruct (Z.of_nat (String.length s) <? pos); [left; reflexivity|].
  destruct (Str.find_from needle _ _) as [q|] eqn:Hq; [|left; reflexivity].
  right. apply find_from_found in Hq as (pre & post & _ & ->).
  simpl. lia.
Qed.

Lemma substr_count_npos s count :
  Z.of_nat (String.length s) < Str.npos ->
  substr_count s Str.npos count = None.
Proof.
  intros H. unfold substr_count.
  destruct (Z.ltb_spec (Z.of_nat (String.length s)) Str.npos);
    [reflexivity|lia].
Qed.

(** Without a slash from [n] on, the path cannot be taken. *)
Lemma breakDownURL_none url p a :
  url = p +:+ a ->
  lacks "/" a ->
  Str.to_size_t (find_at url "/" 0 + 2) = Z.of_nat (String.length p) ->
  Z.of_nat (String.length url) < Str.npos ->
  breakDownURL url = None.
Proof.
  intros -> Ha Hn Hlen. unfold breakDownURL. rewrite Hn.
  destruct (find_at (p +:+ a) ":" (Z.of_nat (String.length p)) =? Str.npos)
    eqn:Hc; cbn [negb].
  - rewrite (find_at_none_behind p a "/" _ Ha) by lia.
    rewrite substr_count_npos by exact Hlen. reflexivity.
  - apply Z.eqb_neq in Hc.
    destruct (find_at_from (p +:+ a) ":" (Z.of_nat (String.length p)))
      as [E|Hge]; [lia|contradiction|].
    rewrite (find_at_none_behind p a "/" _ Ha Hge).
    rewrite (substr_count_npos _ _ Hlen).
    destruct (substr_count (p +:+ a) _ _); reflexivity.
Qed.

Lemma lacks_all_find_at url c pos :
  lacks c url -> find_at url (String c EmptyString) pos = Str.npos.
Proof.
  intros H. unfold find_at.
  destruct (Z.of_nat (String.length url) <? pos); [reflexivity|].
  rewrite find_char_none; [reflexivity|]. apply lacks_drop_chars, H.
Qed.

(** X3.  A URL in which no slash follows the host raises
    [std::out_of_range]: one without any slash, and one that ends with
    the host, as scheme "://" host does. *)
Theorem url_without_path url :
  Z.of_nat (String.length url) < Str.npos ->
  lacks "/" url
  \/ (exists scheme rest,
        url = scheme +:+ "://" +:+ rest
        /\ lacks "/" scheme /\ lacks "/" rest) ->
  breakDownURL url = None.
Proof.
  intros Hlen [H|(scheme & rest & Hurl & Hs & Hr)].
  - destruct url as [|x url]; [reflexivity|].
    apply (breakDownURL_none (String x url) (String x EmptyString) url);
      [reflexivity| |
       rewrite (lacks_all_find_at _ "/" 0 H); reflexivity|exact Hlen].
    apply lacks_cons in H. apply H.
  - apply (breakDownURL_none url (scheme +:+ "://") rest);
      [rewrite Hurl; same_string|exact Hr| |exact Hlen].
    rewrite (find_char_first url (scheme +:+ ":") "/" (String "/" rest));
      [|rewrite Hurl; same_string
       |apply lacks_append; split; [exact Hs|exact lacks_colon_slash]].
    assert (Hb : Z.of_nat (String.length (scheme +:+ ":")) + 2
                 = Z.of_nat (String.length (scheme +:+ "://")))
      by (rewrite !length_append; simpl String.length; lia).
    rewrite Hb. apply to_size_t_small.
    change Str.npos with 18446744073709551615 in Hlen.
    rewrite Hurl, !length_append in Hlen. rewrite length_append.
    simpl String.length in *. lia.
Qed.

End Url.


(** ** [loadLookup] *)

Section Lookup.

Lemma spacefree_nil : spacefree EmptyString.
Proof. intros c []. Qed.

Lemma spacefree_cons x s :
  spacefree (String x s) <-> Libc.isspace x = false /\ spacefree s.
Proof.
  unfold spacefree. simpl. split.
  - intros H. split; [apply H; left; reflexivity|].
    intros c Hc. apply H. right. exact Hc.
  - intros [Hx Hs] c [<-|Hc]; [exact Hx|apply Hs, Hc].
Qed.

Lemma spacefree_append a b :
  spacefree (a +:+ b) <-> spacefree a /\ spacefree b.
Proof.
  induction a as [|x a IH].
  - rewrite append_nil. split; [|tauto].
    intros H. split; [apply spacefree_nil|exact H].
  - rewrite append_cons, !spacefree_cons, IH. tauto.
Qed.

Lemma append_not_empty (a : string) x :
  a +:+ String x EmptyString <> EmptyString.
Proof. destruct a; discriminate. Qed.

(** Every word read is not empty and has no white space in it. *)
Lemma words_wordlike text entry :
  spacefree entry -> Forall wordlike (words text entry).
Proof.
  revert entry. induction text as [|c rest IH]; intros entry He.
  - destruct entry; [constructor|].
    repeat constructor; [discriminate|exact He].
  - cbn [words]. destruct (Libc.isspace c) eqn:Hc.
    + destruct entry as [|x e].
      * apply IH, spacefree_nil.
      * constructor; [split; [discriminate|exact He]|].
        apply IH, spacefree_nil.
    + apply IH. apply spacefree_append. split; [exact He|].
      apply spacefree_cons. split; [exact Hc|apply spacefree_nil].
Qed.

(** A word followed by white space is read as it stands. *)
Lemma words_word w c rest entry :
  spacefree w -> Libc.isspace c = true ->
  entry +:+ w <> EmptyString ->
  words (w +:+ String c rest) entry
  = (entry +:+ w) :: words rest EmptyString.
Proof.
  revert entry. induction w as [|x w IH]; intros entry Hw Hc Hne.
  - rewrite append_nil, append_nil_r in *. cbn [words]. rewrite Hc.
    destruct entry; [congruence|reflexivity].
  - apply spacefree_cons in Hw as [Hx Hw].
    rewrite append_cons. cbn [words]. rewrite Hx.
    rewrite (IH (entry +:+ String x EmptyString) Hw Hc).
    + rewrite append_assoc. reflexivity.
    + rewrite append_assoc. exact Hne.
Qed.

Lemma words_entry_lines ws :
  Forall wordlike ws -> words (entry_lines ws) EmptyString = ws.
Proof.
  induction 1 as [|w ws [Hne Hw] _ IH]; [reflexivity|].
  cbn [entry_lines]. rewrite words_word; try assumption.
  - rewrite append_nil, IH. reflexivity.
  - reflexivity.
Qed.

(** The map built from a list of entries. *)
Lemma lookup_entries (l : list string) (m0 : LookupMap) k :
  foldl (fun lookup entry => <[entry := true]> lookup) m0 l !! k
  = if decide (k ∈ l) then Some true else m0 !! k.
Proof.
  revert m0. induction l as [|e l IH]; intros m0; cbn [foldl].
  - destruct (decide (k ∈ [])) as [H|_]; [|reflexivity].
    apply elem_of_nil in H. contradiction.
  - rewrite IH. destruct (decide (k ∈ l)) as [Hl|Hl].
    + rewrite decide_True by (apply elem_of_cons; auto). reflexivity.
    + rewrite lookup_insert. destruct (decide (e = k)) as [->|Hne].
      * rewrite decide_True by (apply elem_of_cons; auto). reflexivity.
      * rewrite decide_False; [reflexivity|].
        rewrite elem_of_cons. intros [->|H]; congruence.
Qed.

Lemma loadLookup_lookup text m k :
  loadLookup (Some text) = Some m ->
  m !! k = if decide (k ∈ words text EmptyString) then Some true else None.
Proof.
  intros [= <-]. rewrite lookup_entries, lookup_empty. reflexivity.
Qed.

(** X4.  Whatever the file says, the map [loadLookup] builds has the
    words of the file as its keys and [true] as every value; no key is
    empty and no key contains white space. *)
Theorem loaded_entries_are_words text m k v :
  loadLookup (Some text) = Some m ->
  m !! k = Some v ->
  v = true /\ k ∈ words text EmptyString /\ wordlike k.
Proof.
  intros Hm Hk. rewrite (loadLookup_lookup text m k Hm) in Hk.
  destruct (decide (k ∈ words text EmptyString)) as [Hin|_];
    [|discriminate].
  injection Hk as <-. split; [reflexivity|]. split; [exact Hin|].
  pose proof (words_wordlike text EmptyString spacefree_nil) as Hw.
  rewrite Forall_forall in Hw. apply Hw, Hin.
Qed.

(** X5.  A file that lists entries one per line is loaded back as those
    entries: the keys of the map are exactly the entries, and [isAuth]
    with that map answers true exactly for the lines in which one of
    the entries occurs. *)
Theorem lookup_file_round_trip ws :
  Forall wordlike ws ->
  exists m,
    loadLookup (Some (entry_lines ws)) = Some m
    /\ (forall k, m !! k = Some true <-> k ∈ ws)
    /\ (forall line,
          isAuth line m = true
          <-> exists w, w ∈ ws /\ is_substring w line).
Proof.
  intros Hws. eexists. split; [reflexivity|].
  assert (Hk : forall k,
             foldl (fun lookup entry => <[entry := true]> lookup)
               (∅ : LookupMap)
               (words (entry_lines ws) EmptyString) !! k = Some true
             <-> k ∈ ws).
  { intros k. rewrite lookup_entries, lookup_empty.
    rewrite (words_entry_lines ws Hws).
    destruct (decide (k ∈ ws)) as [Hin|Hout].
    - split; [intros _; exact Hin|reflexivity].
    - split; [discriminate|contradiction]. }
  split; [exact Hk|].
  intros line. rewrite isAuth_mentions. split.
  - intros (e & [v He] & Hs). exists e. split; [|exact Hs].
    apply Hk. rewrite He. f_equal.
    rewrite lookup_entries, lookup_empty in He.
    destruct (decide _); congruence.
  - intros (w & Hw & Hs). exists w. split; [|exact Hs].
    exists true. apply Hk, Hw.
Qed.

(** X6.  [isAuth] and [isBand] answer true exactly when some key of the
    map occurs somewhere in the line; the values of the map are not
    looked at, and an empty key occurs in every line. *)
Theorem lookup_by_substring line (m : LookupMap) :
  (isAuth line m = true
   <-> exists e, is_Some (m !! e) /\ is_substring e line)
  /\ (isBand line m = true
      <-> exists e, is_Some (m !! e) /\ is_substring e line)
  /\ (is_Some (m !! EmptyString) ->
      isAuth line m = true /\ isBand line m = true).
Proof.
  split; [apply lookup_scan_mentions|].
  split; [apply lookup_scan_mentions|].
  intros He.
  assert (Hm : mentions line m).
  { exists EmptyString. split; [exact He|].
    exists EmptyString, line. reflexivity. }
  split; [apply isAuth_mentions|apply isBand_mentions]; exact Hm.
Qed.

End Lookup.


(** ** More on the branch chain and the frequency check *)

Section Rules.

Variable gmtoff : Z.
Variables authUser banIP : LookupMap.

Lemma not_mentions_isAuth line (m : LookupMap) :
  ~ mentions line m -> isAuth line m = false.
Proof.
  intros H. destruct (isAuth line m) eqn:E; [|reflexivity].
  apply isAuth_mentions in E. contradiction.
Qed.

Lemma not_mentions_isBand line (m : LookupMap) :
  ~ mentions line m -> isBand line m = false.
Proof.
  intros H. destruct (isBand line m) eqn:E; [|reflexivity].
  apply isBand_mentions in E. contradiction.
Qed.

Lemma close_failed_spec temp i line :
  close_failed temp i line = true
  <-> Z.abs (nth (i + 1) temp 0 - nth i temp 0) < 20
      /\ is_substring "Failed" line.
Proof.
  unfold close_failed. rewrite andb_true_iff, Z.ltb_lt, contains_substring.
  reflexivity.
Qed.

(** When exactly [checkLog] signals a breach. *)
Lemma checkLog_true_iff line user (log : LoginTimes) :
  fst (checkLog gmtoff line log user) = true
  <-> exists old,
        log !! user = Some old
        /\ (3 <= length old)%nat
        /\ is_substring "Failed" line
        /\ forall i, (i < 3)%nat ->
             Z.abs (nth (i + 1) (old ++ [line_time gmtoff line]) 0
                    - nth i (old ++ [line_time gmtoff line]) 0) < 20.
Proof.
  destruct (log !! user) as [old|] eqn:Hu.
  2:{ rewrite (checkLog_new gmtoff line user log Hu). simpl.
      split; [discriminate|]. intros (old & H & _). discriminate. }
  destruct (le_lt_dec 2 (length old)) as [Hl|Hl].
  2:{ rewrite (checkLog_short gmtoff line user log old Hu Hl). simpl.
      split; [discriminate|]. intros (old' & [= <-] & H3 & _). lia. }
  rewrite (checkLog_scan gmtoff line user log old Hu Hl). cbv zeta.
  set (temp := old ++ [line_time gmtoff line]).
  assert (Hn : length temp = S (length old))
    by (unfold temp; rewrite length_app; simpl; lia).
  unfold scan_result.
  destruct (forallb _ _) eqn:Hall.
  - rewrite forallb_forall in Hall.
    destruct (bool_decide (4 <= length temp)%nat) eqn:H4; simpl.
    + apply bool_decide_eq_true_1 in H4. split; [intros _|reflexivity].
      exists old. split; [reflexivity|]. split; [lia|].
      assert (H0 : close_failed temp 0 line = true)
        by (apply Hall, in_seq; lia).
      split; [apply close_failed_spec in H0; apply H0|].
      intros i Hi.
      assert (Hc : close_failed temp i line = true)
        by (apply Hall, in_seq; lia).
      apply close_failed_spec in Hc. apply Hc.
    + apply bool_decide_eq_false_1 in H4. split; [discriminate|].
      intros (old' & [= <-] & H3 & _). lia.
  - simpl. split; [discriminate|].
    intros (old' & [= <-] & H3 & Hf & Hclose).
    assert (Hall' : forallb (fun i => close_failed temp i line)
                      (seq 0 (Nat.min 3 (length temp - 1))) = true).
    { apply forallb_forall. intros i Hi. apply in_seq in Hi.
      apply close_failed_spec. split; [apply Hclose; lia|exact Hf]. }
    congruence.
Qed.

(** X7.  A line that is long enough for the user to be extracted, contains
    no key of the authorized map and contains some key of the banned map
    anywhere in its text is classified as banned IP, and the engine is
    left as it was. *)
Theorem banned_ip_rule line st :
  long_enough line ->
  ~ mentions line authUser ->
  mentions line banIP ->
  classify gmtoff authUser banIP line st = Some (BannedIP, st).
Proof.
  intros Hl Ha Hb. unfold classify. rewrite (extract_user_some line Hl).
  rewrite (not_mentions_isAuth line authUser Ha).
  apply isBand_mentions in Hb. rewrite Hb. reflexivity.
Qed.

(** X8.  Classifying a line changes nothing for any user but the line's
    own: their histories and their flags are as before. *)
Theorem other_users_untouched line st o st' user other :
  classify gmtoff authUser banIP line st = Some (o, st') ->
  extract_user line = Some user ->
  other <> user ->
  log st' !! other = log st !! other
  /\ flagged st' !! other = flagged st !! other.
Proof.
  intros Hc Hu Hne. apply classify_cases in Hc as (user' & Hu' & H).
  rewrite Hu in Hu'. injection Hu' as <-.
  destruct H as [[_ ->]|[(_ & _ & ->)|(_ & _ & Hfl & Hlog & _)]];
    try (split; reflexivity).
  destruct (checkLog_history gmtoff line user (log st)) as (h & Hh & _).
  rewrite Hlog, Hh, Hfl, !lookup_insert_ne by congruence.
  split; reflexivity.
Qed.

(** X9.  A line of a user whose flag is not set is classified as a
    frequency breach exactly when no authorized and no banned key occurs
    in it, it contains "Failed", the user has at least three stored
    timestamps, and the first three pairs of the stored timestamps
    followed by the line's own are each less than 20 seconds apart. *)
Theorem frequency_breach_exactly_when line st o st' user :
  classify gmtoff authUser banIP line st = Some (o, st') ->
  extract_user line = Some user ->
  flagged st !! user <> Some true ->
  o = FrequencyBreach
  <-> ~ mentions line authUser
      /\ ~ mentions line banIP
      /\ is_substring "Failed" line
      /\ exists old,
           log st !! user = Some old
           /\ (3 <= length old)%nat
           /\ forall i, (i < 3)%nat ->
                Z.abs (nth (i + 1) (old ++ [line_time gmtoff line]) 0
                       - nth i (old ++ [line_time gmtoff line]) 0) < 20.
Proof.
  intros Hc Hu Hf. unfold classify in Hc. rewrite Hu in Hc.
  destruct (isAuth line authUser) eqn:Ha.
  { injection Hc as <- <-. split; [discriminate|].
    intros (H & _). apply isAuth_mentions in Ha. contradiction. }
  destruct (isBand line banIP) eqn:Hb.
  { injection Hc as <- <-. split; [discriminate|].
    intros (_ & H & _). apply isBand_mentions in Hb. contradiction. }
  assert (Hna : ~ mentions line authUser)
    by (intros H; apply isAuth_mentions in H; congruence).
  assert (Hnb : ~ mentions line banIP)
    by (intros H; apply isBand_mentions in H; congruence).
  rewrite isFlag_clear in Hc by (intros [|]; congruence).
  pose proof (checkLog_true_iff line user (log st)) as Hiff.
  destruct (checkLog gmtoff line (log st) user) as [b lg].
  simpl in Hiff. injection Hc as <- <-.
  split.
  - intros Ho. assert (Hb' : b = true) by (destruct b; congruence).
    apply Hiff in Hb' as (old & Hold & H3 & Hfailed & Hclose).
    repeat split; try assumption. exists old. auto.
  - intros (_ & _ & Hfailed & old & Hold & H3 & Hclose).
    assert (Hb' : b = true) by (apply Hiff; exists old; auto).
    rewrite Hb'. reflexivity.
Qed.

Lemma classify_plain line user st :
  plain_line authUser banIP user line ->
  flagged st !! user <> Some true ->
  classify gmtoff authUser banIP line st =
    Some (if fst (checkLog gmtoff line (log st) user)
          then FrequencyBreach else Benign,
          mk_engine (<[user := false]> (flagged st))
                    (snd (checkLog gmtoff line (log st) user))).
Proof.
  intros (Hu & Ha & Hb) Hf.
  apply classify_frequency; try assumption. intros [|]; congruence.
Qed.

(** The first line of a user, failed login or not. *)
Lemma classify_plain_first line user st :
  plain_line authUser banIP user line ->
  flagged st !! user <> Some true ->
  log st !! user = None ->
  classify gmtoff authUser banIP line st
  = Some (Benign, with_history st user [line_time gmtoff line]).
Proof.
  intros Hp Hf Hlog. rewrite (classify_plain line user st Hp Hf).
  rewrite (checkLog_new gmtoff line user (log st) Hlog). reflexivity.
Qed.

(** The second line, failed login or not. *)
Lemma classify_plain_second line user st a :
  plain_line authUser banIP user line ->
  flagged st !! user <> Some true ->
  log st !! user = Some [a] ->
  classify gmtoff authUser banIP line st
  = Some (Benign, with_history st user [a; line_time gmtoff line]).
Proof.
  intros Hp Hf Hlog. rewrite (classify_plain line user st Hp Hf).
  rewrite (checkLog_short gmtoff line user (log st) [a] Hlog)
    by (simpl; lia).
  reflexivity.
Qed.

(** A line without "Failed" of a user with two or more timestamps. *)
Lemma classify_plain_reset line user st old :
  plain_line authUser banIP user line ->
  Str.contains line "Failed" = false ->
  flagged st !! user <> Some true ->
  log st !! user = Some old ->
  (2 <= length old)%nat ->
  classify gmtoff authUser banIP line st
  = Some (Benign, with_history st user [line_time gmtoff line]).
Proof.
  intros Hp Hnf Hf Hlog Hl. rewrite (classify_plain line user st Hp Hf).
  rewrite (checkLog_scan gmtoff line user (log st) old Hlog Hl).
  cbv zeta. unfold scan_result.
  rewrite length_app. cbn [length].
  replace (Nat.min 3 (length old + 1 - 1))
    with (S (Nat.min 2 (length old - 1))) by lia.
  cbn [seq forallb].
  rewrite (close_failed_false _ 0 line (or_intror Hnf)). cbn [andb fst snd].
  rewrite last_last. unfold with_history.
  rewrite insert_insert_eq. reflexivity.
Qed.

Lemma failed_attempt_plain user line :
  failed_attempt authUser banIP user line ->
  plain_line authUser banIP user line.
Proof. intros (Hu & Ha & Hb & _). repeat split; assumption. Qed.

(** One stored timestamp, whatever line it came from, and three more
    lines close together of which the last two are failed logins: the
    last one is a breach. *)
Lemma run_after_one l2 l3 l4 user st a :
  plain_line authUser banIP user l2 ->
  failed_attempt authUser banIP user l3 ->
  failed_attempt authUser banIP user l4 ->
  Z.abs (line_time gmtoff l2 - a) < 20 ->
  Z.abs (line_time gmtoff l3 - line_time gmtoff l2) < 20 ->
  Z.abs (line_time gmtoff l4 - line_time gmtoff l3) < 20 ->
  log st !! user = Some [a] ->
  flagged st !! user <> Some true ->
  run gmtoff authUser banIP [l2; l3; l4] st
  = Some ([Benign; Benign; FrequencyBreach],
          with_history st user
            [line_time gmtoff l2; line_time gmtoff l3;
             line_time gmtoff l4]).
Proof.
  intros H2 H3 H4 T12 T23 T34 Hlog Hflag.
  set (t2 := line_time gmtoff l2) in *. set (t3 := line_time gmtoff l3) in *.
  set (t4 := line_time gmtoff l4) in *.
  assert (C2 := classify_plain_second l2 user st a H2 Hflag Hlog).
  fold t2 in C2.
  assert (C3 := classify_third gmtoff authUser banIP user l3
                  (with_history st user [a; t2]) a t2 H3
                  (with_history_unflagged user st _)
                  (with_history_log user st _) T12 T23).
  rewrite with_history_twice in C3. fold t3 in C3.
  assert (C4 := classify_fourth gmtoff authUser banIP user l4
                  (with_history st user [a; t2; t3]) a t2 t3 H4
                  (with_history_unflagged user st _)
                  (with_history_log user st _) T12 T23 T34).
  rewrite with_history_twice in C4. fold t4 in C4.
  cbn [run]. rewrite C2, C3, C4. reflexivity.
Qed.

(** X10.  The timestamps of lines that are not failed logins count toward
    a breach: for a new user, two lines of any kind followed by two
    failed logins, each within 20 seconds of the line before, make the
    second failed login a frequency breach. *)
Theorem earlier_lines_count l1 l2 l3 l4 user st :
  plain_line authUser banIP user l1 ->
  plain_line authUser banIP user l2 ->
  failed_attempt authUser banIP user l3 ->
  failed_attempt authUser banIP user l4 ->
  Z.abs (line_time gmtoff l2 - line_time gmtoff l1) < 20 ->
  Z.abs (line_time gmtoff l3 - line_time gmtoff l2) < 20 ->
  Z.abs (line_time gmtoff l4 - line_time gmtoff l3) < 20 ->
  log st !! user = None ->
  flagged st !! user <> Some true ->
  exists st',
    run gmtoff authUser banIP [l1; l2; l3; l4] st
    = Some ([Benign; Benign; Benign; FrequencyBreach], st').
Proof.
  intros H1 H2 H3 H4 T12 T23 T34 Hlog Hflag.
  pose proof (classify_plain_first l1 user st H1 Hflag Hlog) as C1.
  pose proof (run_after_one l2 l3 l4 user
                (with_history st user [line_time gmtoff l1])
                (line_time gmtoff l1) H2 H3 H4 T12 T23 T34
                (with_history_log user st _)
                (with_history_unflagged user st _)) as R.
  eexists. change [l1; l2; l3; l4] with ([l1] ++ [l2; l3; l4]).
  cbn [app run] in *. rewrite C1.
  destruct (classify gmtoff authUser banIP l2 _) as [[o2 s2]|];
    [|discriminate].
  destruct (classify gmtoff authUser banIP l3 s2) as [[o3 s3]|];
    [|discriminate].
  destruct (classify gmtoff authUser banIP l4 s3) as [[o4 s4]|];
    [|discriminate].
  injection R as -> -> -> ->. reflexivity.
Qed.

(** X11.  After a line without "Failed" has reset a history of two or
    more timestamps, the line's own timestamp stays in the window: of the
    failed logins that follow, each within 20 seconds of the line
    before, the first two are benign and the third is a frequency
    breach. *)
Theorem reset_then_three_failures s f1 f2 f3 user st old :
  plain_line authUser banIP user s ->
  ~ is_substring "Failed" s ->
  failed_attempt authUser banIP user f1 ->
  failed_attempt authUser banIP user f2 ->
  failed_attempt authUser banIP user f3 ->
  Z.abs (line_time gmtoff f1 - line_time gmtoff s) < 20 ->
  Z.abs (line_time gmtoff f2 - line_time gmtoff f1) < 20 ->
  Z.abs (line_time gmtoff f3 - line_time gmtoff f2) < 20 ->
  log st !! user = Some old ->
  (2 <= length old)%nat ->
  flagged st !! user <> Some true ->
  exists st',
    run gmtoff authUser banIP [s; f1; f2; f3] st
    = Some ([Benign; Benign; Benign; FrequencyBreach], st').
Proof.
  intros Hs Hnf H1 H2 H3 T1 T2 T3 Hlog Hl Hflag.
  assert (Hc : Str.contains s "Failed" = false).
  { destruct (Str.contains s "Failed") eqn:E; [|reflexivity].
    apply contains_substring in E. contradiction. }
  pose proof (classify_plain_reset s user st old Hs Hc Hflag Hlog Hl) as C1.
  pose proof (run_after_one f1 f2 f3 user
                (with_history st user [line_time gmtoff s])
                (line_time gmtoff s) (failed_attempt_plain user f1 H1)
                H2 H3 T1 T2 T3
                (with_history_log user st _)
                (with_history_unflagged user st _)) as R.
  eexists. cbn [run] in *. rewrite C1.
  destruct (classify gmtoff authUser banIP f1 _) as [[o2 s2]|];
    [|discriminate].
  destruct (classify gmtoff authUser banIP f2 s2) as [[o3 s3]|];
    [|discriminate].
  destruct (classify gmtoff authUser banIP f3 s3) as [[o4 s4]|];
    [|discriminate].
  injection R as -> -> -> ->. reflexivity.
Qed.

End Rules.


(** ** More on [toSeconds] *)

Section Clock.

Import Libc.

Lemma match_month_initial c rest :
  month_initial c = false ->
  match_month month_names 0 (String c rest) None = None.
Proof.
  destruct c as [b0 b1 b2 b3 b4 b5 b6 b7].
  destruct b0, b1, b2, b3, b4, b5, b6, b7;
    intros H; try discriminate H; reflexivity.
Qed.

Lemma strptime_unreadable rp t :
  unreadable rp ->
  strptime (Str.c_str rp) "%B %d %H:%M:%S" t = (t, false).
Proof.
  intros H. rewrite strptime_conversion.
  destruct rp as [|c rest]; [reflexivity|].
  cbn [Str.c_str]. destruct (Ascii.eqb c "000"); [reflexivity|].
  change (conversion "B" (String c (Str.c_str rest)) t)
    with (match match_month month_names 0 (String c (Str.c_str rest)) None
          with
          | Some (cnt, trp) => Some (trp, set_mon t cnt)
          | None => None
          end).
  rewrite (match_month_initial c _ H). reflexivity.
Qed.

Lemma substring_unreadable line n :
  unreadable line -> unreadable (substring 0 (S n) line).
Proof. destruct line; [intros _; exact I|exact (fun H => H)]. Qed.

(** The time read from a line whose month cannot be read. *)
Lemma line_time_unreadable gmtoff line :
  unreadable line -> line_time gmtoff line = 1609372800 - gmtoff.
Proof.
  intros H. unfold line_time, toSeconds.
  rewrite strptime_unreadable by (apply substring_unreadable, H).
  reflexivity.
Qed.

Lemma time_of_day_inj h mi s h' mi' s' :
  0 <= h -> 0 <= mi <= 59 -> 0 <= s <= 59 ->
  0 <= h' -> 0 <= mi' <= 59 -> 0 <= s' <= 59 ->
  h * 3600 + mi * 60 + s = h' * 3600 + mi' * 60 + s' ->
  h = h' /\ mi = mi' /\ s = s'.
Proof. lia. Qed.

Lemma month_cases m :
  (m < 12)%nat ->
  m = 0%nat \/ m = 1%nat \/ m = 2%nat \/ m = 3%nat \/ m = 4%nat
  \/ m = 5%nat \/ m = 6%nat \/ m = 7%nat \/ m = 8%nat \/ m = 9%nat
  \/ m = 10%nat \/ m = 11%nat.
Proof. lia. Qed.

Lemma day_number_inj m d m' d' :
  day_of_month m d -> day_of_month m' d' ->
  days_before_month 2021 m + d = days_before_month 2021 m' + d' ->
  m = m' /\ d = d'.
Proof.
  intros [Hm Hd] [Hm' Hd'].
  apply month_cases in Hm, Hm'.
  repeat (destruct Hm as [Hm|Hm]); subst m;
    repeat (destruct Hm' as [Hm'|Hm']); subst m';
    cbn in Hd, Hd' |- *; change (leapyear 2021) with false in *;
    cbv iota in *; lia.
Qed.

(** X12.  On a line that starts with a well-formed 15-character prefix
    "Mon DD HH:MM:SS" the frequency check reads the calendar time with
    only the first digit of the seconds: the cut after 14 characters
    leaves the last digit out. *)
Theorem seconds_digit_dropped gmtoff m d h mi s rest :
  (m < 12)%nat -> 1 <= d <= 31 -> 0 <= h <= 23 -> 0 <= mi <= 59 ->
  0 <= s <= 59 ->
  line_time gmtoff (stamp m d h mi s +:+ rest)
  = epoch_seconds gmtoff 2021 m d h mi (s / 10).
Proof. apply line_time_stamp. Qed.

(** X13.  A line that is empty or starts with a character that no month
    name starts with (a digit, say, as in a date written year first) is
    given one and the same time by the frequency check, midnight before
    1 January 2021 in the local zone, whatever the line says. *)
Theorem unreadable_time_is_constant gmtoff line :
  unreadable line -> line_time gmtoff line = 1609372800 - gmtoff.
Proof. apply line_time_unreadable. Qed.

(** X15.  With the year 2021, [toSeconds] tells any two calendar times
    apart: well-formed prefixes for days that exist, with seconds below
    60, are given the same value only if they are the same. *)
Theorem toSeconds_injective gmtoff m d h mi s m' d' h' mi' s' :
  day_of_month m d -> 0 <= h <= 23 -> 0 <= mi <= 59 -> 0 <= s <= 59 ->
  day_of_month m' d' -> 0 <= h' <= 23 -> 0 <= mi' <= 59 ->
  0 <= s' <= 59 ->
  toSeconds gmtoff (stamp m d h mi s) 2021
  = toSeconds gmtoff (stamp m' d' h' mi' s') 2021 ->
  m = m' /\ d = d' /\ h = h' /\ mi = mi' /\ s = s'.
Proof.
  intros Hd Hh Hmi Hs Hd' Hh' Hmi' Hs' E.
  assert (Hr : forall m d, day_of_month m d -> (m < 12)%nat /\ 1 <= d <= 31).
  { intros k x [Hk Hx]. split; [exact Hk|].
    apply month_cases in Hk.
    repeat (destruct Hk as [Hk|Hk]); subst k; cbn in Hx;
      change (leapyear 2021) with false in *; cbv iota in *; lia. }
  destruct (Hr m d Hd) as [Hm Hd31]. destruct (Hr m' d' Hd') as [Hm' Hd31'].
  rewrite !toSeconds_stamp in E by assumption.
  unfold epoch_seconds in E.
  set (D := days_before_month 2021 m) in *.
  set (D' := days_before_month 2021 m') in *.
  assert (HD : D + d = D' + d' /\ h * 3600 + mi * 60 + s
                                  = h' * 3600 + mi' * 60 + s') by lia.
  destruct HD as [HD HT].
  destruct (day_number_inj m d m' d' Hd Hd' HD) as [-> ->].
  destruct (time_of_day_inj h mi s h' mi' s') as (-> & -> & ->);
    lia.
Qed.

End Clock.

Section Unreadable.

Variable gmtoff : Z.
Variables authUser banIP : LookupMap.

(** X14.  Four failed logins of a new user on lines whose month cannot
    be read are benign three times and then a frequency breach, however
    far apart in time they were written: all four are given the same
    time. *)
Theorem unreadable_lines_breach l1 l2 l3 l4 user st :
  failed_attempt authUser banIP user l1 ->
  failed_attempt authUser banIP user l2 ->
  failed_attempt authUser banIP user l3 ->
  failed_attempt authUser banIP user l4 ->
  unreadable l1 -> unreadable l2 -> unreadable l3 -> unreadable l4 ->
  log st !! user = None ->
  flagged st !! user <> Some true ->
  exists st',
    run gmtoff authUser banIP [l1; l2; l3; l4] st
    = Some ([Benign; Benign; Benign; FrequencyBreach], st').
Proof.
  intros H1 H2 H3 H4 U1 U2 U3 U4 Hlog Hflag.
  assert (T : forall a b, unreadable a -> unreadable b ->
                Z.abs (line_time gmtoff b - line_time gmtoff a) < 20).
  { intros a b Ua Ub. rewrite !line_time_unreadable by assumption.
    rewrite Z.sub_diag. reflexivity. }
  destruct (run_four_attempts gmtoff authUser banIP user l1 l2 l3 l4 st
              H1 H2 H3 H4 (T l1 l2 U1 U2) (T l2 l3 U2 U3) (T l3 l4 U3 U4)
              Hlog Hflag) as [_ R].
  eexists. exact R.
Qed.

End Unreadable.


(** ** More on the line loop *)

Section Stream.

Variable gmtoff : Z.
Variables authUser banIP : LookupMap.

Lemma data_loop_until_empty input p :
  data_loop gmtoff authUser banIP input p
  = data_loop gmtoff authUser banIP (until_empty input) p.
Proof.
  revert p. induction input as [|line rest IH]; intros p; [reflexivity|].
  cbn [data_loop until_empty].
  destruct (String.eqb line EmptyString) eqn:E; [reflexivity|].
  cbn [data_loop]. rewrite E.
  destruct (process_line gmtoff authUser banIP line p); [apply IH|reflexivity].
Qed.

Lemma process_data_lines input1 input2 :
  data_lines input1 = data_lines input2 ->
  process gmtoff authUser banIP input1 = process gmtoff authUser banIP input2.
Proof.
  unfold data_lines, process. intros H.
  rewrite (data_loop_until_empty (skip_header input1)), H.
  rewrite <- (data_loop_until_empty (skip_header input2)). reflexivity.
Qed.

Lemma eqb_empty_false (l : string) :
  l <> EmptyString -> String.eqb l EmptyString = false.
Proof. intros H. apply String.eqb_neq. exact H. Qed.

Lemma skip_header_header header rest :
  Forall (fun l => l <> EmptyString /\ l <> String "013" EmptyString) header ->
  skip_header (header ++ rest) = skip_header rest.
Proof.
  induction 1 as [|l header [H1 H2] _ IH]; [reflexivity|].
  cbn [app skip_header].
  rewrite (eqb_empty_false l H1).
  rewrite (proj2 (String.eqb_neq l (String "013" EmptyString)) H2).
  exact IH.
Qed.

Lemma until_empty_data data rest :
  Forall (fun l => l <> EmptyString) data ->
  until_empty (data ++ EmptyString :: rest) = data.
Proof.
  induction 1 as [|l data H _ IH]; [reflexivity|].
  cbn [app until_empty]. rewrite (eqb_empty_false l H), IH. reflexivity.
Qed.

(** X16.  Only the data lines matter: whatever the header lines say,
    whether the separator is an empty line or a lone carriage return, and
    whatever follows the first empty line after the data, the output is
    that for the data lines alone. *)
Theorem only_data_lines_matter header sep data rest :
  Forall (fun l => l <> EmptyString /\ l <> String "013" EmptyString) header ->
  sep = EmptyString \/ sep = String "013" EmptyString ->
  Forall (fun l => l <> EmptyString) data ->
  process gmtoff authUser banIP (header ++ sep :: data ++ EmptyString :: rest)
  = process gmtoff authUser banIP (EmptyString :: data).
Proof.
  intros Hh Hs Hd. apply process_data_lines. unfold data_lines.
  rewrite (skip_header_header header _ Hh).
  assert (E : skip_header (sep :: data ++ EmptyString :: rest)
              = data ++ EmptyString :: rest)
    by (destruct Hs as [->| ->]; reflexivity).
  rewrite E, (until_empty_data data rest Hd).
  cbn [skip_header]. change (String.eqb EmptyString EmptyString) with true.
  cbn [orb]. clear E. induction Hd as [|l data H _ IH]; [reflexivity|].
  cbn [until_empty]. rewrite (eqb_empty_false l H), <- IH. reflexivity.
Qed.

(** X17.  A stream without a separator, one in which no line is empty or
    a lone carriage return, is all header: nothing is classified and the
    output is the summary with both counters 0. *)
Theorem stream_without_separator input :
  Forall (fun l => l <> EmptyString /\ l <> String "013" EmptyString) input ->
  process gmtoff authUser banIP input = Some [summary 0 0].
Proof.
  intros H. unfold process.
  rewrite <- (app_nil_r input), (skip_header_header input [] H).
  reflexivity.
Qed.

End Stream.


(** ** One user at a time *)

Section PerUser.

Variable gmtoff : Z.
Variables authUser banIP : LookupMap.

Lemma classify_other line st o st' user other :
  classify gmtoff authUser banIP line st = Some (o, st') ->
  extract_user line = Some user ->
  other <> user ->
  same_for other st' st.
Proof.
  intros Hc Hu Hne. apply classify_cases in Hc as (user' & Hu' & H).
  rewrite Hu in Hu'. injection Hu' as <-.
  destruct H as [[_ ->]|[(_ & _ & ->)|(_ & _ & Hfl & Hlog & _)]];
    try (split; reflexivity).
  destruct (checkLog_history gmtoff line user (log st)) as (h & Hh & _).
  split.
  - rewrite Hlog, Hh, lookup_insert_ne by congruence. reflexivity.
  - rewrite Hfl, lookup_insert_ne by congruence. reflexivity.
Qed.

(** What [checkLog] answers and stores for the user depends on the
    user's history alone. *)
Lemma checkLog_local line user (log1 log2 : LoginTimes) :
  log1 !! user = log2 !! user ->
  fst (checkLog gmtoff line log1 user) = fst (checkLog gmtoff line log2 user)
  /\ snd (checkLog gmtoff line log1 user) !! user
     = snd (checkLog gmtoff line log2 user) !! user.
Proof.
  intros H. destruct (log1 !! user) as [old|] eqn:H1; symmetry in H.
  - destruct (le_lt_dec 2 (length old)) as [Hl|Hl].
    + rewrite (checkLog_scan gmtoff line user log1 old H1 Hl),
        (checkLog_scan gmtoff line user log2 old H Hl).
      cbv zeta. unfold scan_result.
      destruct (forallb _ _); [destruct (bool_decide _)|]; simpl;
        rewrite !lookup_insert_eq; split; reflexivity.
    + rewrite (checkLog_short gmtoff line user log1 old H1 Hl),
        (checkLog_short gmtoff line user log2 old H Hl).
      simpl. rewrite !lookup_insert_eq. split; reflexivity.
  - rewrite (checkLog_new gmtoff line user log1 H1),
      (checkLog_new gmtoff line user log2 H).
    simpl. rewrite !lookup_insert_eq. split; reflexivity.
Qed.

Lemma isFlag_local user (fl1 fl2 : LookupMap) :
  fl1 !! user = fl2 !! user ->
  fst (isFlag user fl1) = fst (isFlag user fl2)
  /\ snd (isFlag user fl1) !! user = snd (isFlag user fl2) !! user.
Proof.
  intros H. unfold isFlag. rewrite <- H.
  destruct (fl1 !! user) as [v|] eqn:E; simpl.
  - split; [reflexivity|]. rewrite E. exact H.
  - rewrite !lookup_insert_eq. split; reflexivity.
Qed.

(** The outcome of a line and what is stored for its user depend on
    what the engine holds for that user alone. *)
Lemma classify_local line user st1 st2 o st1' :
  extract_user line = Some user ->
  same_for user st1 st2 ->
  classify gmtoff authUser banIP line st1 = Some (o, st1') ->
  exists st2',
    classify gmtoff authUser banIP line st2 = Some (o, st2')
    /\ same_for user st1' st2'.
Proof.
  intros Hu [Hlog Hfl]. unfold classify. rewrite Hu.
  destruct (isAuth line authUser).
  { intros [= <- <-]. eexists. split; [reflexivity|]. split; assumption. }
  destruct (isBand line banIP).
  { intros [= <- <-]. eexists. split; [reflexivity|]. split; assumption. }
  destruct (isFlag_local user _ _ Hfl) as [Hf1 Hf2].
  destruct (isFlag user (flagged st1)) as [f1 fl1'].
  destruct (isFlag user (flagged st2)) as [f2 fl2'].
  simpl in Hf1, Hf2. subst f2. destruct f1.
  { intros [= <- <-]. eexists. split; [reflexivity|].
    split; [exact Hlog|exact Hf2]. }
  destruct (checkLog_local line user _ _ Hlog) as [Hb Hl].
  destruct (checkLog gmtoff line (log st1) user) as [b1 lg1].
  destruct (checkLog gmtoff line (log st2) user) as [b2 lg2].
  simpl in Hb, Hl. subst b2.
  intros [= <- <-]. eexists. split; [reflexivity|].
  split; [exact Hl|exact Hf2].
Qed.

Lemma same_for_trans user st1 st2 st3 :
  same_for user st1 st2 -> same_for user st2 st3 -> same_for user st1 st3.
Proof. intros [A B] [C D]. split; congruence. Qed.

Lemma run_lines_of user lines st1 st2 outs st1' :
  same_for user st1 st2 ->
  run gmtoff authUser banIP lines st1 = Some (outs, st1') ->
  exists st2',
    run gmtoff authUser banIP (lines_of user lines) st2
    = Some (outcomes_of user lines outs, st2')
    /\ same_for user st1' st2'.
Proof.
  revert st1 st2 outs. induction lines as [|line rest IH];
    intros st1 st2 outs Hs Hr; cbn [run] in Hr.
  - injection Hr as <- <-. exists st2. split; [reflexivity|exact Hs].
  - destruct (classify gmtoff authUser banIP line st1) as [[o s1]|] eqn:Hc;
      [|discriminate].
    destruct (run gmtoff authUser banIP rest s1) as [[os s1']|] eqn:Hrest;
      [|discriminate].
    injection Hr as <- <-. cbn [lines_of outcomes_of].
    destruct (decide (extract_user line = Some user)) as [Hu|Hu].
    + destruct (classify_local line user st1 st2 o s1 Hu Hs Hc)
        as (s2 & Hc2 & Hs2).
      destruct (IH s1 s2 os Hs2 Hrest) as (s2' & Hr2 & Hs2').
      exists s2'. cbn [run]. rewrite Hc2, Hr2. split; [reflexivity|exact Hs2'].
    + assert (Hs1 : same_for user s1 st2).
      { apply (same_for_trans user s1 st1 st2); [|exact Hs].
        destruct (extract_user line) as [u|] eqn:Hl.
        - apply (classify_other line st1 o s1 u user Hc Hl). congruence.
        - unfold classify in Hc. rewrite Hl in Hc. discriminate. }
      exact (IH s1 st2 os Hs1 Hrest).
Qed.

(** X18.  What happens to a user does not depend on the lines of other
    users in between: classifying only the lines of the user, in their
    order, gives the same outcome for each of them and leaves the same
    history and flag for the user. *)
Theorem one_user_at_a_time user lines st outs st' :
  run gmtoff authUser banIP lines st = Some (outs, st') ->
  exists st'',
    run gmtoff authUser banIP (lines_of user lines) st
    = Some (outcomes_of user lines outs, st'')
    /\ log st'' !! user = log st' !! user
    /\ flagged st'' !! user = flagged st' !! user.
Proof.
  intros Hr.
  destruct (run_lines_of user lines st st outs st'
              (conj eq_refl eq_refl) Hr) as (st'' & H & [Hl Hf]).
  exists st''. split; [exact H|]. split; congruence.
Qed.

End PerUser.


(** ** The time zone *)

Section Zone.

Variable g : Z.
Variables authUser banIP : LookupMap.

Local Abbreviation back := (fun t : Z => t - g).

Lemma line_time_zone line : line_time g line = line_time 0 line - g.
Proof. unfold line_time, toSeconds, Libc.mktime. lia. Qed.

Lemma nth_back temp i :
  (i < length temp)%nat -> nth i (map back temp) 0 = nth i temp 0 - g.
Proof.
  intros H. rewrite (nth_indep _ 0 (back 0)) by (rewrite length_map; exact H).
  apply (map_nth back).
Qed.

Lemma close_failed_back temp i line :
  (i + 1 < length temp)%nat ->
  close_failed (map back temp) i line = close_failed temp i line.
Proof.
  intros H. unfold close_failed. rewrite !nth_back by lia.
  f_equal. f_equal. f_equal. lia.
Qed.

Lemma last_back temp :
  temp <> [] -> List.last (map back temp) 0 = List.last temp 0 - g.
Proof.
  intros H. destruct (exists_last H) as (l & x & ->).
  rewrite map_app. cbn [map]. rewrite !last_last. reflexivity.
Qed.

Lemma tail_back (temp : list Z) : tail (map back temp) = map back (tail temp).
Proof. destruct temp; reflexivity. Qed.

Lemma forallb_agree {A} (p q : A -> bool) l :
  (forall x, In x l -> p x = q x) -> forallb p l = forallb q l.
Proof.
  induction l as [|x l IH]; intros H; [reflexivity|].
  cbn [forallb]. rewrite (H x) by (left; reflexivity).
  rewrite IH; [reflexivity|]. intros y Hy. apply H. right. exact Hy.
Qed.

Lemma scan_result_back temp line (log : LoginTimes) user :
  temp <> [] ->
  scan_result (map back temp) line (map back <$> log) user
  = (fst (scan_result temp line log user),
     map back <$> snd (scan_result temp line log user)).
Proof.
  intros Hne. unfold scan_result. rewrite length_map.
  assert (Hall : forallb (fun i => close_failed (map back temp) i line)
                   (seq 0 (Nat.min 3 (length temp - 1)))
                 = forallb (fun i => close_failed temp i line)
                     (seq 0 (Nat.min 3 (length temp - 1)))).
  { apply forallb_agree. intros i Hi. apply in_seq in Hi.
    apply close_failed_back. lia. }
  rewrite Hall. clear Hall.
  destruct (forallb (fun i => close_failed temp i line) _).
  - destruct (bool_decide (4 <= length temp)%nat); cbn [fst snd];
      [|reflexivity].
    rewrite fmap_insert, tail_back. reflexivity.
  - cbn [fst snd]. rewrite fmap_insert, last_back by exact Hne.
    reflexivity.
Qed.

Lemma checkLog_zone line (log : LoginTimes) user :
  checkLog g line (map back <$> log) user
  = (fst (checkLog 0 line log user),
     map back <$> snd (checkLog 0 line log user)).
Proof.
  destruct (log !! user) as [old|] eqn:Hu.
  - assert (Hu' : (map back <$> log) !! user = Some (map back old))
      by (rewrite lookup_fmap, Hu; reflexivity).
    destruct (le_lt_dec 2 (length old)) as [Hl|Hl].
    + rewrite (checkLog_scan g line user _ _ Hu')
        by (rewrite length_map; exact Hl).
      rewrite (checkLog_scan 0 line user log old Hu Hl). cbv zeta.
      rewrite line_time_zone.
      change [line_time 0 line - g] with (map back [line_time 0 line]).
      rewrite <- map_app, <- fmap_insert.
      apply scan_result_back. destruct old; discriminate.
    + rewrite (checkLog_short g line user _ _ Hu')
        by (rewrite length_map; exact Hl).
      rewrite (checkLog_short 0 line user log old Hu Hl). simpl.
      rewrite line_time_zone, fmap_insert, map_app. reflexivity.
  - assert (Hu' : (map back <$> log) !! user = None)
      by (rewrite lookup_fmap, Hu; reflexivity).
    rewrite (checkLog_new g line user _ Hu'),
      (checkLog_new 0 line user log Hu).
    simpl. rewrite line_time_zone, fmap_insert. reflexivity.
Qed.

Lemma classify_zone line st :
  classify g authUser banIP line (shifted g st)
  = match classify 0 authUser banIP line st with
    | Some (o, st') => Some (o, shifted g st')
    | None => None
    end.
Proof.
  unfold classify. destruct (extract_user line) as [user|]; [|reflexivity].
  destruct (isAuth line authUser); [reflexivity|].
  destruct (isBand line banIP); [reflexivity|].
  cbn [shifted flagged log].
  destruct (isFlag user (flagged st)) as [[|] fl]; [reflexivity|].
  rewrite checkLog_zone.
  destruct (checkLog 0 line (log st) user) as [b lg]. reflexivity.
Qed.

Lemma run_zone lines st :
  run g authUser banIP lines (shifted g st)
  = match run 0 authUser banIP lines st with
    | Some (outs, st') => Some (outs, shifted g st')
    | None => None
    end.
Proof.
  revert st. induction lines as [|line rest IH]; intros st; [reflexivity|].
  cbn [run]. rewrite classify_zone.
  destruct (classify 0 authUser banIP line st) as [[o st1]|]; [|reflexivity].
  rewrite IH.
  destruct (run 0 authUser banIP rest st1) as [[os st2]|]; reflexivity.
Qed.

Lemma shifted_init : shifted g engine_init = engine_init.
Proof. unfold shifted, engine_init. cbn [flagged log]. rewrite fmap_empty. reflexivity. Qed.

Lemma data_loop_zone input p :
  data_loop g authUser banIP input
    (mk_pstate (shifted g (p_engine p)) (lineCount p) (hackAtt p)
       (p_user p) (p_os p))
  = match data_loop 0 authUser banIP input p with
    | Some p' =>
        Some (mk_pstate (shifted g (p_engine p')) (lineCount p')
                (hackAtt p') (p_user p') (p_os p'))
    | None => None
    end.
Proof.
  revert p. induction input as [|line rest IH]; intros p.
  - reflexivity.
  - cbn [data_loop]. destruct (String.eqb line EmptyString); [reflexivity|].
    rewrite !process_line_classify. cbn [p_engine lineCount hackAtt p_os].
    rewrite classify_zone.
    destruct (classify 0 authUser banIP line (p_engine p)) as [[o st1]|];
      [|reflexivity].
    apply (IH (mk_pstate st1 _ _ _ _)).
Qed.

End Zone.

(** X19.  With the local time zone a fixed offset from UTC, the offset
    makes no difference to what is found: the outcomes of the lines and
    the output of [process] are the same for every offset. *)
Theorem time_zone_makes_no_difference g authUser banIP :
  (forall lines,
      fst <$> run g authUser banIP lines engine_init
      = fst <$> run 0 authUser banIP lines engine_init)
  /\ (forall input,
        process g authUser banIP input = process 0 authUser banIP input).
Proof.
  split.
  - intros lines. rewrite <- (shifted_init g) at 1. rewrite run_zone.
    destruct (run 0 authUser banIP lines engine_init) as [[outs st]|];
      reflexivity.
  - intros input. unfold process.
    pose proof (data_loop_zone g authUser banIP (skip_header input)
                  (mk_pstate engine_init 0 0 EmptyString [])) as H.
    cbn [p_engine lineCount hackAtt p_user p_os] in H.
    rewrite shifted_init in H. rewrite H.
    destruct (data_loop 0 authUser banIP (skip_header input) _) as [p|];
      reflexivity.
Qed.


(** ** A sustained attack *)

Section Sustained.

Variable gmtoff : Z.
Variables authUser banIP : LookupMap.

(** X20.  Once a user has three stored timestamps close together, every
    further failed login that is read less than 20 seconds from the one
    before is a frequency breach, for as long as they keep coming. *)
Theorem sustained_attack_reported lines user st a b c :
  Forall (failed_attempt authUser banIP user) lines ->
  log st !! user = Some [a; b; c] ->
  Z.abs (b - a) < 20 -> Z.abs (c - b) < 20 ->
  close_chain c (map (line_time gmtoff) lines) ->
  flagged st !! user <> Some true ->
  exists st',
    run gmtoff authUser banIP lines st
    = Some (repeat FrequencyBreach (length lines), st').
Proof.
  intros Hf. revert st a b c.
  induction Hf as [|line rest Hline _ IH]; intros st a b c Hlog Hab Hbc Hch Hfl.
  - exists st. reflexivity.
  - destruct Hch as [Hct Hch].
    pose proof (classify_fourth gmtoff authUser banIP user line st a b c
                  Hline Hfl Hlog Hab Hbc Hct) as Hc.
    destruct (IH (with_history st user [b; c; line_time gmtoff line])
                b c (line_time gmtoff line)
                (with_history_log user st _) Hbc Hct Hch
                (with_history_unflagged user st _)) as (st' & Hr).
    exists st'. cbn [run length repeat]. rewrite Hc, Hr. reflexivity.
Qed.

End Sustained.

(** ** The further properties at concrete input *)

Ltac no_such_char :=
  unfold lacks; cbn [list_ascii_of_string In]; intros H;
  repeat (destruct H as [H|H]; [discriminate H|]); exact H.

Ltac no_space :=
  unfold spacefree; cbn [list_ascii_of_string In]; intros c H;
  repeat (destruct H as [H|H]; [subst c; reflexivity|]); contradiction.

Lemma url_with_port_witness :
  breakDownURL "http://ceclnx01.cec.miamioh.edu:8080/~raodm/full_logs.txt"
  = Some ("ceclnx01.cec.miamioh.edu"%string, "8080"%string,
          "/~raodm/full_logs.txt"%string).
Proof.
  refine (url_with_port "http" "ceclnx01.cec.miamioh.edu" "8080"
            "~raodm/full_logs.txt" _ _ _ _ _);
    try no_such_char.
  vm_compute. reflexivity.
Defined.

Lemma url_default_port_witness :
  breakDownURL "http://ceclnx01.cec.miamioh.edu/~raodm/ssh_logs/full_logs.txt"
  = Some ("ceclnx01.cec.miamioh.edu"%string, "80"%string,
          "/~raodm/ssh_logs/full_logs.txt"%string).
Proof.
  refine (url_default_port "http" "ceclnx01.cec.miamioh.edu"
            "~raodm/ssh_logs/full_logs.txt" _ _ _ _ _);
    try no_such_char.
  vm_compute. reflexivity.
Defined.

Lemma url_without_path_witness :
  breakDownURL "http://ceclnx01.cec.miamioh.edu" = None.
Proof.
  apply url_without_path; [vm_compute; reflexivity|].
  right. exists "http"%string, "ceclnx01.cec.miamioh.edu"%string.
  split; [reflexivity|]. split; no_such_char.
Defined.

Lemma words_sample :
  words "alice bob" EmptyString = ["alice"; "bob"]%string.
Proof. vm_compute. reflexivity. Qed.

Lemma loaded_entries_are_words_witness :
  exists m,
    loadLookup (Some "alice bob"%string) = Some m
    /\ m !! "bob"%string = Some true
    /\ "bob"%string ∈ words "alice bob" EmptyString
    /\ wordlike "bob".
Proof.
  eexists. split; [reflexivity|].
  assert (Hk : foldl (fun lookup entry => <[entry := true]> lookup)
                 (∅ : LookupMap) (words "alice bob" EmptyString)
               !! "bob"%string = Some true).
  { rewrite lookup_entries, words_sample.
    apply decide_True, list_elem_of_further, list_elem_of_here. }
  split; [exact Hk|].
  exact (proj2 (loaded_entries_are_words "alice bob" _ "bob" true
                  eq_refl Hk)).
Defined.

Lemma wordlike_samples : Forall wordlike ["alice"; "bob"]%string.
Proof. repeat constructor; try discriminate; no_space. Qed.

Lemma lookup_file_round_trip_witness :
  exists m,
    loadLookup (Some (entry_lines ["alice"; "bob"]%string)) = Some m
    /\ (forall k, m !! k = Some true <-> k ∈ ["alice"; "bob"]%string)
    /\ (forall line,
          isAuth line m = true
          <-> exists w, w ∈ ["alice"; "bob"]%string /\ is_substring w line).
Proof. exact (lookup_file_round_trip _ wordlike_samples). Defined.

Lemma lookup_by_substring_witness :
  isAuth at_0 {[EmptyString := true]} = true
  /\ isBand at_0 {[EmptyString := true]} = true.
Proof.
  apply (lookup_by_substring at_0 {[EmptyString := true]}).
  exists true. apply lookup_singleton_eq.
Defined.

Lemma not_mentions_empty line : ~ mentions line ∅.
Proof. intros (e & [v H] & _). rewrite lookup_empty in H. discriminate. Qed.

Lemma long_enough_at_10 : long_enough at_10.
Proof. unfold long_enough. vm_compute. discriminate. Qed.

Lemma banned_ip_rule_witness :
  classify 0 ∅ {["10.0.0.7"%string := true]} at_10 engine_init
  = Some (BannedIP, engine_init).
Proof.
  apply banned_ip_rule.
  - exact long_enough_at_10.
  - apply not_mentions_empty.
  - exists "10.0.0.7"%string. split.
    + exists true. apply lookup_singleton_eq.
    + exists "Jan 1 00:00:10 host sshd[12345]: Failed password for root from "%string,
        " port 22 ssh2"%string. reflexivity.
Defined.

Lemma classify_first_sample :
  classify 0 ∅ ∅ at_0 engine_init
  = Some (Benign, with_history engine_init "12345" [line_time 0 at_0]).
Proof.
  exact (classify_first 0 ∅ ∅ "12345" at_0 engine_init failed_at_0
           (engine_init_unflagged _) (engine_init_log _)).
Qed.

Lemma other_users_untouched_witness :
  let st' := with_history engine_init "12345" [line_time 0 at_0] in
  log st' !! "99999" = log engine_init !! "99999"
  /\ flagged st' !! "99999" = flagged engine_init !! "99999".
Proof.
  intros st'.
  refine (other_users_untouched 0 ∅ ∅ at_0 engine_init Benign st'
            "12345" "99999" classify_first_sample _ _).
  - apply failed_at_0.
  - discriminate.
Defined.

Lemma frequency_breach_exactly_when_witness :
  let st := with_history engine_init "12345"
              [1609459205; 1609459210; 1609459210] in
  FrequencyBreach = FrequencyBreach
  <-> ~ mentions at_10 ∅
      /\ ~ mentions at_10 ∅
      /\ is_substring "Failed" at_10
      /\ exists old,
           log st !! "12345" = Some old
           /\ (3 <= length old)%nat
           /\ forall i, (i < 3)%nat ->
                Z.abs (nth (i + 1) (old ++ [line_time 0 at_10]) 0
                       - nth i (old ++ [line_time 0 at_10]) 0) < 20.
Proof.
  intros st.
  refine (frequency_breach_exactly_when 0 ∅ ∅ at_10 st FrequencyBreach _
            "12345" classify_fifth_sample _ _).
  - apply failed_at_10.
  - apply with_history_unflagged.
Defined.

Lemma plain_line_unlisted user line :
  extract_user line = Some user -> plain_line ∅ ∅ user line.
Proof.
  intros Hu. split; [exact Hu|].
  split; [apply isAuth_empty|apply isBand_empty].
Qed.

Lemma plain_ok_0 : plain_line ∅ ∅ "12345" ok_0.
Proof. apply plain_line_unlisted. vm_compute. reflexivity. Qed.

Lemma plain_ok_5 : plain_line ∅ ∅ "12345" ok_5.
Proof. apply plain_line_unlisted. vm_compute. reflexivity. Qed.

Lemma plain_ok_12 : plain_line ∅ ∅ "12345" ok_12.
Proof. apply plain_line_unlisted. vm_compute. reflexivity. Qed.

Lemma time_ok_0 : line_time 0 ok_0 = 1609459200.
Proof. vm_compute. reflexivity. Qed.

Lemma time_ok_5 : line_time 0 ok_5 = 1609459205.
Proof. vm_compute. reflexivity. Qed.

Lemma time_ok_12 : line_time 0 ok_12 = 1609459212.
Proof. vm_compute. reflexivity. Qed.

Lemma earlier_lines_count_witness :
  exists st',
    run 0 ∅ ∅ [ok_0; ok_5; at_10; at_10] engine_init
    = Some ([Benign; Benign; Benign; FrequencyBreach], st').
Proof.
  refine (earlier_lines_count 0 ∅ ∅ ok_0 ok_5 at_10 at_10 "12345"
            engine_init plain_ok_0 plain_ok_5 failed_at_10 failed_at_10
            _ _ close_10_10 (engine_init_log _) (engine_init_unflagged _)).
  - rewrite time_ok_5, time_ok_0. reflexivity.
  - rewrite time_at_10, time_ok_5. reflexivity.
Defined.

Lemma reset_then_three_failures_witness :
  exists st',
    run 0 ∅ ∅ [ok_12; at_10; at_10; at_10]
      (with_history engine_init "12345" [1609459200; 1609459205])
    = Some ([Benign; Benign; Benign; FrequencyBreach], st').
Proof.
  refine (reset_then_three_failures 0 ∅ ∅ ok_12 at_10 at_10 at_10 "12345"
            _ [1609459200; 1609459205] plain_ok_12 _
            failed_at_10 failed_at_10 failed_at_10 _ close_10_10
            close_10_10 (with_history_log _ _ _) _
            (with_history_unflagged _ _ _)).
  - intros Hs. apply contains_substring in Hs. vm_compute in Hs.
    discriminate.
  - rewrite time_at_10, time_ok_12. reflexivity.
  - simpl. lia.
Defined.

Lemma seconds_digit_dropped_witness :
  line_time 0 (stamp 0 1 0 0 5 +:+ " host sshd[12345]: Failed password")
  = epoch_seconds 0 2021 0 1 0 0 (5 / 10).
Proof. apply seconds_digit_dropped; lia. Defined.

Lemma unreadable_iso_line : unreadable iso_line.
Proof. reflexivity. Qed.

Lemma unreadable_time_is_constant_witness :
  line_time 0 iso_line = 1609372800 - 0.
Proof. exact (unreadable_time_is_constant 0 iso_line unreadable_iso_line). Defined.

Lemma failed_iso_line : failed_attempt ∅ ∅ "12345" iso_line.
Proof. apply failed_attempt_unlisted; vm_compute; reflexivity. Qed.

Lemma unreadable_lines_breach_witness :
  exists st',
    run 0 ∅ ∅ [iso_line; iso_line; iso_line; iso_line] engine_init
    = Some ([Benign; Benign; Benign; FrequencyBreach], st').
Proof.
  exact (unreadable_lines_breach 0 ∅ ∅ iso_line iso_line iso_line iso_line
           "12345" engine_init failed_iso_line failed_iso_line
           failed_iso_line failed_iso_line unreadable_iso_line
           unreadable_iso_line unreadable_iso_line unreadable_iso_line
           (engine_init_log _) (engine_init_unflagged _)).
Defined.

Lemma day_10_june : day_of_month 5 10.
Proof. split; [lia|]. vm_compute. split; discriminate. Qed.

Lemma toSeconds_injective_witness :
  5%nat = 5%nat /\ 10 = 10 /\ 3 = 3 /\ 32 = 32 /\ 36 = 36.
Proof.
  refine (toSeconds_injective 0 5 10 3 32 36 5 10 3 32 36
            day_10_june _ _ _ day_10_june _ _ _ eq_refl); lia.
Defined.

Lemma only_data_lines_matter_witness :
  process 0 ∅ ∅
    (["HTTP/1.1 200 OK"%string] ++ String "013" EmptyString
       :: [at_0] ++ EmptyString :: ["never read"%string])
  = process 0 ∅ ∅ (EmptyString :: [at_0]).
Proof.
  apply only_data_lines_matter.
  - repeat constructor; discriminate.
  - right. reflexivity.
  - repeat constructor. discriminate.
Defined.

Lemma stream_without_separator_witness :
  process 0 ∅ ∅ ["HTTP/1.1 200 OK"; "Content-Type: text/plain"]%string
  = Some [summary 0 0].
Proof.
  apply stream_without_separator. repeat constructor; discriminate.
Defined.

Lemma run_mixed_lines :
  exists st',
    run 0 ∅ ∅ mixed_lines engine_init
    = Some ([Benign; Benign; Benign; Benign; Benign; FrequencyBreach], st').
Proof. eexists. vm_compute. reflexivity. Qed.

Lemma lines_of_mixed_lines :
  lines_of "12345" mixed_lines = [at_0; at_5; at_10; at_10]
  /\ outcomes_of "12345" mixed_lines
       [Benign; Benign; Benign; Benign; Benign; FrequencyBreach]
     = [Benign; Benign; Benign; FrequencyBreach].
Proof. split; vm_compute; reflexivity. Qed.

Lemma one_user_at_a_time_witness :
  exists st' st'',
    run 0 ∅ ∅ mixed_lines engine_init
    = Some ([Benign; Benign; Benign; Benign; Benign; FrequencyBreach], st')
    /\ (lines_of "12345" mixed_lines = [at_0; at_5; at_10; at_10]
        /\ outcomes_of "12345" mixed_lines
             [Benign; Benign; Benign; Benign; Benign; FrequencyBreach]
           = [Benign; Benign; Benign; FrequencyBreach])
    /\ run 0 ∅ ∅ (lines_of "12345" mixed_lines) engine_init
       = Some (outcomes_of "12345" mixed_lines
                 [Benign; Benign; Benign; Benign; Benign; FrequencyBreach],
               st'')
    /\ log st'' !! "12345" = log st' !! "12345"
    /\ flagged st'' !! "12345" = flagged st' !! "12345".
Proof.
  destruct run_mixed_lines as [st' Hr].
  destruct (one_user_at_a_time 0 ∅ ∅ "12345" mixed_lines engine_init _ st'
              Hr) as (st'' & H).
  exists st', st''. split; [exact Hr|]. split; [exact lines_of_mixed_lines|].
  exact H.
Defined.

Lemma sustained_attack_reported_witness :
  exists st',
    run 0 ∅ ∅ [at_10; at_10]
      (with_history engine_init "12345"
         [1609459200; 1609459205; 1609459210])
    = Some (repeat FrequencyBreach (length [at_10; at_10]), st').
Proof.
  refine (sustained_attack_reported 0 ∅ ∅ [at_10; at_10] "12345" _
            1609459200 1609459205 1609459210 _ (with_history_log _ _ _)
            _ _ _ (with_history_unflagged _ _ _)).
  - repeat constructor; exact failed_at_10.
  - reflexivity.
  - reflexivity.
  - cbn [map close_chain]. rewrite time_at_10. repeat split; reflexivity.
Defined.
